(** * gblearn.lammps: LAMMPS dump files, their parser and writer

    A shallow embedding of [src/gblearn/lammps.py] (classes [Dump] and
    [Timestep]) together with the properties its specification states.

    The embedding follows the Python source statement by statement:
    - Python values that the parser stores in its untyped [result] dictionary
      are values of [pyval];
    - a raised exception is the [Raise] outcome of [res]; the few places
      where evaluation would leave the modelled fragment of Python and numpy
      (mostly [eval] on a token that is neither a number nor a name) give
      the [Unmodelled] outcome, so that [Ret] and [Raise] always describe
      what CPython 3 does;
    - a text file is the list of its lines, each line with its newline, and
      the cursor of an open file is the list of lines not yet read, so that
      [f.tell()] and [f.seek(lastpos)] save and restore that list;
    - Python [float]s and numpy [float64]s are IEEE binary64 numbers
      ([PrimFloat.float]); text is ASCII. *)

From Stdlib Require Import ZArith NArith List String Ascii Bool Lia.
From Stdlib Require Import PrimFloat FloatOps SpecFloat.
Import ListNotations.
Open Scope string_scope.
Open Scope Z_scope.

Set Implicit Arguments.

(** ** Outcomes of a Python computation *)

Inductive exn : Type :=
| AttributeError | IndexError | KeyError | NameError | OverflowError
| SyntaxError | TypeError | ValueError.

Inductive res (A : Type) : Type :=
| Ret (a : A)
| Raise (e : exn)
| Unmodelled.

Arguments Raise {A} e.
Arguments Unmodelled {A}.

Definition bind {A B : Type} (m : res A) (k : A -> res B) : res B :=
  match m with
  | Ret a => k a
  | Raise e => Raise e
  | Unmodelled => Unmodelled
  end.

Notation "x <- m ;; k" := (bind m (fun x => k))
  (at level 61, m at next level, right associativity).
Notation "' p <- m ;; k" := (bind m (fun p => k))
  (at level 61, p pattern, m at next level, right associativity).

Fixpoint mapM {A B : Type} (f : A -> res B) (l : list A) : res (list B) :=
  match l with
  | [] => Ret []
  | a :: r => b <- f a ;; bs <- mapM f r ;; Ret (b :: bs)
  end.

(** ** Python strings *)

Module Str.

(** [c.isspace()] for an ASCII character: what [str.split()] and
    [str.strip()] take as white space. *)
Definition is_space (c : ascii) : bool :=
  let n := nat_of_ascii c in
  (((9 <=? n) && (n <=? 13)) || ((28 <=? n) && (n <=? 32)))%nat.

Definition is_digit (c : ascii) : bool :=
  let n := nat_of_ascii c in ((48 <=? n) && (n <=? 57))%nat.

Definition digit_val (c : ascii) : Z := Z.of_nat (nat_of_ascii c) - 48.

Definition is_alpha_ (c : ascii) : bool :=
  let n := nat_of_ascii c in
  (((65 <=? n) && (n <=? 90)) || ((97 <=? n) && (n <=? 122)) || (n =? 95))%nat.

(** [s.split()] *)
Fixpoint split (s : string) : list string :=
  match s with
  | "" => []
  | String c r =>
      if is_space c then split r
      else match r with
           | "" => [String c ""]
           | String c' _ =>
               if is_space c' then String c "" :: split r
               else match split r with
                    | t :: ts => String c t :: ts
                    | [] => [String c ""]
                    end
           end
  end.

Fixpoint lstrip (s : string) : string :=
  match s with
  | "" => ""
  | String c r => if is_space c then lstrip r else s
  end.

Fixpoint rstrip (s : string) : string :=
  match s with
  | "" => ""
  | String c r =>
      let r' := rstrip r in
      if (r' =? "")%string && is_space c then "" else String c r'
  end.

(** [s.strip()] *)
Definition strip (s : string) : string := rstrip (lstrip s).

(** [s.split(sep)] for a separator that is not empty; [skip] counts the
    characters of a separator just matched that are still to be dropped. *)
Fixpoint split_on_aux (sep : string) (skip : nat) (s : string) : list string :=
  match s with
  | "" => [""]
  | String c r =>
      match skip with
      | S k => split_on_aux sep k r
      | O =>
          if prefix sep s then "" :: split_on_aux sep (String.length sep - 1) r
          else match split_on_aux sep 0 r with
               | t :: ts => String c t :: ts
               | [] => [String c ""]
               end
      end
  end.

Definition split_on (sep s : string) : list string := split_on_aux sep 0 s.

(** [needle in hay] *)
Fixpoint contains (needle hay : string) : bool :=
  prefix needle hay ||
  match hay with
  | "" => false
  | String _ r => contains needle r
  end.

(** [sep.join(l)] *)
Definition join (sep : string) (l : list string) : string := String.concat sep l.

Definition lower (c : ascii) : ascii :=
  let n := nat_of_ascii c in
  if ((65 <=? n) && (n <=? 90))%nat then ascii_of_nat (n + 32) else c.

Fixpoint lowercase (s : string) : string :=
  match s with
  | "" => ""
  | String c r => String (lower c) (lowercase r)
  end.

End Str.

(** ** Python numbers and their text *)

Module Num.
Import Str.

Definition parse_sign (s : string) : bool * string :=
  match s with
  | String "+" r => (false, r)
  | String "-" r => (true, r)
  | _ => (false, s)
  end.

(** A [digitpart] of Python's grammar, [digit (["_"] digit)*], read greedily
    from the front of [s]: the number read so far, how many digits it has,
    and what is left. *)
Fixpoint scan_digits (acc : Z) (n : nat) (s : string) : Z * nat * string :=
  match s with
  | "" => (acc, n, s)
  | String c r =>
      if is_digit c then scan_digits (10 * acc + digit_val c) (S n) r
      else if (Ascii.eqb c "_" && (0 <? n)%nat)%bool then
        match r with
        | String c' r' =>
            if is_digit c' then scan_digits (10 * acc + digit_val c') (S n) r'
            else (acc, n, s)
        | "" => (acc, n, s)
        end
      else (acc, n, s)
  end.

(** [int(tok)] for a token without white space. *)
Definition py_int (tok : string) : res Z :=
  let (neg, r) := parse_sign tok in
  match scan_digits 0 0 r with
  | (v, S _, "") => Ret (if neg then - v else v)
  | _ => Raise ValueError
  end.

Definition with_sign (neg : bool) (x : float) : float :=
  if neg then (- x)%float else x.

(** The binary64 number nearest to [m * 10 ^ e] (ties to even), for
    [0 <= m]. A quotient is computed with enough bits and a sticky bit,
    then rounded once by [binary_normalize]. *)
Definition float_of_dec (neg : bool) (m e : Z) : float :=
  if m =? 0 then with_sign neg zero
  else if 310 <? e then with_sign neg infinity
  else if e + Z.log2 m / 3 + 1 <? -330 then with_sign neg zero
  else if 0 <=? e then
    with_sign neg (SF2Prim (binary_normalize prec emax (m * 10 ^ e) 0 false))
  else
    let d := 10 ^ (- e) in
    let k := 64 + Z.log2 d in
    let num := m * 2 ^ k in
    let sticky := if num mod d =? 0 then 0 else 1 in
    with_sign neg
      (SF2Prim (binary_normalize prec emax (2 * (num / d) + sticky) (- k - 1) false)).

(** A decimal number without sign: mantissa, power of ten, and whether it
    has a point or an exponent (a float literal) or not (an int literal). *)
Definition parse_decimal (r : string) : option (Z * Z * bool) :=
  let '(ip, ni, r1) := scan_digits 0 0 r in
  let '(mant, nf, r2, pt) :=
    match r1 with
    | String "." r1' => (scan_digits ip 0 r1', true)
    | _ => (ip, O, r1, false)
    end in
  if ((ni =? 0) && (nf =? 0))%nat then None
  else
    match r2 with
    | "" => Some (mant, - Z.of_nat nf, pt)
    | String c r3 =>
        if (Ascii.eqb c "e" || Ascii.eqb c "E")%bool then
          let (eneg, r4) := parse_sign r3 in
          match scan_digits 0 0 r4 with
          | (ev, S _, "") => Some (mant, (if eneg then - ev else ev) - Z.of_nat nf, true)
          | _ => None
          end
        else None
    end.

(** [float(tok)] for a token without white space. *)
Definition py_float (tok : string) : res float :=
  let (neg, r) := parse_sign tok in
  let lr := lowercase r in
  if ((lr =? "inf") || (lr =? "infinity"))%string then Ret (with_sign neg infinity)
  else if (lr =? "nan")%string then Ret nan
  else
    match parse_decimal r with
    | Some (m, e, _) => Ret (float_of_dec neg m e)
    | None => Raise ValueError
    end.

Definition digit_char (d : Z) : ascii := ascii_of_nat (48 + Z.to_nat d).

Fixpoint dec_digits (fuel : nat) (n : Z) (acc : string) : string :=
  match fuel with
  | O => acc
  | S k =>
      let acc' := String (digit_char (n mod 10)) acc in
      if n <? 10 then acc' else dec_digits k (n / 10) acc'
  end.

(** Decimal digits of [n], for [0 <= n]. *)
Definition str_nat (n : Z) : string := dec_digits (S (Z.to_nat (Z.log2 n))) n "".

(** [str(n)], also ["{}".format(n)] and ["{:d}".format(n)]. *)
Definition str_int (n : Z) : string :=
  if n <? 0 then "-" ++ str_nat (- n) else str_nat n.

Fixpoint zeros (n : nat) : string :=
  match n with O => "" | S k => String "0" (zeros k) end.

Definition zfill (w : nat) (s : string) : string :=
  zeros (w - String.length s) ++ s.

Definition round_half_even (num den : Z) : Z :=
  let q := num / den in
  let r := num mod den in
  if 2 * r <? den then q
  else if den <? 2 * r then q + 1
  else if Z.even q then q else q + 1.

Definition sign_str (neg : bool) : string := if neg then "-" else "".

(** The digits of [n] with a point before the last [d] of them. *)
Definition point_digits (d : nat) (n : Z) : string :=
  let ds := zfill (S d) (str_nat n) in
  let k := (String.length ds - d)%nat in
  match d with
  | O => ds
  | _ => substring 0 k ds ++ "." ++ substring k d ds
  end.

(** [m * 2 ^ e] as a fraction. *)
Definition frac_of (m : positive) (e : Z) : Z * Z :=
  if 0 <=? e then (Zpos m * 2 ^ e, 1) else (Zpos m, 2 ^ (- e)).

(** ["{:.<d>f}".format(x)] *)
Definition fmt_fixed (d : nat) (x : float) : string :=
  match Prim2SF x with
  | S754_nan => "nan"
  | S754_infinity s => sign_str s ++ "inf"
  | S754_zero s => sign_str s ++ point_digits d 0
  | S754_finite s m e =>
      let (num, den) := frac_of m e in
      sign_str s ++ point_digits d (round_half_even (num * 10 ^ Z.of_nat d) den)
  end.

(** Whether [10 ^ x <= num / den]. *)
Definition pow10_le (x num den : Z) : bool :=
  if 0 <=? x then 10 ^ x * den <=? num else den <=? num * 10 ^ (- x).

(** The [x] with [10 ^ x <= num / den < 10 ^ (x + 1)]. *)
Definition dec_exponent (num den : Z) : Z :=
  let est := ((Z.log2 num - Z.log2 den) * 30103) / 100000 in
  if pow10_le (est + 1) num den then est + 1
  else if pow10_le est num den then est
  else est - 1.

Definition exp_str (x : Z) : string :=
  (if x <? 0 then "-" else "+") ++ zfill 2 (str_nat (Z.abs x)).

(** ["{:.<d>e}".format(x)] *)
Definition fmt_sci (d : nat) (x : float) : string :=
  match Prim2SF x with
  | S754_nan => "nan"
  | S754_infinity s => sign_str s ++ "inf"
  | S754_zero s => sign_str s ++ point_digits d 0 ++ "e+00"
  | S754_finite s m e =>
      let (num, den) := frac_of m e in
      let x10 := dec_exponent num den in
      let sh := x10 - Z.of_nat d in
      let n := if 0 <=? sh then round_half_even num (den * 10 ^ sh)
               else round_half_even (num * 10 ^ (- sh)) den in
      let (n', x') := if 10 ^ Z.of_nat (S d) <=? n then (n / 10, x10 + 1) else (n, x10) in
      sign_str s ++ point_digits d n' ++ "e" ++ exp_str x'
  end.

End Num.

(** ** Python values *)

Local Set Warnings "-register-all".

(** A numpy array as this module builds them: a vector of [int64] or
    [float64], or a [float64] matrix given by its rows and their length. *)
(** The element types of the arrays. *)
Inductive dtype : Type := Int64 | Float64.

Inductive ndarray : Type :=
| IntVec (l : list Z)
| FloatVec (l : list float)
| FloatMat (cols : nat) (rows : list (list float)).

Inductive pyval : Type :=
| VNone
| VBool (b : bool)
| VInt (n : Z)
| VFloat (x : float)
| VStr (s : string)
| VList (l : list pyval)
| VTuple (l : list pyval)
| VArray (a : ndarray)
| VNpInt (n : Z)        (* a [numpy.int64] scalar *)
| VNpFloat (x : float). (* a [numpy.float64] scalar *)

(** A [dict] with [str] keys, in insertion order; also the attributes of an
    object. *)
Definition pydict : Type := list (string * pyval).

Module Dict.

Fixpoint get (d : pydict) (k : string) : option pyval :=
  match d with
  | [] => None
  | (k', v) :: r => if (k' =? k)%string then Some v else get r k
  end.

(** [k in d] *)
Definition mem (d : pydict) (k : string) : bool :=
  match get d k with Some _ => true | None => false end.

(** [d[k] = v] *)
Fixpoint set (d : pydict) (k : string) (v : pyval) : pydict :=
  match d with
  | [] => [(k, v)]
  | (k', v') :: r =>
      if (k' =? k)%string then (k, v) :: r else (k', v') :: set r k v
  end.

(** [d[k]] *)
Definition item (d : pydict) (k : string) : res pyval :=
  match get d k with Some v => Ret v | None => Raise KeyError end.

(** [d[k].append(v)] *)
Definition append (d : pydict) (k : string) (v : pyval) : res pydict :=
  x <- item d k ;;
  match x with
  | VList l => Ret (set d k (VList (l ++ [v])))
  | VArray _ | VInt _ | VFloat _ | VNone | VBool _ | VStr _ | VTuple _
  | VNpInt _ | VNpFloat _ => Raise AttributeError
  end.

Definition keys (d : pydict) : list string := map fst d.

End Dict.

(** ** [eval] on a token of an atom line *)

Module Expr.
Import Str Num.

(** Leading unary [+] and [-]: whether the value is negated, and the rest. *)
Fixpoint strip_signs (neg : bool) (s : string) : bool * string :=
  match s with
  | String "+" r => strip_signs neg r
  | String "-" r => strip_signs (negb neg) r
  | _ => (neg, s)
  end.

Fixpoint all_ident_chars (s : string) : bool :=
  match s with
  | "" => true
  | String c r => (is_alpha_ c || is_digit c) && all_ident_chars r
  end.

Definition is_identifier (s : string) : bool :=
  match s with
  | "" => false
  | String c _ => is_alpha_ c && all_ident_chars s
  end.

(** Names that are, or may be, bound where [_read] calls [eval]: keywords,
    the local variables of [_read], the globals of the module and the
    builtins that start with a lower-case letter. Names that start with an
    upper-case letter or an underscore (the other builtins and globals) are
    set apart by [maybe_bound]. *)
Definition scope_names : list string :=
  [ "and"; "as"; "assert"; "async"; "await"; "break"; "class"; "continue";
    "def"; "del"; "elif"; "else"; "except"; "finally"; "for"; "from";
    "global"; "if"; "import"; "in"; "is"; "lambda"; "nonlocal"; "not"; "or";
    "pass"; "raise"; "return"; "try"; "while"; "with"; "yield";
    "self"; "openf"; "stepfilter"; "itemstack"; "current"; "result"; "xkeys";
    "timeskip"; "laststep"; "f"; "line"; "lastpos"; "cast"; "raw"; "values";
    "vals"; "sid"; "atype"; "x"; "y"; "z"; "ikey"; "v"; "period"; "headings";
    "extras"; "xheadings"; "xhead"; "key"; "t"; "r"; "np"; "msg";
    "abs"; "aiter"; "all"; "anext"; "any"; "ascii"; "bin"; "bool";
    "breakpoint"; "bytearray"; "bytes"; "callable"; "chr"; "classmethod";
    "compile"; "complex"; "copyright"; "credits"; "delattr"; "dict"; "dir";
    "divmod"; "enumerate"; "eval"; "exec"; "exit"; "filter"; "float";
    "format"; "frozenset"; "getattr"; "globals"; "hasattr"; "hash"; "help";
    "hex"; "id"; "input"; "int"; "isinstance"; "issubclass"; "iter"; "len";
    "license"; "list"; "locals"; "map"; "max"; "memoryview"; "min"; "next";
    "object"; "oct"; "open"; "ord"; "pow"; "print"; "property"; "quit";
    "range"; "repr"; "reversed"; "round"; "set"; "setattr"; "slice";
    "sorted"; "staticmethod"; "str"; "sum"; "super"; "tuple"; "type"; "vars";
    "zip" ].

Definition maybe_bound (s : string) : bool :=
  match s with
  | "" => true
  | String c _ =>
      negb ((97 <=? nat_of_ascii c) && (nat_of_ascii c <=? 122))%nat
      || existsb (String.eqb s) scope_names
  end.

(** [eval(tok)] where [_read] calls it. A signed decimal literal gives its
    number, a name that is bound nowhere raises [NameError], and an int
    literal with a leading zero is a [SyntaxError]; any other expression is
    outside the model. *)
Definition py_eval (tok : string) : res pyval :=
  let (neg, body) := strip_signs false tok in
  match parse_decimal body with
  | Some (m, e, true) => Ret (VFloat (float_of_dec neg m e))
  | Some (m, _, false) =>
      match body with
      | String "0" _ => if m =? 0 then Ret (VInt 0) else Raise SyntaxError
      | _ => Ret (VInt (if neg then - m else m))
      end
  | None =>
      if is_identifier tok then
        if maybe_bound tok then Unmodelled else Raise NameError
      else Unmodelled
  end.

End Expr.

(** ** [str.format] *)

Module Fmt.
Import Str Num.

(** How the fields of a format string are numbered so far. *)
Inductive numbering : Type := NUnset | NAuto (next : nat) | NManual.

(** The format specifications this module uses. *)
Inductive fspec : Type := SDefault | SDec | SFixed (d : nat) | SSci (d : nat).

Definition float_of_int (n : Z) : float := float_of_dec (n <? 0) (Z.abs n) 0.

(** [str(v)] *)
Definition py_str (v : pyval) : res string :=
  match v with
  | VNone => Ret "None"
  | VBool b => Ret (if b then "True" else "False")
  | VInt n | VNpInt n => Ret (str_int n)
  | VStr s => Ret s
  | VList [] => Ret "[]"
  | VList (_ :: _) | VTuple _ | VFloat _ | VNpFloat _ | VArray _ => Unmodelled
  end.

Fixpoint scan_plain (acc : nat) (s : string) : nat * string :=
  match s with
  | String c r =>
      if is_digit c then scan_plain (10 * acc + Z.to_nat (digit_val c)) r
      else (acc, s)
  | "" => (acc, s)
  end.

Definition all_digits (s : string) : bool :=
  match s with
  | "" => false
  | _ => match scan_plain 0 s with (_, "") => true | _ => false end
  end.

Definition parse_spec (spec : string) : res fspec :=
  match spec with
  | "" => Ret SDefault
  | "d" => Ret SDec
  | String "." r =>
      match r with
      | String c _ =>
          if is_digit c then
            match scan_plain 0 r with
            | (d, "f") => Ret (SFixed d)
            | (d, "e") => Ret (SSci d)
            | _ => Unmodelled
            end
          else Unmodelled
      | "" => Unmodelled
      end
  | _ => Unmodelled
  end.

Definition render_float (sp : fspec) (x : float) : string :=
  match sp with
  | SSci d => fmt_sci d x
  | SFixed d => fmt_fixed d x
  | SDefault | SDec => ""
  end.

(** [format(v, spec)] *)
Definition render (sp : fspec) (v : pyval) : res string :=
  match sp with
  | SDefault => py_str v
  | SDec =>
      match v with
      | VInt n | VNpInt n => Ret (str_int n)
      | VBool b => Ret (if b then "1" else "0")
      | VFloat _ | VNpFloat _ | VStr _ => Raise ValueError
      | VNone | VList _ | VTuple _ | VArray _ => Raise TypeError
      end
  | SFixed _ | SSci _ =>
      match v with
      | VFloat x | VNpFloat x => Ret (render_float sp x)
      | VInt n | VNpInt n =>
          let x := float_of_int n in
          if is_infinity x then Raise OverflowError else Ret (render_float sp x)
      | VBool b => Ret (render_float sp (float_of_int (if b then 1 else 0)))
      | VStr _ => Raise ValueError
      | VNone | VList _ | VTuple _ | VArray _ => Raise TypeError
      end
  end.

(** A replacement field's text cut at its first colon. *)
Fixpoint split_field (s : string) : string * string :=
  match s with
  | "" => ("", "")
  | String c r =>
      if Ascii.eqb c ":" then ("", r)
      else let (n, sp) := split_field r in (String c n, sp)
  end.

Definition render_field (args : list pyval) (nb : numbering) (fld : string)
  : res (string * numbering) :=
  let (name, spec) := split_field fld in
  '(idx, nb') <-
    match name with
    | "" =>
        match nb with
        | NManual => Raise ValueError
        | NUnset => Ret (O, NAuto 1)
        | NAuto n => Ret (n, NAuto (S n))
        end
    | _ =>
        if all_digits name then
          match nb with
          | NAuto _ => Raise ValueError
          | NUnset | NManual => Ret (fst (scan_plain 0 name), NManual)
          end
        else Unmodelled
    end ;;
  match nth_error args idx with
  | None => Raise IndexError
  | Some v =>
      sp <- parse_spec spec ;;
      s <- render sp v ;;
      Ret (s, nb')
  end.

(** [fld] is the text of the replacement field being read, if any. *)
Fixpoint format_aux (args : list pyval) (nb : numbering) (fld : option string)
    (s : string) : res string :=
  match s with
  | "" => match fld with None => Ret "" | Some _ => Raise ValueError end
  | String c r =>
      match fld with
      | Some acc =>
          if Ascii.eqb c "}" then
            '(piece, nb') <- render_field args nb acc ;;
            rest <- format_aux args nb' None r ;;
            Ret (piece ++ rest)
          else if Ascii.eqb c "{" then Unmodelled
          else format_aux args nb (Some (acc ++ String c "")) r
      | None =>
          if Ascii.eqb c "{" then
            match r with
            | String "{" r' =>
                rest <- format_aux args nb None r' ;; Ret (String "{" rest)
            | _ => format_aux args nb (Some "") r
            end
          else if Ascii.eqb c "}" then
            match r with
            | String "}" r' =>
                rest <- format_aux args nb None r' ;; Ret (String "}" rest)
            | _ => Raise ValueError
            end
          else rest <- format_aux args nb None r ;; Ret (String c rest)
      end
  end.

(** [fmt.format( *args )] *)
Definition format (fmt : string) (args : list pyval) : res string :=
  format_aux args NUnset None fmt.

End Fmt.

(** ** numpy *)

Module Np.
Import Num.

Definition int64_ok (n : Z) : bool := (- 2 ^ 63 <=? n) && (n <? 2 ^ 63).

Definition as_int64 (v : pyval) : res Z :=
  match v with
  | VInt n => if int64_ok n then Ret n else Raise OverflowError
  | _ => Unmodelled
  end.

(** [np.array(v, int)] *)
Definition array_int (v : pyval) : res ndarray :=
  match v with
  | VList l => ns <- mapM as_int64 l ;; Ret (IntVec ns)
  | _ => Unmodelled
  end.

Definition is_vint (v : pyval) : bool :=
  match v with VInt _ => true | _ => false end.

Definition small_int (v : pyval) : res Z :=
  match v with
  | VInt n => if int64_ok n then Ret n else Unmodelled
  | _ => Unmodelled
  end.

Definition as_float (v : pyval) : res float :=
  match v with
  | VFloat x => Ret x
  | VInt n => if int64_ok n then Ret (Fmt.float_of_int n) else Unmodelled
  | _ => Unmodelled
  end.

Definition only_float (v : pyval) : res float :=
  match v with VFloat x => Ret x | _ => Unmodelled end.

Definition as_row (v : pyval) : res (list float) :=
  match v with
  | VList l | VTuple l => mapM only_float l
  | _ => Unmodelled
  end.

Definition is_seq (v : pyval) : bool :=
  match v with VList _ | VTuple _ => true | _ => false end.

(** [np.array(v)] for a list of numbers or of rows of floats. *)
Definition array (v : pyval) : res ndarray :=
  match v with
  | VList [] => Ret (FloatVec [])
  | VList (x :: r) =>
      if is_seq x then
        rows <- mapM as_row (x :: r) ;;
        let c := List.length (hd [] rows) in
        if forallb (fun row => (List.length row =? c)%nat) rows
        then Ret (FloatMat c rows) else Unmodelled
      else if forallb is_vint (x :: r) then
        ns <- mapM small_int (x :: r) ;; Ret (IntVec ns)
      else xs <- mapM as_float (x :: r) ;; Ret (FloatVec xs)
  | _ => Unmodelled
  end.

(** [len(a)] *)
Definition len (a : ndarray) : nat :=
  match a with
  | IntVec l => List.length l
  | FloatVec l => List.length l
  | FloatMat _ rows => List.length rows
  end.

(** [a[i]] for [0 <= i] *)
Definition item (a : ndarray) (i : nat) : res pyval :=
  match a with
  | IntVec l =>
      match nth_error l i with Some n => Ret (VNpInt n) | None => Raise IndexError end
  | FloatVec l =>
      match nth_error l i with Some x => Ret (VNpFloat x) | None => Raise IndexError end
  | FloatMat _ rows =>
      match nth_error rows i with
      | Some row => Ret (VArray (FloatVec row))
      | None => Raise IndexError
      end
  end.

Definition rtol : float := Eval vm_compute in float_of_dec false 1 (-5).
Definition atol : float := Eval vm_compute in float_of_dec false 1 (-8).

(** One entry of [np.isclose(x, y)] with the default tolerances. *)
Definition isclose (x y : float) : bool :=
  if is_finite x && is_finite y
  then (abs (x - y) <=? atol + rtol * abs y)%float
  else (x =? y)%float.

(** An array as rows of floats: a vector is one row. *)
Definition as_rows (a : ndarray) : nat * list (list float) :=
  match a with
  | IntVec l => (List.length l, [map Fmt.float_of_int l])
  | FloatVec l => (List.length l, [l])
  | FloatMat c rows => (c, rows)
  end.

(** The common length of two axes under broadcasting. *)
Definition bcast_dim (a b : nat) : option nat :=
  if (a =? b)%nat then Some a
  else if (a =? 1)%nat then Some b
  else if (b =? 1)%nat then Some a
  else None.

Definition stretch {A : Type} (n : nat) (l : list A) : list A :=
  match l with
  | [x] => repeat x n
  | _ => l
  end.

Definition asarray (v : pyval) : res ndarray :=
  match v with
  | VArray a => Ret a
  | VList [] => Ret (FloatVec [])
  | _ => Unmodelled
  end.

(** [np.allclose(a, b)] *)
Definition allclose (a b : pyval) : res bool :=
  x <- asarray a ;;
  y <- asarray b ;;
  let (c1, r1) := as_rows x in
  let (c2, r2) := as_rows y in
  match bcast_dim (List.length r1) (List.length r2), bcast_dim c1 c2 with
  | Some n, Some c =>
      Ret (forallb
             (fun rr => forallb (fun xy => isclose (fst xy) (snd xy))
                          (combine (stretch c (fst rr)) (stretch c (snd rr))))
             (combine (stretch n r1) (stretch n r2)))
  | _, _ => Raise ValueError
  end.

End Np.

(** ** Generic operations on values *)

Module Py.

(** [len(v)] *)
Definition len (v : pyval) : res nat :=
  match v with
  | VList l | VTuple l => Ret (List.length l)
  | VStr s => Ret (String.length s)
  | VArray a => Ret (Np.len a)
  | VNone | VBool _ | VInt _ | VFloat _ => Raise TypeError
  | VNpInt _ | VNpFloat _ => Raise TypeError
  end.

(** The elements [for x in v] visits. *)
Definition iter (v : pyval) : res (list pyval) :=
  match v with
  | VList l | VTuple l => Ret l
  | VArray (IntVec l) => Ret (map VNpInt l)
  | VArray (FloatVec l) => Ret (map VNpFloat l)
  | VArray (FloatMat _ rows) => Ret (map (fun r => VArray (FloatVec r)) rows)
  | VNone | VBool _ | VInt _ | VFloat _ | VNpInt _ | VNpFloat _ => Raise TypeError
  | VStr _ => Unmodelled
  end.

(** [v[i]] for [0 <= i] *)
Definition getitem (v : pyval) (i : nat) : res pyval :=
  match v with
  | VList l | VTuple l =>
      match nth_error l i with Some x => Ret x | None => Raise IndexError end
  | VArray a => Np.item a i
  | VStr s =>
      match String.get i s with
      | Some c => Ret (VStr (String c ""))
      | None => Raise IndexError
      end
  | VNone | VBool _ | VInt _ | VFloat _ => Raise TypeError
  | VNpInt _ | VNpFloat _ => Unmodelled
  end.

(** [bool(v)], as [if v] and [all] take it. *)
Definition truth (v : pyval) : res bool :=
  match v with
  | VNone => Ret false
  | VBool b => Ret b
  | VInt n | VNpInt n => Ret (negb (n =? 0))
  | VStr s => Ret (negb (s =? "")%string)
  | VList l | VTuple l => Ret (match l with [] => false | _ => true end)
  | VFloat _ | VNpFloat _ | VArray _ => Unmodelled
  end.

(** [a == b] on values without floats and arrays. *)
Fixpoint eq (a b : pyval) {struct a} : res bool :=
  let fix eq_list (l m : list pyval) {struct l} : res bool :=
    match l, m with
    | [], [] => Ret true
    | x :: l', y :: m' =>
        e <- eq x y ;; if e then eq_list l' m' else Ret false
    | _, _ => Ret false
    end in
  match a, b with
  | VNone, VNone => Ret true
  | VBool x, VBool y => Ret (Bool.eqb x y)
  | VInt x, VInt y => Ret (x =? y)
  | VBool x, VInt y | VInt y, VBool x => Ret ((if x then 1 else 0) =? y)
  | VStr x, VStr y => Ret (x =? y)%string
  | VList l, VList m => eq_list l m
  | VTuple l, VTuple m => eq_list l m
  | (VFloat _ | VNpFloat _ | VNpInt _ | VArray _), _ => Unmodelled
  | _, (VFloat _ | VNpFloat _ | VNpInt _ | VArray _) => Unmodelled
  | _, _ => Ret false
  end.

(** [a > b] for the values a TIMESTEP line can give: an [int], or the empty
    list of a blank line. *)
Definition gt (a b : pyval) : res bool :=
  match a, b with
  | VInt x, VInt y => Ret (y <? x)
  | VList [], VList [] => Ret false
  | VInt _, VList _ | VList _, VInt _ => Raise TypeError
  | _, _ => Unmodelled
  end.

End Py.

(** ** Text files *)

Definition nl : string := String (ascii_of_nat 10) "".

(** An open text file: the lines not yet read. [f.tell()] is the value
    itself and [f.seek(lastpos)] puts a saved value back. *)
Definition cursor : Type := list string.

Module File.

(** The lines of a file's content, each with the newline that ends it. *)
Fixpoint lines (s : string) : list string :=
  match s with
  | "" => []
  | String c r =>
      if Ascii.eqb c (ascii_of_nat 10) then String c "" :: lines r
      else match lines r with
           | [] => [String c ""]
           | l :: ls => String c l :: ls
           end
  end.

(** [f.readline()]: the next line, or [''] at the end of the file. *)
Definition readline (f : cursor) : string * cursor :=
  match f with
  | [] => ("", [])
  | line :: rest => (line, rest)
  end.

End File.

(** ** class [Timestep] *)

(** An instance: its attributes. [setattr] makes every extra column of the
    file an attribute next to [types], [ids], [xyz], ... *)
Definition object : Type := pydict.

(** A [Dump] instance: [steps] is the dict from [t.index] to the time
    step, in insertion order. *)
Record dump_object : Type := mkDump {
  dump_filepath : string;
  steps : list (pyval * object)
}.

(** What [isinstance] tells apart. *)
Inductive instance : Type :=
| ITimestep (o : object)
| IDump (d : dump_object)
| IOther (v : pyval).

Module Timestep.
Import Str Num.

Definition t : Type := object.

(** An entry of [itemstack]: the types a value line is cast to. *)
Inductive caster : Type := CInt | CFloat.

Definition apply_caster (c : caster) (tok : string) : res pyval :=
  match c with
  | CInt => n <- py_int tok ;; Ret (VInt n)
  | CFloat => x <- py_float tok ;; Ret (VFloat x)
  end.

(** The local variables of [_read], and [self.index]. [itemstack] has the
    end of the Python list (where [append] and [pop] work) at its head. *)
Record state : Type := mkState {
  itemstack : option (list (list caster));
  current : option string;
  result : pydict;
  xkeys : option (list string);
  timeskip : bool;
  laststep : bool;
  index : pyval
}.

Definition init_state (index : pyval) : state :=
  mkState (Some []) None [] None false false index.

(** What one turn of the [while] loop ends with. *)
Inductive control : Type :=
| Continue (st : state)
| Break (st : state) (rewind : bool)   (* [rewind]: after [f.seek(lastpos)] *)
| Return (d : pydict).

(** [values not in stepfilter] *)
Definition not_in_filter (values : pyval) (stepfilter : list Z) : bool :=
  match values with
  | VInt n => negb (existsb (Z.eqb n) stepfilter)
  | _ => true
  end.

Definition is_none (v : pyval) : bool :=
  match v with VNone => true | _ => false end.

(** Lines 286-301: what the value of a TIMESTEP section decides. *)
Definition time_check (shared : bool) (stepfilter : option (list Z))
    (st : state) (values : pyval) : res control :=
  let skip :=
    match stepfilter with
    | Some sf => not_in_filter values sf
    | None => false
    end in
  if skip then
    Ret (Continue (mkState (itemstack st) (current st) (result st) (xkeys st)
                     true (laststep st) (index st)))
  else if is_none (index st) then
    Ret (Continue (mkState (itemstack st) (current st) (result st) (xkeys st)
                     (timeskip st) (laststep st) values))
  else
    e <- Py.eq values (index st) ;;
    if e then
      Ret (Continue (mkState (itemstack st) (current st) (result st) (xkeys st)
                       false (laststep st) (index st)))
    else
      g <- Py.gt values (index st) ;;
      if g then
        if shared then
          Ret (Continue (mkState (itemstack st) (current st) (result st)
                           (xkeys st) true true (index st)))
        else Ret (Return [])
      else
        Ret (Continue (mkState (itemstack st) (current st) (result st)
                         (xkeys st) true (laststep st) (index st))).

(** Lines 303-308: the value is stored under [current]. [rest] is what is
    left of [itemstack] after the [pop]. *)
Definition store (rest : list (list caster)) (cur : string) (values : pyval)
    (d : pydict) : res pydict :=
  match rest with
  | [] =>
      if Dict.mem d cur then Dict.append d cur values
      else Ret (Dict.set d cur values)
  | _ :: _ =>
      if Dict.mem d cur then Dict.append d cur values
      else Dict.append (Dict.set d cur (VList [])) cur values
  end.

(** Lines 279-309: a line read while [itemstack] is not empty. *)
Definition read_value (shared : bool) (stepfilter : option (list Z))
    (st : state) (cast : list caster) (rest : list (list caster))
    (line : string) : res control :=
  vs <- mapM (fun tr => apply_caster (fst tr) (snd tr)) (combine cast (split line)) ;;
  let values := match vs with [v] => v | _ => VList vs end in
  let st0 := mkState (Some rest) (current st) (result st) (xkeys st)
               (timeskip st) (laststep st) (index st) in
  c <- (if match current st with Some "time" => true | _ => false end
        then time_check shared stepfilter st0 values
        else Ret (Continue st0)) ;;
  match c with
  | Continue st1 =>
      match current st1 with
      | Some cur =>
          d <- store rest cur values (result st1) ;;
          Ret (Continue (mkState (itemstack st1) (current st1) d (xkeys st1)
                           (timeskip st1) (laststep st1) (index st1)))
      | None => Unmodelled
      end
  | Break _ _ | Return _ => Ret c
  end.

(** [a, b = tuple(map(int, l))] *)
Definition unpack2 (l : list Z) : res (Z * Z) :=
  match l with
  | [a; b] => Ret (a, b)
  | _ => Raise ValueError
  end.

(** [x, y, z = tuple(map(float, l))] *)
Definition unpack3 (l : list float) : res (float * float * float) :=
  match l with
  | [x; y; z] => Ret (x, y, z)
  | _ => Raise ValueError
  end.

(** Lines 325-326: [for ikey, v in enumerate(vals[5:])]. The column
    [result[xkeys[ikey]]] and its [append] are looked up before [eval(v)]
    runs. *)
Fixpoint read_extras (xk : list string) (ikey : nat) (vs : list string)
    (d : pydict) : res pydict :=
  match vs with
  | [] => Ret d
  | v :: r =>
      match nth_error xk ikey with
      | None => Raise IndexError
      | Some key =>
          _ <- Dict.append d key VNone ;;
          x <- Expr.py_eval v ;;
          d' <- Dict.append d key x ;;
          read_extras xk (S ikey) r d'
      end
  end.

(** Lines 317-327: a line of the ATOMS section. *)
Definition read_atom (st : state) (line : string) : res state :=
  let vals := split line in
  ns <- mapM py_int (firstn 2 vals) ;;
  '(sid, atype) <- unpack2 ns ;;
  d1 <- Dict.append (result st) "type" (VInt atype) ;;
  d2 <- Dict.append d1 "id" (VInt sid) ;;
  xs <- mapM py_float (firstn 3 (skipn 2 vals)) ;;
  '(x, y, z) <- unpack3 xs ;;
  d3 <- Dict.append d2 "xyz" (VTuple [VFloat x; VFloat y; VFloat z]) ;;
  d4 <- (match xkeys st with
         | Some xk =>
             if (5 <? List.length vals)%nat
             then read_extras xk 0 (skipn 5 vals) d3
             else Ret d3
         | None => Ret d3
         end) ;;
  Ret (mkState (itemstack st) (current st) d4 (xkeys st) (timeskip st)
         (laststep st) (index st)).

(** Lines 341-345: the periodicity tokens of a BOX BOUNDS header. *)
Definition box_periodic (line : string) : pyval :=
  match split_on "BOX BOUNDS" (strip line) with
  | [_; p] =>
      if (p =? "")%string then VTuple [VStr "ss"; VStr "ss"; VStr "ss"]
      else VList (map VStr (split (strip p)))
  | _ => VTuple [VStr "ss"; VStr "ss"; VStr "ss"]
  end.

(** Lines 357-365: the extra columns an ATOMS header declares. *)
Fixpoint atom_keys (xheadings : list string) (d : pydict) (xk : list string)
  : pydict * list string :=
  match xheadings with
  | [] => (d, xk)
  | xhead :: r =>
      let key := "atom:" ++ xhead in
      atom_keys r (Dict.set d key (VList [])) (xk ++ [key])%list
  end.

(** [itemstack.append(c)] and [itemstack.extend(cs)] *)
Definition push (cs : list (list caster)) (stack : option (list (list caster)))
  : res (option (list (list caster))) :=
  match stack with
  | Some l => Ret (Some (rev cs ++ l)%list)
  | None => Raise AttributeError
  end.

(** Lines 329-365: a line read as a section header, or passed over. *)
Definition read_header (st : state) (line : string) : res control :=
  if contains "ITEM: TIMESTEP" line then
    if laststep st then Ret (Break st true)
    else
      stack <- push [[CInt]] (itemstack st) ;;
      Ret (Continue (mkState stack (Some "time") (result st) (xkeys st)
                       false (laststep st) (index st)))
  else if negb (timeskip st) then
    if contains "ITEM: NUMBER OF ATOMS" line then
      stack <- push [[CInt]] (itemstack st) ;;
      Ret (Continue (mkState stack (Some "natoms") (result st) (xkeys st)
                       (timeskip st) (laststep st) (index st)))
    else if contains "ITEM: BOX BOUNDS" line then
      let d := Dict.set (result st) "periodic" (box_periodic line) in
      stack <- push [[CFloat; CFloat]; [CFloat; CFloat]; [CFloat; CFloat]]
                 (itemstack st) ;;
      Ret (Continue (mkState stack (Some "box") d (xkeys st)
                       (timeskip st) (laststep st) (index st)))
    else if contains "ITEM: ATOMS" line then
      let d := Dict.set (Dict.set (Dict.set (result st) "type" (VList []))
                           "id" (VList [])) "xyz" (VList []) in
      let headings := split line in
      let (d', xk) :=
        if (7 <? List.length headings)%nat
        then let (d', l) := atom_keys (skipn 7 headings) d [] in (d', Some l)
        else (d, xkeys st) in
      Ret (Continue (mkState None (Some "atoms") d' xk
                       (timeskip st) (laststep st) (index st)))
    else Ret (Continue st)
  else Ret (Continue st).

(** Lines 279-365: the body of the [while] loop for a line that is not
    ['']. [shared] is [openf is not None]. *)
Definition read_line (shared : bool) (stepfilter : option (list Z))
    (st : state) (line : string) : res control :=
  match itemstack st with
  | Some (cast :: rest) => read_value shared stepfilter st cast rest line
  | Some [] => read_header st line
  | None =>
      if match current st with Some "atoms" => true | _ => false end then
        if contains "ITEM" line then
          Ret (Break (mkState (itemstack st) None (result st) (xkeys st)
                        (timeskip st) (laststep st) (index st)) shared)
        else st' <- read_atom st line ;; Ret (Continue st')
      else read_header st line
  end.

(** Lines 272-371: the loop. The outcome is [result], [self.index] and
    where the file is left. *)
Fixpoint read_loop (shared : bool) (stepfilter : option (list Z))
    (st : state) (f : cursor) : res (pydict * pyval * cursor) :=
  match f with
  | [] => Ret (result st, index st, [])
  | line :: rest =>
      if (line =? "")%string then Ret (result st, index st, rest)
      else
        c <- read_line shared stepfilter st line ;;
        match c with
        | Continue st' => read_loop shared stepfilter st' rest
        | Break st' rewind =>
            Ret (result st', index st', if rewind then f else rest)
        | Return d => Ret (d, index st, rest)
        end
  end.

(** [self._read(openf, stepfilter)]. [file]: the lines of the file at
    [self.filepath], read when [openf] is [None]. The cursor returned is
    that of [openf]. *)
Definition _read (file : list string) (index : pyval) (openf : option cursor)
    (stepfilter : option (list Z)) : res (pydict * pyval * option cursor) :=
  match openf with
  | None =>
      '(d, i, _) <- read_loop false stepfilter (init_state index) file ;;
      Ret (d, i, None)
  | Some f =>
      '(d, i, f') <- read_loop true stepfilter (init_state index) f ;;
      Ret (d, i, Some f')
  end.

(** [getattr(self, name)] *)
Definition getattr (self : t) (name : string) : res pyval :=
  match Dict.get self name with
  | Some v => Ret v
  | None => Raise AttributeError
  end.

(** Lines 103-108: every key of [raw] with ["atom:"] in it names an extra
    column; the column becomes an attribute. *)
Fixpoint set_extras (raw : pydict) (keys : list string) (self : t) : res t :=
  match keys with
  | [] => Ret self
  | key :: r =>
      if negb (contains "atom:" key) then set_extras raw r self
      else
        match nth_error (split_on ":" key) 1 with
        | None => Raise IndexError
        | Some quant =>
            self1 <- Dict.append self "extras" (VStr quant) ;;
            v <- Dict.item raw key ;;
            a <- Np.array v ;;
            set_extras raw r (Dict.set self1 quant (VArray a))
        end
  end.

(** [tuple(map(lambda p: p == "pp", v))] *)
Definition periodic_flags (v : pyval) : res pyval :=
  l <- Py.iter v ;;
  bs <- mapM (fun p => e <- Py.eq p (VStr "pp") ;; Ret (VBool e)) l ;;
  Ret (VTuple bs).

Definition wmsg : string :=
  "File {} did not have as many atoms ({}/{}) as specified.".

(** Lines 90-97: the instance left when [raw] has fewer than six keys, the
    sign that no time step was read. *)
Definition empty (filepath : string) (index : pyval) : t :=
  [("filepath", VStr filepath); ("index", index); ("types", VList []);
   ("ids", VList []); ("xyz", VList []); ("box", VNone); ("periodic", VNone);
   ("extras", VNone)].

(** What a call of the constructor leaves: the instance, the cursor of
    [openf], and the calls of [msg.warn] made, each by its arguments. *)
Definition built : Type := t * option cursor * list (list pyval).

(** [Timestep(filepath, index, openf, stepfilter)]. [index] is [0] when the
    caller gives none. *)
Definition __init__ (file : list string) (filepath : string)
    (index : option Z) (openf : option cursor) (stepfilter : option (list Z))
  : res built :=
  let self0 : t :=
    [("filepath", VStr filepath);
     ("index", match index with Some i => VInt i | None => VNone end)] in
  '(raw, i, f) <- _read file (match index with Some i => VInt i | None => VNone end)
                    openf stepfilter ;;
  let self1 := Dict.set self0 "index" i in
  if (List.length raw <? 6)%nat then Ret (empty filepath i, f, [])
  else
    ty <- Dict.item raw "type" ;;
    types <- Np.array_int ty ;;
    idl <- Dict.item raw "id" ;;
    ids <- Np.array_int idl ;;
    xl <- Dict.item raw "xyz" ;;
    xyz <- Np.array xl ;;
    let self2 :=
      Dict.set (Dict.set (Dict.set (Dict.set self1 "types" (VArray types))
        "ids" (VArray ids)) "xyz" (VArray xyz)) "extras" (VList [VStr "ids"]) in
    self3 <- set_extras raw (Dict.keys raw) self2 ;;
    pl <- Dict.item raw "periodic" ;;
    periodic <- periodic_flags pl ;;
    bl <- Dict.item raw "box" ;;
    box <- Np.array bl ;;
    let self4 := Dict.set (Dict.set self3 "periodic" periodic) "box" (VArray box) in
    cur_xyz <- getattr self4 "xyz" ;;
    n <- Py.len cur_xyz ;;
    natoms <- Dict.item raw "natoms" ;;
    same <- Py.eq (VInt (Z.of_nat n)) natoms ;;
    if same then Ret (self4, f, [])
    else
      text <- Fmt.format wmsg [VStr filepath] ;;
      Ret (self4, f, [[VStr text; VInt (Z.of_nat n); natoms]]).

(** [len(self)] *)
Definition __len__ (self : t) : res nat :=
  xyz <- getattr self "xyz" ;; Py.len xyz.

(** [a and b] for two tests, the second evaluated only when the first is
    true. *)
Definition and_then (a : res bool) (b : res bool) : res bool :=
  x <- a ;; if x then b else Ret false.

Definition close_attr (self other : t) (name : string) : res bool :=
  a <- getattr self name ;; b <- getattr other name ;; Np.allclose a b.

Definition same_attr (self other : t) (name : string) : res bool :=
  a <- getattr self name ;; b <- getattr other name ;; Py.eq a b.

(** [self == other] *)
Definition __eq__ (self : t) (other : instance) : res bool :=
  match other with
  | ITimestep o =>
      and_then (close_attr self o "xyz")
        (and_then (close_attr self o "ids")
           (and_then (close_attr self o "types")
              (and_then (same_attr self o "extras")
                 (and_then (close_attr self o "box")
                    (same_attr self o "periodic")))))
  | IDump _ | IOther _ => Ret false
  end.

(** A call of a collaborator that is not part of this module. *)
Inductive call : Type :=
| CallSelection (method : string) (xyz values types : pyval) (kwargs : pydict)
| CallGrainBoundary (xyz types box Z : pyval) (extras : option pydict)
    (soapargs : pydict).

Definition as_str (v : pyval) : res string :=
  match v with VStr s => Ret s | _ => Raise TypeError end.

(** [a[ids]] and [a[ids,:]] for an array [ids] of integers. *)
Definition take (a ids : pyval) : res pyval :=
  match a, ids with
  | VArray arr, VArray (IntVec l) =>
      let n := Z.of_nat (Np.len arr) in
      let pick {A : Type} (xs : list A) (i : Z) : res A :=
        if ((- n <=? i) && (i <? n))%bool then
          match nth_error xs (Z.to_nat (if i <? 0 then i + n else i)) with
          | Some x => Ret x
          | None => Raise IndexError
          end
        else Raise IndexError in
      match arr with
      | IntVec xs => r <- mapM (pick xs) l ;; Ret (VArray (IntVec r))
      | FloatVec xs => r <- mapM (pick xs) l ;; Ret (VArray (FloatVec r))
      | FloatMat c rows => r <- mapM (pick rows) l ;; Ret (VArray (FloatMat c r))
      end
  | _, _ => Unmodelled
  end.

Section Collaborators.

(** [gblearn.selection.median], [gblearn.selection.cna_max],
    [gblearn.selection.extent] and [gblearn.gb.GrainBoundary]: their code
    is not part of this module. *)
Variable sel_median : pyval -> pyval -> pyval -> pydict -> res pyval.
Variable sel_cna_max : pyval -> pyval -> pyval -> pydict -> res pyval.
Variable extent : pyval -> nat -> res pyval.
Variable GrainBoundary :
  pyval -> pyval -> pyval -> pyval -> option pydict -> pydict -> res pyval.

(** [self.gbids(method, pattr, **kwargs)], with the calls it makes. *)
Definition gbids (self : t) (method pattr : string) (kwargs : pydict)
  : list call * res pyval :=
  let run (sel : pyval -> pyval -> pyval -> pydict -> res pyval) :=
    match (xyz <- getattr self "xyz" ;;
           vals <- getattr self pattr ;;
           types <- getattr self "types" ;;
           Ret (xyz, vals, types)) with
    | Ret (xyz, vals, types) =>
        ([CallSelection method xyz vals types kwargs], sel xyz vals types kwargs)
    | Raise e => ([], Raise e)
    | Unmodelled => ([], Unmodelled)
    end in
  if (method =? "median")%string then run sel_median
  else if (method =? "cna")%string then run sel_cna_max
  else ([], Ret VNone).

(** Lines 155-158: the extra columns of the selected atoms. *)
Fixpoint gb_extras (self : t) (ids : pyval) (names : list pyval) (x : pydict)
  : res pydict :=
  match names with
  | [] => Ret x
  | k :: r =>
      name <- as_str k ;;
      col <- getattr self name ;;
      sel <- take col ids ;;
      gb_extras self ids r (Dict.set x name sel)
  end.

(** [self.gb(Z, method, pattr, extras, soapargs, **kwargs)], with the calls
    it makes. [Z] is [VNone] when the caller gives none. *)
Definition gb (self : t) (Z : pyval) (method pattr : string) (extras : bool)
    (soapargs kwargs : pydict) : list call * res pyval :=
  if is_none Z then ([], Raise ValueError)
  else if Dict.mem self "gbids" then ([], Raise TypeError)
  else
    let (calls, r) := gbids self method pattr kwargs in
    match r with
    | Ret ids =>
        let args :=
          x <- (if extras then
                  ex <- getattr self "extras" ;;
                  names <- Py.iter ex ;;
                  d <- gb_extras self ids names [] ;;
                  Ret (Some d)
                else Ret None) ;;
          xyz <- getattr self "xyz" ;;
          sxyz <- take xyz ids ;;
          types <- getattr self "types" ;;
          stypes <- take types ids ;;
          box <- getattr self "box" ;;
          Ret (sxyz, stypes, box, x) in
        match args with
        | Ret (sxyz, stypes, box, x) =>
            ((calls ++ [CallGrainBoundary sxyz stypes box Z x soapargs])%list,
             GrainBoundary sxyz stypes box Z x soapargs)
        | Raise e => (calls, Raise e)
        | Unmodelled => (calls, Unmodelled)
        end
    | Raise e => (calls, Raise e)
    | Unmodelled => (calls, Unmodelled)
    end.

(** Lines 229-234: the format of the extra columns of an atom line. *)
Fixpoint extras_format (self : t) (ix : nat) (names : list pyval)
  : res (list string) :=
  match names with
  | [] => Ret []
  | x :: r =>
      name <- as_str x ;;
      col <- getattr self name ;;
      first <- Py.getitem col 0 ;;
      here <- match first with
              | VNpInt _ =>
                  s <- Fmt.format "{{{0:d}:d}}" [VInt (Z.of_nat (ix + 5))] ;;
                  Ret [s]
              | VNpFloat _ =>
                  s <- Fmt.format "{{{0:d}:.5e}}" [VInt (Z.of_nat (ix + 5))] ;;
                  Ret [s]
              | _ => Ret []
              end ;;
      rest <- extras_format self (S ix) r ;;
      Ret (here ++ rest)%list
  end.

(** Lines 239-244: the lines of the atoms. *)
Fixpoint atom_lines (self : t) (atomfmt : string) (names : list pyval)
    (iatom : nat) (rows : list pyval) : res string :=
  match rows with
  | [] => Ret ""
  | xyz :: r =>
      ids <- getattr self "ids" ;;
      sid <- Py.getitem ids iatom ;;
      types <- getattr self "types" ;;
      atype <- Py.getitem types iatom ;;
      cs <- Py.iter xyz ;;
      match cs with
      | [x; y; z] =>
          xvals <- mapM (fun xname =>
                           name <- as_str xname ;;
                           col <- getattr self name ;;
                           Py.getitem col iatom) names ;;
          line <- Fmt.format atomfmt ([sid; atype; x; y; z] ++ xvals)%list ;;
          rest <- atom_lines self atomfmt names (S iatom) r ;;
          Ret (line ++ rest)
      | _ => Raise ValueError
      end
  end.

(** Lines 220-221: the lines of the box. *)
Fixpoint box_lines (minmax : pyval) (i n : nat) : res string :=
  match n with
  | O => Ret ""
  | S k =>
      row <- Py.getitem minmax i ;;
      args <- Py.iter row ;;
      line <- Fmt.format ("{0:.4f} {1:.4f}" ++ nl) args ;;
      rest <- box_lines minmax (S i) k ;;
      Ret (line ++ rest)
  end.

(** [self.dump(filename, mode, rebox)]: the content of the file afterwards,
    [old] being its content before. *)
Definition dump (self : t) (old : string) (mode : string) (rebox : bool)
  : res string :=
  if Dict.mem self "dump" then Raise TypeError
  else
  start <- (if (mode =? "a")%string then Ret old
            else if (mode =? "w")%string then Ret ""
            else Unmodelled) ;;
  idx <- getattr self "index" ;;
  l2 <- Fmt.format ("{}" ++ nl) [idx] ;;
  n <- __len__ self ;;
  l4 <- Fmt.format ("{0:d}" ++ nl) [VInt (Z.of_nat n)] ;;
  per <- getattr self "periodic" ;;
  ps <- Py.iter per ;;
  flags <- mapM (fun p => b <- Py.truth p ;; Ret (if b then "pp" else "ss")) ps ;;
  l5 <- Fmt.format ("ITEM: BOX BOUNDS {}" ++ nl) [VStr (join " " flags)] ;;
  minmax <- (if rebox then
               xyz <- getattr self "xyz" ;;
               rows <- mapM (extent xyz) [0; 1; 2]%nat ;;
               Ret (VList rows)
             else getattr self "box") ;;
  nrows <- Py.len minmax ;;
  l6 <- box_lines minmax 0 nrows ;;
  ex <- getattr self "extras" ;;
  names <- Py.iter ex ;;
  heads <- mapM as_str names ;;
  l7 <- Fmt.format ("ITEM: ATOMS id type x y z {}" ++ nl) [VStr (join " " heads)] ;;
  xfmt <- extras_format self 0 names ;;
  tail <- Fmt.format ("{}" ++ nl) [VStr (" " ++ join " " xfmt)] ;;
  let atomfmt := "{0:d} {1:d} {2:.5f} {3:.5f} {4:.5f}" ++ tail in
  xyz <- getattr self "xyz" ;;
  rows <- Py.iter xyz ;;
  l8 <- atom_lines self atomfmt names 0 rows ;;
  Ret (start ++ "ITEM: TIMESTEP" ++ nl ++ l2 ++ "ITEM: NUMBER OF ATOMS" ++ nl
         ++ l4 ++ l5 ++ l6 ++ l7 ++ l8).

End Collaborators.

End Timestep.

(** ** class [Dump] *)

Module Dump.

Definition t : Type := dump_object.

(** Keys of [steps]: [hash(k)] works for [None] and for an [int], and
    raises for a list and for an array. *)
Definition hashable (k : pyval) : res unit :=
  match k with
  | VNone | VInt _ => Ret tt
  | VList _ | VArray _ => Raise TypeError
  | VBool _ | VFloat _ | VStr _ | VTuple _ | VNpInt _ | VNpFloat _ => Unmodelled
  end.

Definition key_eqb (a b : pyval) : bool :=
  match a, b with
  | VNone, VNone => true
  | VInt x, VInt y => x =? y
  | _, _ => false
  end.

Fixpoint insert (d : list (pyval * object)) (k : pyval) (v : object)
  : list (pyval * object) :=
  match d with
  | [] => [(k, v)]
  | (k', v') :: r =>
      if key_eqb k' k then (k', v) :: r else (k', v') :: insert r k v
  end.

(** [steps[k] = v] *)
Definition setitem (d : list (pyval * object)) (k : pyval) (v : object)
  : res (list (pyval * object)) :=
  _ <- hashable k ;; Ret (insert d k v).

Fixpoint lookup (d : list (pyval * object)) (k : pyval) : option object :=
  match d with
  | [] => None
  | (k', v) :: r => if key_eqb k' k then Some v else lookup r k
  end.

(** Lines 24-27: time steps are read from the open file [f] until one comes
    back empty. Every turn that goes on has read at least one line, so the
    [fuel] that [__init__] gives is never used up. *)
Fixpoint read_steps (fuel : nat) (file : list string) (filepath : string)
    (stepfilter : option (list Z)) (d : list (pyval * object)) (f : cursor)
  : res (list (pyval * object) * list (list pyval)) :=
  match fuel with
  | O => Unmodelled
  | S fuel' =>
      '(ts, f', w) <- Timestep.__init__ file filepath None (Some f) stepfilter ;;
      n <- Timestep.__len__ ts ;;
      if (0 <? n)%nat then
        idx <- Timestep.getattr ts "index" ;;
        d' <- setitem d idx ts ;;
        '(r, ws) <- read_steps fuel' file filepath stepfilter d'
                      (match f' with Some c => c | None => [] end) ;;
        Ret (r, (w ++ ws)%list)
      else Ret (d, w)
  end.

(** [Dump(filepath, stepfilter)], and the calls of [msg.warn] made.
    [filepath] stands for the absolute path that the constructor computes,
    and [file] for the lines of the file there. *)
Definition __init__ (file : list string) (filepath : string)
    (stepfilter : option (list Z)) : res (t * list (list pyval)) :=
  '(d, ws) <- read_steps (S (List.length file)) file filepath stepfilter [] file ;;
  Ret (mkDump filepath d, ws).

(** [len(self)] *)
Definition __len__ (self : t) : nat := List.length (steps self).

(** [iter(self)]: the items of [steps]. *)
Definition __iter__ (self : t) : list (pyval * object) := steps self.

(** [ts in self] *)
Definition __contains__ (self : t) (ts : pyval) : res bool :=
  _ <- hashable ts ;;
  Ret (match lookup (steps self) ts with Some _ => true | None => false end).

(** [self[ts]] *)
Definition __getitem__ (self : t) (ts : pyval) : res object :=
  _ <- hashable ts ;;
  match lookup (steps self) ts with
  | Some v => Ret v
  | None => Raise KeyError
  end.

(** [a == b] for two items [(index, timestep)] of two dumps: the tuples are
    compared entry by entry, and the time steps only when the indices are
    equal. (The two time steps are taken to be distinct objects.) *)
Definition item_eq (a b : pyval * object) : res bool :=
  e <- Py.eq (fst a) (fst b) ;;
  if e then Timestep.__eq__ (snd a) (ITimestep (snd b)) else Ret false.

(** [all(a == b for a, b in pairs)] *)
Fixpoint all_eq (pairs : list ((pyval * object) * (pyval * object))) : res bool :=
  match pairs with
  | [] => Ret true
  | (a, b) :: r => e <- item_eq a b ;; if e then all_eq r else Ret false
  end.

(** [self == other] *)
Definition __eq__ (self : t) (other : instance) : res bool :=
  match other with
  | IDump o => all_eq (combine (__iter__ self) (__iter__ o))
  | ITimestep _ | IOther _ => Ret false
  end.

Section Collaborators.

Variable extent : pyval -> nat -> res pyval.

Fixpoint dump_steps (items : list (pyval * object)) (content : string)
    (rebox : bool) : res string :=
  match items with
  | [] => Ret content
  | (_, ts) :: r =>
      c <- Timestep.dump extent ts content "a" rebox ;;
      dump_steps r c rebox
  end.

(** [self.dump(filename, mode, rebox)]: the content of the file afterwards,
    [old] being its content before. *)
Definition dump (self : t) (old : string) (mode : string) (rebox : bool)
  : res string :=
  dump_steps (__iter__ self) (if (mode =? "w")%string then "" else old) rebox.

End Collaborators.

End Dump.

(** * Vocabulary of the properties *)

Module Shape.

(** A line that [read_header] passes over whatever the flags are: it has
    none of the four section titles. *)
Definition plain (line : string) : bool :=
  negb (line =? "")%string
  && negb (Str.contains "ITEM: TIMESTEP" line)
  && negb (Str.contains "ITEM: NUMBER OF ATOMS" line)
  && negb (Str.contains "ITEM: BOX BOUNDS" line)
  && negb (Str.contains "ITEM: ATOMS" line).

(** A line whose first token is the integer [v]. *)
Definition int_line (line : string) (v : Z) : Prop :=
  exists tok more, Str.split line = tok :: more /\ Num.py_int tok = Ret v.

(** [v] passes [stepfilter]. *)
Definition passes (stepfilter : option (list Z)) (v : Z) : Prop :=
  match stepfilter with
  | None => True
  | Some sf => existsb (Z.eqb v) sf = true
  end.

(** A line of a record that is being skipped: any line but a TIMESTEP
    title. *)
Definition skipped (line : string) : bool :=
  negb (line =? "")%string && negb (Str.contains "ITEM: TIMESTEP" line).

(** Nothing is left to read, or a TIMESTEP title comes next. *)
Definition at_title (f : cursor) : Prop :=
  match f with
  | [] => True
  | next :: _ => Str.contains "ITEM: TIMESTEP" next = true
  end.

(** Every character of [s] passes [p]. *)
Fixpoint all_chars (p : ascii -> bool) (s : string) : bool :=
  match s with
  | "" => true
  | String c r => p c && all_chars p r
  end.

(** A token: not empty, without white space. *)
Definition token (s : string) : bool :=
  negb (s =? "")%string && all_chars (fun c => negb (Str.is_space c)) s.




(** The token [tok] evaluates to [v]. *)
Definition evaluates (tok : string) (v : pyval) : Prop :=
  Expr.py_eval tok = Ret v.

(** A text made of lines, each ending with its only newline. *)
Fixpoint text_of (bodies : list string) : string :=
  match bodies with
  | [] => ""
  | b :: r => (b ++ nl ++ text_of r)%string
  end.

(** Every BOX BOUNDS title of the file [f] is the line [title]. *)
Definition box_titles (title : string) (f : list string) : Prop :=
  Forall (fun l => Str.contains "ITEM: BOX BOUNDS" l = true -> l = title) f.

(** [d] has, under ["periodic"], nothing but what the BOX BOUNDS title
    [title] gives. *)
Definition known (title : string) (d : pydict) : Prop :=
  forall v, Dict.get d "periodic" = Some v -> v = Timestep.box_periodic title.

(** The states of [_read] that keep [known]. *)
Definition good (title : string) (st : Timestep.state) : Prop :=
  known title (Timestep.result st)
  /\ Timestep.current st <> Some "periodic"
  /\ (forall xk, Timestep.xkeys st = Some xk ->
                 Forall (fun k => k <> "periodic") xk).

(** Classes of characters. *)
Definition not_space (c : ascii) : bool := negb (Str.is_space c).
Definition not_newline (c : ascii) : bool := negb (Ascii.eqb c (ascii_of_nat 10)).
Definition not_colon (c : ascii) : bool := negb (Ascii.eqb c ":").

(** The characters of the numbers that [dump] writes. *)
Definition numchar (c : ascii) : bool :=
  Str.is_digit c
  || existsb (Ascii.eqb c) ["-"; "+"; "."; "e"; "n"; "a"; "i"; "f"]%char.

(** Digits, a point, digits. *)
Definition decimal_text (s : string) : Prop :=
  exists ip fp,
    s = (ip ++ "." ++ fp)%string
    /\ all_chars Str.is_digit ip = true /\ ip <> ""
    /\ all_chars Str.is_digit fp = true /\ fp <> "".

(** A decimal text, [e], a sign and digits. *)
Definition sci_text (s : string) : Prop :=
  exists t esg ed,
    s = (t ++ "e" ++ esg ++ ed)%string
    /\ decimal_text t /\ (esg = "-" \/ esg = "+")
    /\ all_chars Str.is_digit ed = true /\ ed <> "".

End Shape.

(** Replacement fields of a format string. *)
Module Field.
Import Fmt.

(** The text of a replacement field with an explicit index. *)
Definition ftext (f : nat * string) : string :=
  ("{" ++ Num.str_nat (Z.of_nat (fst f)) ++ ":" ++ snd f ++ "}")%string.


(** A run of texts, each after a space. *)
Fixpoint spaced (fs : list string) : string :=
  match fs with
  | [] => ""
  | t :: r => (" " ++ t ++ spaced r)%string
  end.

End Field.

(** Records as data: what a time step holds, row by row. *)
Module Record.
Import Num.

(** One entry of an extra column. *)
Inductive cell : Type := CInt (n : Z) | CFloat (x : float).

Record atom : Type := mkAtom {
  a_id : Z;
  a_type : Z;
  a_x : float;
  a_y : float;
  a_z : float;
  a_cells : list cell   (* one cell for each extra column *)
}.

Record data : Type := mkData {
  d_index : Z;
  d_periodic : bool * bool * bool;
  d_box : (float * float) * (float * float) * (float * float);
  d_kinds : list (string * dtype);   (* the extra columns: name and type *)
  d_atoms : list atom
}.

Definition names (D : data) : list string := map fst (d_kinds D).

Definition int_at (j : nat) (a : atom) : Z :=
  match nth_error (a_cells a) j with Some (CInt n) => n | _ => 0 end.

Definition float_at (j : nat) (a : atom) : float :=
  match nth_error (a_cells a) j with Some (CFloat x) => x | _ => zero end.

(** The extra column at position [j], as an array. *)
Definition column (k : dtype) (j : nat) (atoms : list atom) : ndarray :=
  match k with
  | Int64 => IntVec (map (int_at j) atoms)
  | Float64 => FloatVec (map (float_at j) atoms)
  end.

Fixpoint column_attrs (j : nat) (kinds : list (string * dtype))
    (atoms : list atom) : pydict :=
  match kinds with
  | [] => []
  | (name, k) :: r =>
      (name, VArray (column k j atoms)) :: column_attrs (S j) r atoms
  end.

Definition box_rows (D : data) : list (list float) :=
  let '(a, b, c) := d_box D in
  [[fst a; snd a]; [fst b; snd b]; [fst c; snd c]].

Definition flags (D : data) : list bool :=
  let '(p, q, r) := d_periodic D in [p; q; r].

(** The instance that holds [D], with [xnames] after the leading ["ids"]
    in its list of extras. *)
Definition record_of (filepath : string) (D : data) (xnames : list string)
  : object :=
  ([("filepath", VStr filepath);
    ("index", VInt (d_index D));
    ("types", VArray (IntVec (map a_type (d_atoms D))));
    ("ids", VArray (IntVec (map a_id (d_atoms D))));
    ("xyz", VArray (FloatMat 3 (map (fun a => [a_x a; a_y a; a_z a]) (d_atoms D))));
    ("extras", VList (map VStr ("ids" :: xnames)))]
   ++ column_attrs 0 (d_kinds D) (d_atoms D)
   ++ [("periodic", VTuple (map VBool (flags D)));
       ("box", VArray (FloatMat 2 (box_rows D)))])%list.

(** The text of a cell: what [dump] writes for an [int64] and for a
    [float64]. *)
Definition cell_text (c : cell) : string :=
  match c with
  | CInt n => str_int n
  | CFloat x => fmt_sci 5 x
  end.

(** The tokens of the line of an atom: the id comes a second time, as the
    column of the extra ["ids"]. *)
Definition atom_tokens (a : atom) : list string :=
  ([str_int (a_id a); str_int (a_type a); fmt_fixed 5 (a_x a);
    fmt_fixed 5 (a_y a); fmt_fixed 5 (a_z a); str_int (a_id a)]
   ++ map cell_text (a_cells a))%list.

Definition flag_text (b : bool) : string := if b then "pp" else "ss".

Definition box_body (r : list float) : string :=
  Str.join " " (map (fmt_fixed 4) r).

(** The lines, without their newlines, that [dump] writes for [D]. *)
Definition bodies (D : data) : list string :=
  (["ITEM: TIMESTEP"; str_int (d_index D);
    "ITEM: NUMBER OF ATOMS"; str_int (Z.of_nat (List.length (d_atoms D)));
    ("ITEM: BOX BOUNDS " ++ Str.join " " (map flag_text (flags D)))%string]
   ++ map box_body (box_rows D)
   ++ [("ITEM: ATOMS id type x y z " ++ Str.join " " ("ids" :: names D))%string]
   ++ map (fun a => Str.join " " (atom_tokens a)) (d_atoms D))%list.

Definition text (D : data) : string := Shape.text_of (bodies D).


(** A cell as [eval] gives it. *)
Definition cell_val (c : cell) : pyval :=
  match c with
  | CInt n => VInt n
  | CFloat x => VFloat x
  end.

(** The format specification that [dump] chooses for a column. *)
Definition spec_of (k : dtype) : string :=
  match k with Int64 => "d" | Float64 => ".5e" end.

(** The replacement fields of the extra columns, from index [idx] on. *)
Fixpoint dyn_fields (idx : nat) (kinds : list (string * dtype))
  : list (nat * string) :=
  match kinds with
  | [] => []
  | (_, k) :: r => (idx, spec_of k) :: dyn_fields (S idx) r
  end.

(** A float as it is read back from its text with [d] decimals. *)
Definition reread_fixed (d : nat) (x : float) : float :=
  match py_float (fmt_fixed d x) with Ret y => y | _ => x end.

(** A float as [eval] gives it back from its text in scientific notation. *)
Definition reread_sci (x : float) : float :=
  match Expr.py_eval (fmt_sci 5 x) with Ret (VFloat y) => y | _ => x end.

Definition reread_cell (c : cell) : cell :=
  match c with
  | CInt n => CInt n
  | CFloat x => CFloat (reread_sci x)
  end.

Definition reread_atom (a : atom) : atom :=
  mkAtom (a_id a) (a_type a) (reread_fixed 5 (a_x a)) (reread_fixed 5 (a_y a))
    (reread_fixed 5 (a_z a)) (map reread_cell (a_cells a)).

Definition reread_pair (p : float * float) : float * float :=
  (reread_fixed 4 (fst p), reread_fixed 4 (snd p)).

(** [D] as it comes back from the text that [dump] writes. *)
Definition reread (D : data) : data :=
  let '(a, b, c) := d_box D in
  mkData (d_index D) (d_periodic D)
    (reread_pair a, reread_pair b, reread_pair c)
    (d_kinds D) (map reread_atom (d_atoms D)).

(** Names that an extra column cannot take without replacing an attribute
    or a method that [dump] uses. *)
Definition reserved : list string :=
  ["filepath"; "index"; "types"; "ids"; "xyz"; "extras"; "periodic"; "box";
   "dump"].

Definition good_name (s : string) : Prop :=
  Shape.token s = true
  /\ Shape.all_chars (fun c => negb (Ascii.eqb c ":")) s = true
  /\ ~ In s reserved.

Definition cell_ok (k : string * dtype) (c : cell) : Prop :=
  match snd k, c with
  | Int64, CInt n => Np.int64_ok n = true
  | Float64, CFloat x => is_finite x = true
  | _, _ => False
  end.

Definition atom_ok (kinds : list (string * dtype)) (a : atom) : Prop :=
  Np.int64_ok (a_id a) = true /\ Np.int64_ok (a_type a) = true
  /\ Forall2 cell_ok kinds (a_cells a).

(** The records this module reads and writes without loss of structure:
    at least one atom, extra columns with distinct names that are tokens
    without a colon and are not attribute names, and in every column
    [int64] numbers or finite [float64] numbers. *)
Definition regular (D : data) : Prop :=
  d_atoms D <> []
  /\ NoDup (names D)
  /\ Forall good_name (names D)
  /\ Forall (atom_ok (d_kinds D)) (d_atoms D).

End Record.

(** Sample files. *)
Module Sample.

Definition line (s : string) : string := (s ++ nl)%string.

(** A record with index [i], declared count [n], and the given ATOMS title
    and atom lines. *)
Definition record (i n title : string) (atoms : list string) : list string :=
  map line
    (["ITEM: TIMESTEP"; i; "ITEM: NUMBER OF ATOMS"; n;
      "ITEM: BOX BOUNDS pp pp ss"; "0 10"; "0 10"; "-5 5.5"; title] ++ atoms)%list.

Definition csd_title : string := "ITEM: ATOMS id type x y z c_csd".

(** Two records, with TIMESTEP values 7 and 8. *)
Definition two_steps : list string :=
  (record "7" "1" csd_title ["1 4 1.5 2.5 3.5 0.25"]
   ++ record "8" "2" csd_title ["1 4 1.5 2.5 3.5 0.25"; "2 4 0.5 0.5 0.5 1.75"])%list.

(** One record stored under TIMESTEP 0, and the same record renumbered 1. *)
Definition step_0 : list string :=
  record "0" "1" csd_title ["1 4 1.5 2.5 3.5 0.25"].
Definition step_1 : list string :=
  record "1" "1" csd_title ["1 4 1.5 2.5 3.5 0.25"].

(** Four records with TIMESTEP values 0, 1, 2 and 3. *)
Definition four_steps : list string :=
  (record "0" "2" csd_title ["1 4 1.5 2.5 3.5 0.25"; "2 4 0.5 0.5 0.5 1.75"]
   ++ step_1
   ++ record "2" "1" csd_title ["1 4 1.5 2.5 3.5 0.25"]
   ++ record "3" "1" csd_title ["1 4 1.5 2.5 3.5 0.25"])%list.

(** A record that declares ten atoms and has nine. *)
Definition nine_of_ten : list string :=
  record "0" "10" "ITEM: ATOMS id type x y z"
    ["1 4 0.5 0.5 0.5"; "2 4 1.5 0.5 0.5"; "3 4 2.5 0.5 0.5";
     "4 4 0.5 1.5 0.5"; "5 4 1.5 1.5 0.5"; "6 4 2.5 1.5 0.5";
     "7 4 0.5 2.5 0.5"; "8 4 1.5 2.5 0.5"; "9 4 2.5 2.5 0.5"].

(** A record whose BOX BOUNDS title has no periodicity tokens. *)
Definition bare_box : list string :=
  map line
    ["ITEM: TIMESTEP"; "0"; "ITEM: NUMBER OF ATOMS"; "1"; "ITEM: BOX BOUNDS";
     "0 10"; "0 10"; "-5 5.5"; "ITEM: ATOMS id type x y z";
     "1 4 1.5 2.5 3.5"].




(** The data of [step_0]. *)
Definition data_0 : Record.data :=
  Record.mkData 0 (true, true, false)
    ((0%float, 10%float), (0%float, 10%float), ((-5)%float, 5.5%float))
    [("c_csd", Float64)]
    [Record.mkAtom 1 4 1.5%float 2.5%float 3.5%float [Record.CFloat 0.25%float]].

(** The record that the first time step of [file] is read as. *)
Definition parsed (file : list string) (filepath : string) : object :=
  match Timestep.__init__ file filepath None (Some file) None with
  | Ret (ts, _, _) => ts
  | Raise _ | Unmodelled => []
  end.

End Sample.

(** The dictionary that [_read] fills while it reads the text that [dump]
    writes. *)
Module Raw.
Import Num Record.

Definition vl (kc : string * list pyval) : string * pyval :=
  (fst kc, VList (snd kc)).

Definition xyz_val (a : atom) : pyval :=
  VTuple [VFloat (a_x a); VFloat (a_y a); VFloat (a_z a)].

Definition cell_at (j : nat) (a : atom) : pyval :=
  cell_val (nth j (a_cells a) (Record.CInt 0)).

(** The columns of the extra headings, [done] being the atoms read. *)
Fixpoint cols (j : nat) (kinds : list (string * dtype)) (done : list atom)
  : list (string * list pyval) :=
  match kinds with
  | [] => []
  | (name, _) :: r =>
      (("atom:" ++ name)%string, map (cell_at j) done) :: cols (S j) r done
  end.

Definition base (D : data) (done : list atom) : pydict :=
  [("time", VInt (d_index D));
   ("natoms", VInt (Z.of_nat (List.length (d_atoms D))));
   ("periodic", VList (map (fun b => VStr (flag_text b)) (flags D)));
   ("box", VList (map (fun r => VList (map VFloat r)) (box_rows D)));
   ("type", VList (map (fun a => VInt (a_type a)) done));
   ("id", VList (map (fun a => VInt (a_id a)) done));
   ("xyz", VList (map xyz_val done))].

(** [result] when the title of the atoms is read. *)
Definition header (D : data) : pydict :=
  [("time", VInt (d_index D));
   ("natoms", VInt (Z.of_nat (List.length (d_atoms D))));
   ("periodic", VList (map (fun b => VStr (flag_text b)) (flags D)));
   ("box", VList (map (fun r => VList (map VFloat r)) (box_rows D)))].

(** [itemstack] after a BOX BOUNDS title. *)
Definition box_casters : list (list Timestep.caster) :=
  [[Timestep.CFloat; Timestep.CFloat]; [Timestep.CFloat; Timestep.CFloat];
   [Timestep.CFloat; Timestep.CFloat]].

Definition ids_col (done : list atom) : string * list pyval :=
  ("atom:ids", map (fun a => VInt (a_id a)) done).

Definition raw (D : data) (done : list atom) : pydict :=
  (base D done ++ map vl (ids_col done :: cols 0 (d_kinds D) done))%list.

Definition xkeys (D : data) : list string :=
  map (fun n => ("atom:" ++ n)%string) ("ids" :: names D).

(** The state of [_read] between two atom lines. *)
Definition reading (D : data) (done : list atom) : Timestep.state :=
  Timestep.mkState None (Some "atoms") (raw D done) (Some (xkeys D))
    false false (VInt (d_index D)).


(** A column after one more value. *)
Definition grow (kcv : (string * list pyval) * pyval) : string * list pyval :=
  (fst (fst kcv), (snd (fst kcv) ++ [snd kcv])%list).

(** The format of an atom line that [dump] builds for [D]. *)
Definition atomfmt (D : data) : string :=
  ("{0:d} {1:d} {2:.5f} {3:.5f} {4:.5f}"
     ++ (" " ++ Str.join " "
                  (map Field.ftext ((5%nat, "d") :: dyn_fields 6 (d_kinds D))))
     ++ nl)%string.

End Raw.

(** The steps of a [Dump]. *)
Module Keys.

(** A step that is stored under the index of its time step; the index can
    be hashed and the time step has at least one atom. *)
Definition own_index (kt : pyval * object) : Prop :=
  Timestep.getattr (snd kt) "index" = Ret (fst kt)
  /\ Dump.hashable (fst kt) = Ret tt
  /\ exists n, Timestep.__len__ (snd kt) = Ret (S n).

(** No key comes twice. *)
Fixpoint distinct (d : list (pyval * object)) : Prop :=
  match d with
  | [] => True
  | (k, _) :: r => Dump.lookup r k = None /\ distinct r
  end.

End Keys.


(** * Properties *)

Open Scope list_scope.
Unset Implicit Arguments.

(** ** Outcomes *)

Lemma bind_ret {A B : Type} (m : res A) (k : A -> res B) (b : B) :
  bind m k = Ret b -> exists a, m = Ret a /\ k a = Ret b.
Proof.
  destruct m as [a| |]; cbn; intros H; try discriminate.
  exists a. split; [reflexivity | exact H].
Qed.

(** One step of the inversion of a computation that returned. *)
Ltac bind_step H :=
  match type of H with
  | bind _ _ = Ret _ =>
      let a := fresh "a" in
      let E := fresh "E" in
      apply bind_ret in H; destruct H as (a & E & H)
  | (let '(_, _) := ?p in _) = Ret _ => destruct p
  | (if ?b then _ else _) = Ret _ =>
      let E := fresh "E" in destruct b eqn:E
  end.

(** ** Strings *)

Lemma contains_nil (needle : string) :
  needle <> "" -> Str.contains needle "" = false.
Proof.
  destruct needle; [congruence | reflexivity].
Qed.

Lemma contains_nonempty (needle line : string) :
  needle <> "" -> Str.contains needle line = true -> line <> "".
Proof.
  intros Hn Hc ->. rewrite contains_nil in Hc; congruence.
Qed.

Lemma split_nonempty (line tok : string) (more : list string) :
  Str.split line = tok :: more -> line <> "".
Proof.
  intros H ->. discriminate.
Qed.

Lemma eqb_nonempty (line : string) : line <> "" -> (line =? "")%string = false.
Proof.
  intros H. apply String.eqb_neq. exact H.
Qed.

(** ** [Timestep._read] *)

Module ReadFacts.
Import Timestep Shape.

Lemma read_header_plain (st : state) (line : string) :
  plain line = true -> read_header st line = Ret (Continue st).
Proof.
  unfold plain, read_header. intros H.
  repeat (apply andb_prop in H; destruct H as [H ?]).
  repeat match goal with
         | H : negb ?b = true |- _ => apply negb_true_iff in H; rewrite ?H
         end.
  destruct (timeskip st); reflexivity.
Qed.

Lemma read_loop_plain (shared : bool) (sf : option (list Z)) (st : state)
    (pre f : cursor) :
  itemstack st = Some [] ->
  forallb plain pre = true ->
  read_loop shared sf st (pre ++ f) = read_loop shared sf st f.
Proof.
  intros Hs. induction pre as [|l pre IH]; simpl; intros Hp; [reflexivity|].
  apply andb_prop in Hp. destruct Hp as [Hl Hp].
  assert (Hne : (l =? "")%string = false).
  { unfold plain in Hl. destruct (l =? "")%string; [discriminate | reflexivity]. }
  rewrite Hne. unfold read_line. rewrite Hs.
  rewrite (read_header_plain st l Hl). simpl. apply IH. exact Hp.
Qed.

(** The TIMESTEP title puts the parser in front of the value. *)
Lemma read_line_title (shared : bool) (sf : option (list Z)) (i : pyval)
    (line : string) :
  Str.contains "ITEM: TIMESTEP" line = true ->
  read_line shared sf (init_state i) line =
    Ret (Continue (mkState (Some [[CInt]]) (Some "time") [] None false false i)).
Proof.
  intros H. unfold read_line, init_state; simpl.
  unfold read_header; simpl. rewrite H. reflexivity.
Qed.

Lemma values_of_int_line (line : string) (v : Z) :
  int_line line v ->
  mapM (fun tr => apply_caster (fst tr) (snd tr)) (combine [CInt] (Str.split line))
    = Ret [VInt v].
Proof.
  intros (tok & more & Hs & Hi). rewrite Hs. simpl. rewrite Hi. reflexivity.
Qed.

Lemma not_in_filter_passes (sf : option (list Z)) (v : Z) :
  passes sf v ->
  match sf with Some l => not_in_filter (VInt v) l | None => false end = false.
Proof.
  destruct sf as [l|]; simpl; [|reflexivity].
  intros ->. reflexivity.
Qed.

End ReadFacts.

(** ** Seeking a time step *)

Section Seek.
Import Timestep Shape ReadFacts.

Variables (filepath : string) (target v : Z) (sf : option (list Z)).
Variables (pre : list string) (title vline : string).

Hypothesis Hpre : forallb plain pre = true.
Hypothesis Htitle : Str.contains "ITEM: TIMESTEP" title = true.
Hypothesis Hvalue : int_line vline v.
Hypothesis Hpass : passes sf v.
Hypothesis Hgreater : target < v.

Lemma title_not_empty : (title =? "")%string = false.
Proof.
  apply eqb_nonempty. eapply contains_nonempty; [|exact Htitle]. discriminate.
Qed.

Lemma vline_not_empty : (vline =? "")%string = false.
Proof.
  destruct Hvalue as (tok & more & Hs & _).
  apply eqb_nonempty. eapply split_nonempty; exact Hs.
Qed.

(** Lines 289-295: a TIMESTEP value beyond the target. *)
Lemma time_check_beyond (shared : bool) (st : state) :
  index st = VInt target ->
  time_check shared sf st (VInt v) =
    Ret (if shared
         then Continue (mkState (itemstack st) (current st) (result st)
                          (xkeys st) true true (index st))
         else Return []).
Proof.
  intros Hi. unfold time_check.
  rewrite (not_in_filter_passes sf v Hpass). rewrite Hi.
  cbn [is_none Py.eq Py.gt bind].
  replace (v =? target) with false by lia.
  replace (target <? v) with true by lia.
  destruct shared; reflexivity.
Qed.


(** The same line read from an open file that is shared: the record is to
    be skipped, and the next title ends the call. *)
Lemma read_value_beyond_shared :
  read_value true sf
    (mkState (Some [[CInt]]) (Some "time") [] None false false (VInt target))
    [CInt] [] vline
  = Ret (Continue (mkState (Some []) (Some "time") [("time", VInt v)] None
                     true true (VInt target))).
Proof.
  unfold read_value. rewrite (values_of_int_line vline v Hvalue).
  cbn [bind current]. rewrite time_check_beyond by reflexivity.
  reflexivity.
Qed.

(** With [timeskip] and [laststep] set, lines are dropped up to the next
    TIMESTEP title, where the file is put back. *)
Lemma read_loop_laststep (st : state) (body rest : list string) :
  itemstack st = Some [] -> timeskip st = true -> laststep st = true ->
  forallb skipped body = true ->
  at_title rest ->
  read_loop true sf st (body ++ rest) = Ret (result st, index st, rest).
Proof.
  intros Hs Ht Hl. induction body as [|l body IH]; simpl; intros Hb Hr.
  - destruct rest as [|next r]; [reflexivity|]. simpl in Hr |- *.
    rewrite eqb_nonempty by (eapply contains_nonempty; [|exact Hr]; discriminate).
    unfold read_line. rewrite Hs. unfold read_header. rewrite Hr, Hl.
    reflexivity.
  - apply andb_prop in Hb. destruct Hb as [Hl0 Hb].
    unfold skipped in Hl0. apply andb_prop in Hl0. destruct Hl0 as [Hne Hnt].
    apply negb_true_iff in Hne, Hnt. rewrite Hne.
    unfold read_line. rewrite Hs. unfold read_header. rewrite Hnt, Ht. simpl.
    apply IH; assumption.
Qed.

End Seek.



(** C4, as the code has it. A parse with a target index on a shared open
    file whose next TIMESTEP value is greater than the target returns the
    empty record, and the file is left just before the TIMESTEP title that
    follows that record (at the end of the file when there is none): the
    lines of the record whose value was read are consumed. *)
Theorem lookahead_shared_stops_at_next_title
    (file : list string) (filepath : string) (target v : Z)
    (sf : option (list Z)) (pre : list string) (title vline : string)
    (body rest : list string) :
  forallb Shape.plain pre = true ->
  Str.contains "ITEM: TIMESTEP" title = true ->
  Shape.int_line vline v ->
  Shape.passes sf v ->
  target < v ->
  forallb Shape.skipped body = true ->
  Shape.at_title rest ->
  Timestep.__init__ file filepath (Some target)
    (Some (pre ++ title :: vline :: body ++ rest)) sf
    = Ret (Timestep.empty filepath (VInt target), Some rest, []).
Proof.
  intros Hpre Htitle Hvalue Hpass Hgt Hbody Hrest.
  unfold Timestep.__init__, Timestep._read.
  rewrite ReadFacts.read_loop_plain by (reflexivity || assumption).
  cbn [Timestep.read_loop].
  rewrite (title_not_empty title Htitle).
  rewrite (ReadFacts.read_line_title true sf (VInt target) title Htitle).
  cbn [bind]. rewrite (vline_not_empty v vline Hvalue).
  unfold Timestep.read_line. cbn [Timestep.itemstack].
  rewrite (read_value_beyond_shared target v sf vline Hvalue Hpass Hgt).
  cbn [bind].
  rewrite (read_loop_laststep sf) by (reflexivity || assumption).
  reflexivity.
Qed.

Lemma lookahead_shared_witness :
  Timestep.__init__ [] "two.dump" (Some 5) (Some Sample.two_steps) None
    = Ret (Timestep.empty "two.dump" (VInt 5),
           Some (skipn 10 Sample.two_steps), []).
Proof.
  apply (lookahead_shared_stops_at_next_title [] "two.dump" 5 7 None []
           (Sample.line "ITEM: TIMESTEP") (Sample.line "7")
           (firstn 8 (skipn 2 Sample.two_steps))
           (skipn 10 Sample.two_steps)).
  - reflexivity.
  - reflexivity.
  - exists "7", []. split; reflexivity.
  - exact I.
  - lia.
  - reflexivity.
  - reflexivity.
Defined.

(** C4, as the specification has it, fails: after the call the shared file
    is not where the call found it, before the title of TIMESTEP 7, but
    before the title of TIMESTEP 8. *)
Lemma lookahead_shared_loses_record :
  exists after,
    Timestep.__init__ [] "two.dump" (Some 5) (Some Sample.two_steps) None
      = Ret (Timestep.empty "two.dump" (VInt 5), Some after, [])
    /\ firstn 2 Sample.two_steps = [Sample.line "ITEM: TIMESTEP"; Sample.line "7"]
    /\ firstn 2 after = [Sample.line "ITEM: TIMESTEP"; Sample.line "8"]
    /\ after <> Sample.two_steps.
Proof.
  exists (skipn 10 Sample.two_steps).
  split; [vm_compute; reflexivity|].
  split; [vm_compute; reflexivity|].
  split; [vm_compute; reflexivity|].
  vm_compute. discriminate.
Qed.

(** ** Grain boundaries *)

(** C9. Whatever the record and the other arguments are, [gb] without the
    species [Z] raises [ValueError], and no collaborator has been called
    by then: the selection functions and [GrainBoundary] are not reached. *)
Theorem gb_without_Z_raises
    (sel_median sel_cna_max : pyval -> pyval -> pyval -> pydict -> res pyval)
    (GrainBoundary :
       pyval -> pyval -> pyval -> pyval -> option pydict -> pydict -> res pyval)
    (self : Timestep.t) (method pattr : string) (extras : bool)
    (soapargs kwargs : pydict) :
  Timestep.gb sel_median sel_cna_max GrainBoundary self VNone method pattr
    extras soapargs kwargs = ([], Raise ValueError).
Proof.
  reflexivity.
Qed.

(** ** Equality of dumps *)





Lemma combine_longer_right {A B : Type} (l : list A) (m extra : list B) :
  List.length l = List.length m -> combine l (m ++ extra) = combine l m.
Proof.
  revert m. induction l as [|a l IH]; intros [|b m] H; try discriminate.
  - reflexivity.
  - cbn. f_equal. apply IH. injection H as H. exact H.
Qed.

Lemma combine_longer_left {A B : Type} (l extra : list A) (m : list B) :
  List.length l = List.length m -> combine (l ++ extra) m = combine l m.
Proof.
  revert m. induction l as [|a l IH]; intros [|b m] H; try discriminate.
  - destruct extra; reflexivity.
  - cbn. f_equal. apply IH. injection H as H. exact H.
Qed.

(** C10. Two dumps that are equal stay equal when records are added at the
    end of either: [zip] stops at the shorter of the two and the lengths
    are not compared. *)
Theorem dump_eq_ignores_longer_tail (d1 d2 : Dump.t) (fp1 fp2 : string)
    (extra : list (pyval * object)) :
  Dump.__len__ d1 = Dump.__len__ d2 ->
  Dump.__eq__ d1 (IDump d2) = Ret true ->
  Dump.__eq__ d1 (IDump (mkDump fp2 (steps d2 ++ extra))) = Ret true
  /\ Dump.__eq__ (mkDump fp1 (steps d1 ++ extra)) (IDump d2) = Ret true.
Proof.
  unfold Dump.__len__, Dump.__eq__, Dump.__iter__. cbn [steps].
  intros Hlen H. split.
  - rewrite combine_longer_right by exact Hlen. exact H.
  - rewrite combine_longer_left by exact Hlen. exact H.
Qed.

Lemma dump_eq_ignores_longer_tail_witness :
  let d := mkDump "a.dump" [(VInt 0, Sample.parsed Sample.step_0 "a.dump")] in
  let extra := [(VInt 1, Sample.parsed Sample.step_1 "a.dump")] in
  Dump.__eq__ d (IDump (mkDump "b.dump" (steps d ++ extra))) = Ret true
  /\ Dump.__eq__ (mkDump "b.dump" (steps d ++ extra)) (IDump d) = Ret true.
Proof.
  intros d extra.
  apply (dump_eq_ignores_longer_tail d d "b.dump" "b.dump" extra).
  - reflexivity.
  - vm_compute. reflexivity.
Defined.

(** ** The declared number of atoms *)

(** Line 114: the message has three fields and [format] is given one
    argument, so the call raises before [msg.warn] is reached. *)
Lemma warning_text_raises (filepath : string) :
  Fmt.format Timestep.wmsg [VStr filepath] = Raise IndexError.
Proof.
  reflexivity.
Qed.

(** The constructor never returns after a call of [msg.warn]. *)
Lemma init_never_warns (file : list string) (filepath : string)
    (index : option Z) (openf : option cursor) (sf : option (list Z))
    (ts : Timestep.t) (c : option cursor) (w : list (list pyval)) :
  Timestep.__init__ file filepath index openf sf = Ret (ts, c, w) -> w = [].
Proof.
  unfold Timestep.__init__. rewrite warning_text_raises. intros H.
  repeat bind_step H; try discriminate; injection H as _ _ <-; reflexivity.
Qed.

(** C3 fails on the code. The file [nine_of_ten] declares ten atoms and has
    nine atom lines: the constructor raises [IndexError] where it builds
    the text of the warning, on a file of its own and on a shared one. *)
Theorem count_mismatch_raises :
  Timestep.__init__ Sample.nine_of_ten "nine.dump" None None None
    = Raise IndexError
  /\ Timestep.__init__ [] "nine.dump" (Some 0) (Some Sample.nine_of_ten) None
    = Raise IndexError
  /\ Dump.__init__ Sample.nine_of_ten "nine.dump" None = Raise IndexError.
Proof.
  repeat split; vm_compute; reflexivity.
Qed.

(** ** The step filter *)

(** Lines 303-308: a second TIMESTEP value in one call of [_read] finds the
    first one, an [int], under ["time"] and calls [append] on it. *)
Lemma store_second_time (rest : list (list Timestep.caster)) (n : Z)
    (values : pyval) (d : pydict) :
  Dict.get d "time" = Some (VInt n) ->
  Timestep.store rest "time" values d = Raise AttributeError.
Proof.
  intros H. unfold Timestep.store, Dict.mem, Dict.append, Dict.item.
  rewrite H. destruct rest; reflexivity.
Qed.

(** C2 fails on the code. With the filter [[0; 2]] on the file
    [four_steps], whose TIMESTEP values are 0, 1, 2 and 3, the constructor
    of [Dump] raises [AttributeError]: the record 0 is read, the record 1
    is passed over, and the value of TIMESTEP 2 cannot be stored. The same
    file without a filter gives the four records. *)
Theorem filter_raises :
  Dump.__init__ Sample.four_steps "four.dump" (Some [0; 2])
    = Raise AttributeError
  /\ Timestep.__init__ [] "four.dump" None
       (Some (skipn 11 Sample.four_steps)) (Some [0; 2])
     = Raise AttributeError
  /\ (exists d, Dump.__init__ Sample.four_steps "four.dump" None = Ret (d, [])
                /\ map fst (steps d) = [VInt 0; VInt 1; VInt 2; VInt 3]).
Proof.
  split; [vm_compute; reflexivity|].
  split; [vm_compute; reflexivity|].
  eexists. split; vm_compute; reflexivity.
Qed.

(** ** Dictionaries *)

Lemma get_set_same (d : pydict) (k : string) (v : pyval) :
  Dict.get (Dict.set d k v) k = Some v.
Proof.
  induction d as [|[k' v'] d IH]; cbn.
  - rewrite String.eqb_refl. reflexivity.
  - destruct (k' =? k)%string eqn:E; cbn.
    + rewrite String.eqb_refl. reflexivity.
    + rewrite E. exact IH.
Qed.

Lemma get_set_other (d : pydict) (k k' : string) (v : pyval) :
  k <> k' -> Dict.get (Dict.set d k v) k' = Dict.get d k'.
Proof.
  intros Hk. induction d as [|[k0 v0] d IH]; cbn.
  - apply String.eqb_neq in Hk. rewrite Hk. reflexivity.
  - destruct (k0 =? k)%string eqn:E; cbn.
    + apply String.eqb_eq in E. subst k0.
      apply String.eqb_neq in Hk. rewrite Hk. reflexivity.
    + rewrite IH. reflexivity.
Qed.

Lemma append_inv (d d' : pydict) (k : string) (v : pyval) :
  Dict.append d k v = Ret d' ->
  exists l, Dict.get d k = Some (VList l) /\ d' = Dict.set d k (VList (l ++ [v])).
Proof.
  unfold Dict.append, Dict.item. destruct (Dict.get d k) as [x|]; cbn;
    [|discriminate].
  destruct x; try discriminate. intros H. injection H as <-.
  eexists. split; reflexivity.
Qed.

Lemma append_get_other (d d' : pydict) (k k' : string) (v : pyval) :
  Dict.append d k v = Ret d' -> k <> k' -> Dict.get d' k' = Dict.get d k'.
Proof.
  intros H Hk. apply append_inv in H. destruct H as (l & _ & ->).
  apply get_set_other. exact Hk.
Qed.

(** ** The periodicity of the box *)

Module BoxFacts.
Import Timestep Shape.

Section Invariant.

(** [flags] is what every BOX BOUNDS title of the file gives. *)
Variables (title : string).

Lemma known_frame (d d' : pydict) :
  Dict.get d' "periodic" = Dict.get d "periodic" -> known title d -> known title d'.
Proof.
  unfold known. intros -> H. exact H.
Qed.

Lemma time_check_frame (shared : bool) (sf : option (list Z)) (st : state)
    (values : pyval) (c : control) :
  time_check shared sf st values = Ret c ->
  match c with
  | Continue st' =>
      result st' = result st /\ current st' = current st
      /\ xkeys st' = xkeys st
  | Break _ _ => False
  | Return d => d = []
  end.
Proof.
  unfold time_check. intros H.
  repeat bind_step H; injection H as <-; cbn; auto.
Qed.

Lemma store_frame (rest : list (list caster)) (cur : string) (values : pyval)
    (d d' : pydict) :
  cur <> "periodic" -> store rest cur values d = Ret d' ->
  Dict.get d' "periodic" = Dict.get d "periodic".
Proof.
  intros Hc. unfold store.
  destruct rest; destruct (Dict.mem d cur); intros H.
  - eapply append_get_other; eassumption.
  - injection H as <-. apply get_set_other. exact Hc.
  - eapply append_get_other; eassumption.
  - erewrite append_get_other by eassumption. apply get_set_other. exact Hc.
Qed.

Lemma read_value_good (shared : bool) (sf : option (list Z)) (st : state)
    (cast : list caster) (rest : list (list caster)) (line : string)
    (c : control) :
  good title st -> read_value shared sf st cast rest line = Ret c ->
  match c with
  | Continue st' | Break st' _ => good title st'
  | Return d => known title d
  end.
Proof.
  intros (Hk & Hc & Hx). unfold read_value. intros H.
  bind_step H. bind_step H.
  assert (F : match a0 with
              | Continue st' =>
                  result st' = result st /\ current st' = current st
                  /\ xkeys st' = xkeys st
              | Break _ _ => False
              | Return d => d = []
              end).
  { destruct (match current st with Some "time" => true | _ => false end).
    - apply time_check_frame in E0. exact E0.
    - injection E0 as <-. cbn. auto. }
  destruct a0 as [st1|st1 rw|d]; [|contradiction|].
  - destruct F as (Fr & Fc & Fx).
    assert (Hc1 : current st1 <> Some "periodic") by (rewrite Fc; exact Hc).
    destruct (current st1) as [cur|] eqn:Ecur; [|discriminate].
    bind_step H. injection H as <-. unfold good; cbn.
    split; [|split].
    + eapply known_frame; [|exact Hk]. rewrite <- Fr.
      eapply store_frame; [|exact E1]. intros ->. apply Hc1. reflexivity.
    + exact Hc1.
    + rewrite Fx. exact Hx.
  - injection H as <-. subst d. intros v Hv. discriminate.
Qed.

Lemma read_extras_frame (xk : list string) (vs : list string) :
  Forall (fun k => k <> "periodic") xk ->
  forall (ikey : nat) (d d' : pydict),
    read_extras xk ikey vs d = Ret d' ->
    Dict.get d' "periodic" = Dict.get d "periodic".
Proof.
  intros Hx. induction vs as [|v vs IH]; intros ikey d d' H; cbn in H.
  - injection H as <-. reflexivity.
  - destruct (nth_error xk ikey) as [key|] eqn:En; [|discriminate].
    assert (Hkey : key <> "periodic").
    { rewrite Forall_forall in Hx. apply Hx. eapply nth_error_In. exact En. }
    repeat bind_step H.
    rewrite (IH _ _ _ H). eapply append_get_other; eassumption.
Qed.

Lemma read_atom_good (st st' : state) (line : string) :
  good title st -> read_atom st line = Ret st' -> good title st'.
Proof.
  intros (Hk & Hc & Hx). unfold read_atom. intros H.
  repeat bind_step H.
  injection H as <-. unfold good; cbn. split; [|split]; try assumption.
  eapply known_frame; [|exact Hk].
  match goal with
  | E1 : Dict.append (result st) "type" _ = Ret ?d1,
    E2 : Dict.append ?d1 "id" _ = Ret ?d2,
    E3 : Dict.append ?d2 "xyz" _ = Ret ?d3,
    E4 : _ = Ret ?d4 |- Dict.get ?d4 _ = _ =>
      assert (F3 : Dict.get d3 "periodic" = Dict.get (result st) "periodic")
        by (rewrite (append_get_other _ _ _ "periodic" _ E3) by discriminate;
            rewrite (append_get_other _ _ _ "periodic" _ E2) by discriminate;
            apply (append_get_other _ _ _ "periodic" _ E1); discriminate);
      rewrite <- F3;
      destruct (xkeys st) as [xk|] eqn:Exk;
      [ destruct (5 <? List.length (Str.split line))%nat;
        [ eapply read_extras_frame; [|exact E4]; apply Hx; reflexivity
        | injection E4 as <-; reflexivity ]
      | injection E4 as <-; reflexivity ]
  end.
Qed.

Lemma atom_keys_frame (hs : list string) :
  forall (d d' : pydict) (xk xk' : list string),
    atom_keys hs d xk = (d', xk') ->
    Forall (fun k => k <> "periodic") xk ->
    Dict.get d' "periodic" = Dict.get d "periodic"
    /\ Forall (fun k => k <> "periodic") xk'.
Proof.
  induction hs as [|h hs IH]; intros d d' xk xk' H Hx; cbn in H.
  - injection H as <- <-. auto.
  - apply IH in H.
    + destruct H as [H1 H2]. split; [|exact H2].
      rewrite H1. apply get_set_other. discriminate.
    + apply Forall_app. split; [exact Hx|]. constructor; [discriminate|constructor].
Qed.

Lemma read_header_good (st : state) (line : string) (c : control) :
  (Str.contains "ITEM: BOX BOUNDS" line = true -> line = title) ->
  good title st -> read_header st line = Ret c ->
  match c with
  | Continue st' | Break st' _ => good title st'
  | Return d => known title d
  end.
Proof.
  intros Hl Hg. pose proof Hg as (Hk & Hc & Hx). unfold read_header. intros H.
  destruct (Str.contains "ITEM: TIMESTEP" line).
  { destruct (laststep st).
    - injection H as <-. exact Hg.
    - bind_step H. injection H as <-. unfold good; cbn.
      split; [exact Hk|]. split; [discriminate | exact Hx]. }
  destruct (negb (timeskip st)); [|injection H as <-; exact Hg].
  destruct (Str.contains "ITEM: NUMBER OF ATOMS" line).
  { bind_step H. injection H as <-. unfold good; cbn.
    split; [exact Hk|]. split; [discriminate | exact Hx]. }
  destruct (Str.contains "ITEM: BOX BOUNDS" line).
  { bind_step H. injection H as <-. unfold good; cbn.
    split; [|split; [discriminate | exact Hx]].
    intros v. rewrite get_set_same. intros Hv. injection Hv as <-.
    rewrite (Hl eq_refl). reflexivity. }
  destruct (Str.contains "ITEM: ATOMS" line); [|injection H as <-; exact Hg].
  set (d0 := Dict.set (Dict.set (Dict.set (result st) "type" (VList []))
                         "id" (VList [])) "xyz" (VList [])) in H.
  assert (F0 : Dict.get d0 "periodic" = Dict.get (result st) "periodic").
  { unfold d0. rewrite !get_set_other by discriminate. reflexivity. }
  destruct (7 <? List.length (Str.split line))%nat.
  - destruct (atom_keys (skipn 7 (Str.split line)) d0 []) as [d' l] eqn:Ea.
    apply atom_keys_frame in Ea; [|constructor]. destruct Ea as [F1 F2].
    injection H as <-. unfold good; cbn. split; [|split].
    + eapply known_frame; [|exact Hk]. rewrite F1. exact F0.
    + discriminate.
    + intros xk Hxk. injection Hxk as <-. exact F2.
  - injection H as <-. unfold good; cbn. split; [|split].
    + eapply known_frame; [|exact Hk]. exact F0.
    + discriminate.
    + exact Hx.
Qed.

Lemma read_line_good (shared : bool) (sf : option (list Z)) (st : state)
    (line : string) (c : control) :
  (Str.contains "ITEM: BOX BOUNDS" line = true -> line = title) ->
  good title st -> read_line shared sf st line = Ret c ->
  match c with
  | Continue st' | Break st' _ => good title st'
  | Return d => known title d
  end.
Proof.
  intros Hl Hg. unfold read_line.
  destruct (itemstack st) as [[|cast rest]|].
  - apply read_header_good; assumption.
  - apply read_value_good; assumption.
  - destruct (match current st with Some "atoms" => true | _ => false end).
    + destruct (Str.contains "ITEM" line); intros H.
      * injection H as <-. destruct Hg as (Hk & Hc & Hx).
        unfold good; cbn. split; [exact Hk|]. split; [discriminate|exact Hx].
      * bind_step H. injection H as <-. eapply read_atom_good; eassumption.
    + apply read_header_good; assumption.
Qed.

Lemma read_loop_known (shared : bool) (sf : option (list Z)) (f : cursor) :
  box_titles title f ->
  forall (st : state) (d : pydict) (i : pyval) (c : cursor),
    good title st -> read_loop shared sf st f = Ret (d, i, c) -> known title d.
Proof.
  induction 1 as [|line f Hl Hf IH]; intros st d i c Hg H; cbn in H.
  - injection H as <- _ _. apply Hg.
  - destruct (line =? "")%string.
    + injection H as <- _ _. apply Hg.
    + bind_step H.
      pose proof (read_line_good shared sf st line a Hl Hg E) as G.
      destruct a as [st'|st' rw|d0].
      * eapply IH; eassumption.
      * injection H as <- _ _. apply G.
      * injection H as <- _ _. exact G.
Qed.

Lemma read_known (file : list string) (index : pyval) (openf : option cursor)
    (sf : option (list Z)) (d : pydict) (i : pyval) (c : option cursor) :
  box_titles title (match openf with Some f => f | None => file end) ->
  _read file index openf sf = Ret (d, i, c) -> known title d.
Proof.
  intros Hf. unfold _read.
  assert (G : good title (init_state index)).
  { unfold good, known, init_state; cbn. split; [|split]; discriminate. }
  destruct openf as [f|]; intros H; bind_step H; destruct a as [[d0 i0] c0];
    injection H as <- _ _; eapply read_loop_known; eassumption.
Qed.

End Invariant.

End BoxFacts.

(** C8. A record read from a file whose BOX BOUNDS title is
    [ITEM: BOX BOUNDS pp pp ss] has the periodic flags (true, true, false),
    and a record read from a file whose BOX BOUNDS title has no tokens
    after it has the flags (false, false, false). [ts] is any record the
    constructor returns that is not the empty one. *)
Theorem periodic_flags_of_box_title
    (file : list string) (filepath : string) (index : option Z)
    (openf : option cursor) (sf : option (list Z))
    (ts : Timestep.t) (c : option cursor) (w : list (list pyval))
    (title : string) (flags : list pyval) :
  (title = Sample.line "ITEM: BOX BOUNDS pp pp ss"
     /\ flags = [VBool true; VBool true; VBool false])
  \/ (title = Sample.line "ITEM: BOX BOUNDS"
      /\ flags = [VBool false; VBool false; VBool false]) ->
  Shape.box_titles title (match openf with Some f => f | None => file end) ->
  Timestep.__init__ file filepath index openf sf = Ret (ts, c, w) ->
  Timestep.getattr ts "periodic" <> Ret VNone ->
  Timestep.getattr ts "periodic" = Ret (VTuple flags).
Proof.
  intros Hcase Hf H Hne. unfold Timestep.__init__ in H.
  bind_step H. destruct a as [[raw i] f].
  pose proof (BoxFacts.read_known title file _ openf sf raw i f Hf E) as K.
  bind_step H.
  { injection H as <- _ _. exfalso. apply Hne. reflexivity. }
  repeat bind_step H; try discriminate;
    injection H as <- _ _;
    unfold Timestep.getattr;
    rewrite get_set_other by discriminate; rewrite get_set_same;
    match goal with
    | E1 : Dict.item raw "periodic" = Ret ?pl,
      E2 : Timestep.periodic_flags ?pl = Ret ?p |- _ =>
        unfold Dict.item in E1;
        destruct (Dict.get raw "periodic") as [v|] eqn:Ev; [|discriminate];
        injection E1 as ->; rewrite (K _ Ev) in E2;
        destruct Hcase as [[-> ->]|[-> ->]]; vm_compute in E2;
        injection E2 as <-; reflexivity
    end.
Qed.

Lemma periodic_flags_witness :
  Timestep.getattr (Sample.parsed Sample.step_0 "a.dump") "periodic"
    = Ret (VTuple [VBool true; VBool true; VBool false])
  /\ Timestep.getattr (Sample.parsed Sample.bare_box "b.dump") "periodic"
    = Ret (VTuple [VBool false; VBool false; VBool false]).
Proof.
  split.
  - apply (periodic_flags_of_box_title [] "a.dump" None (Some Sample.step_0)
             None _ (Some []) [] (Sample.line "ITEM: BOX BOUNDS pp pp ss")).
    + left. split; reflexivity.
    + unfold Shape.box_titles, Sample.step_0, Sample.record.
      repeat constructor; vm_compute; (discriminate || reflexivity).
    + vm_compute. reflexivity.
    + vm_compute. discriminate.
  - apply (periodic_flags_of_box_title [] "b.dump" None (Some Sample.bare_box)
             None _ (Some []) [] (Sample.line "ITEM: BOX BOUNDS")).
    + right. split; reflexivity.
    + unfold Shape.box_titles, Sample.bare_box.
      repeat constructor; vm_compute; (discriminate || reflexivity).
    + vm_compute. reflexivity.
    + vm_compute. discriminate.
Defined.

(** ** Digits *)

Module DigitFacts.
Import Str Num Shape.

Lemma digit_char_ok (d : Z) :
  0 <= d < 10 ->
  is_digit (digit_char d) = true /\ digit_val (digit_char d) = d
  /\ is_space (digit_char d) = false.
Proof.
  intros H.
  assert (C : d = 0 \/ d = 1 \/ d = 2 \/ d = 3 \/ d = 4 \/ d = 5 \/ d = 6
              \/ d = 7 \/ d = 8 \/ d = 9) by lia.
  repeat (destruct C as [->|C]; [repeat split; reflexivity|]).
  subst. repeat split; reflexivity.
Qed.

Lemma append_assoc (a b c : string) :
  ((a ++ b) ++ c = a ++ (b ++ c))%string.
Proof.
  induction a as [|x a IH]; cbn; [reflexivity|]. rewrite IH. reflexivity.
Qed.

Lemma append_nil_r (a : string) : (a ++ "")%string = a.
Proof.
  induction a as [|x a IH]; cbn; [reflexivity|]. rewrite IH. reflexivity.
Qed.

Lemma length_append (a b : string) :
  String.length (a ++ b) = (String.length a + String.length b)%nat.
Proof.
  induction a as [|x a IH]; cbn; [reflexivity|]. rewrite IH. reflexivity.
Qed.

Lemma all_chars_app (p : ascii -> bool) (a b : string) :
  all_chars p (a ++ b)%string = all_chars p a && all_chars p b.
Proof.
  induction a as [|c a IH]; cbn; [reflexivity|].
  rewrite IH. apply andb_assoc.
Qed.

Lemma all_chars_impl (p q : ascii -> bool) (s : string) :
  (forall c, p c = true -> q c = true) ->
  all_chars p s = true -> all_chars q s = true.
Proof.
  intros Hpq. induction s as [|c s IH]; cbn; [reflexivity|].
  intros H. apply andb_prop in H. destruct H as [H1 H2].
  rewrite (Hpq _ H1), (IH H2). reflexivity.
Qed.

(** Reading a run of digits: the number read so far is shifted and the
    value of the run added. *)
Lemma scan_digits_digit (acc : Z) (n : nat) (d : Z) (rest : string) :
  0 <= d < 10 ->
  scan_digits acc n (String (digit_char d) rest)
    = scan_digits (10 * acc + d) (S n) rest.
Proof.
  intros H. destruct (digit_char_ok d H) as (H1 & H2 & _).
  cbn [scan_digits]. rewrite H1, H2. reflexivity.
Qed.

(** What [dec_digits] puts in front of [acc]: a run of digits [ds] that
    reads back as [n]. *)
Lemma dec_digits_S (fuel : nat) (n : Z) (acc : string) :
  dec_digits (S fuel) n acc =
    if n <? 10 then String (digit_char (n mod 10)) acc
    else dec_digits fuel (n / 10) (String (digit_char (n mod 10)) acc).
Proof.
  reflexivity.
Qed.

Lemma dec_digits_spec (fuel : nat) :
  forall (n : Z) (acc : string),
    0 <= n < 10 ^ Z.of_nat (S fuel) ->
    exists ds,
      dec_digits (S fuel) n acc = (ds ++ acc)%string
      /\ ds <> ""
      /\ all_chars is_digit ds = true
      /\ (0 < n -> exists c r, ds = String c r /\ c <> "0"%char)
      /\ (forall a k rest,
            scan_digits a k (ds ++ rest)
              = scan_digits (a * 10 ^ Z.of_nat (String.length ds) + n)
                  (k + String.length ds) rest).
Proof.
  induction fuel as [|fuel IH]; intros n acc Hn;
    rewrite dec_digits_S;
    assert (Hd : 0 <= n mod 10 < 10) by (apply Z.mod_pos_bound; lia);
    destruct (digit_char_ok _ Hd) as (D1 & D2 & D3);
    destruct (n <? 10) eqn:E.
  1, 3: apply Z.ltb_lt in E;
      exists (String (digit_char (n mod 10)) "");
      rewrite Z.mod_small in * by lia;
      (split; [reflexivity|]); (split; [discriminate|]);
      (split; [cbn [all_chars]; rewrite D1; reflexivity|]); split;
      [ intros Hpos; do 2 eexists; split; [reflexivity|];
        assert (C : n = 1 \/ n = 2 \/ n = 3 \/ n = 4 \/ n = 5 \/ n = 6
                    \/ n = 7 \/ n = 8 \/ n = 9) by lia;
        repeat (destruct C as [->|C]; [discriminate|]); subst; discriminate
      | intros a k rest; cbn [append String.length];
        rewrite scan_digits_digit by lia;
        f_equal; [f_equal|]; lia ].
  - apply Z.ltb_ge in E. cbn in Hn. lia.
  - apply Z.ltb_ge in E.
    assert (Hq : 0 <= n / 10 < 10 ^ Z.of_nat (S fuel)).
    { split; [apply Z.div_pos; lia|].
      apply Z.div_lt_upper_bound; [lia|].
      rewrite (Nat2Z.inj_succ (S fuel)), Z.pow_succ_r in Hn by lia. lia. }
    destruct (IH (n / 10) (String (digit_char (n mod 10)) acc) Hq)
      as (ds & E1 & E2 & E3 & E4 & E5).
    exists (ds ++ String (digit_char (n mod 10)) "")%string.
    split; [rewrite E1, append_assoc; reflexivity|].
    split; [destruct ds; [congruence | discriminate]|].
    split; [rewrite all_chars_app, E3; cbn [all_chars]; rewrite D1; reflexivity|].
    split.
    + intros _. destruct E4 as (c & r & -> & Hc).
      { apply Z.div_str_pos. lia. }
      do 2 eexists. split; [reflexivity | exact Hc].
    + intros a k rest.
      rewrite append_assoc. cbn [append].
      rewrite E5, scan_digits_digit by lia.
      rewrite length_append. cbn [String.length].
      rewrite Nat2Z.inj_add, Z.pow_add_r by lia.
      change (Z.of_nat 1) with 1. rewrite Z.pow_1_r.
      pose proof (Z.div_mod n 10 ltac:(lia)) as DM.
      set (X := 10 ^ Z.of_nat (String.length ds)).
      replace (10 * (a * X + n / 10) + n mod 10) with (a * (X * 10) + n) by lia.
      f_equal. lia.
Qed.

Lemma str_nat_spec (n : Z) :
  0 <= n ->
  str_nat n <> ""
  /\ all_chars is_digit (str_nat n) = true
  /\ (0 < n -> exists c r, str_nat n = String c r /\ c <> "0"%char)
  /\ (forall a k rest,
        scan_digits a k (str_nat n ++ rest)
          = scan_digits (a * 10 ^ Z.of_nat (String.length (str_nat n)) + n)
              (k + String.length (str_nat n)) rest).
Proof.
  intros Hn. unfold str_nat.
  destruct (dec_digits_spec (Z.to_nat (Z.log2 n)) n "") as (ds & E & H).
  - split; [exact Hn|].
    destruct (Z.eq_dec n 0) as [->|Hz]; [cbn; lia|].
    rewrite Nat2Z.inj_succ, Z2Nat.id by apply Z.log2_nonneg.
    pose proof (Z.log2_spec n ltac:(lia)) as [_ L].
    eapply Z.lt_le_trans; [exact L|].
    apply Z.pow_le_mono_l. lia.
  - rewrite E, append_nil_r. exact H.
Qed.

Lemma parse_sign_digit (c : ascii) (r : string) :
  is_digit c = true -> parse_sign (String c r) = (false, String c r).
Proof.
  destruct c as [[] [] [] [] [] [] [] []]; intros H; try discriminate H;
    reflexivity.
Qed.

Lemma strip_signs_digit (b : bool) (c : ascii) (r : string) :
  is_digit c = true -> Expr.strip_signs b (String c r) = (b, String c r).
Proof.
  destruct c as [[] [] [] [] [] [] [] []]; intros H; try discriminate H;
    reflexivity.
Qed.

Lemma not_zero_char {A : Type} (c : ascii) (x y : A) :
  c <> "0"%char ->
  match c with "0"%char => x | _ => y end = y.
Proof.
  destruct c as [[] [] [] [] [] [] [] []]; intros H; try reflexivity.
  congruence.
Qed.

Lemma str_nat_head (n : Z) :
  0 <= n -> exists c r, str_nat n = String c r /\ is_digit c = true.
Proof.
  intros Hn. destruct (str_nat_spec n Hn) as (H1 & H2 & _).
  destruct (str_nat n) as [|c r]; [congruence|].
  exists c, r. split; [reflexivity|].
  cbn in H2. apply andb_prop in H2. apply H2.
Qed.

Lemma scan_str_nat (n : Z) :
  0 <= n ->
  exists k, scan_digits 0 0 (str_nat n) = (n, S k, "").
Proof.
  intros Hn. destruct (str_nat_spec n Hn) as (H1 & _ & _ & H4).
  specialize (H4 0 O ""). rewrite append_nil_r in H4. rewrite H4.
  destruct (String.length (str_nat n)) as [|k] eqn:E.
  - destruct (str_nat n); [congruence | discriminate].
  - exists k. reflexivity.
Qed.

(** [int(str(n))] is [n]. *)
Lemma py_int_str_int (n : Z) : py_int (str_int n) = Ret n.
Proof.
  unfold py_int, str_int. destruct (n <? 0) eqn:E.
  - apply Z.ltb_lt in E. cbn [append parse_sign].
    destruct (scan_str_nat (- n) ltac:(lia)) as (k & ->).
    f_equal. lia.
  - apply Z.ltb_ge in E.
    destruct (str_nat_head n E) as (c & r & Es & Hc).
    rewrite Es, (parse_sign_digit c r Hc), <- Es.
    destruct (scan_str_nat n E) as (k & ->). reflexivity.
Qed.

Lemma parse_decimal_str_nat (n : Z) :
  0 <= n -> parse_decimal (str_nat n) = Some (n, 0, false).
Proof.
  intros Hn. unfold parse_decimal.
  destruct (scan_str_nat n Hn) as (k & ->). reflexivity.
Qed.

(** [eval(str(n))] is [n]: an integer token becomes its value. *)
Lemma py_eval_str_int (n : Z) : Expr.py_eval (str_int n) = Ret (VInt n).
Proof.
  destruct (Z.eq_dec n 0) as [->|Hz]; [reflexivity|].
  unfold Expr.py_eval, str_int. destruct (n <? 0) eqn:E.
  - apply Z.ltb_lt in E. cbn [append Expr.strip_signs].
    destruct (str_nat_spec (- n) ltac:(lia)) as (_ & _ & H3 & _).
    destruct H3 as (c & r & Es & Hc); [lia|].
    destruct (str_nat_head (- n) ltac:(lia)) as (c' & r' & Es' & Hd).
    assert (c' = c) by congruence. subst c'.
    rewrite Es, (strip_signs_digit _ c r Hd), <- Es. cbv beta iota.
    rewrite parse_decimal_str_nat by lia.
    rewrite not_zero_char by exact Hc.
    f_equal. f_equal. cbn. lia.
  - apply Z.ltb_ge in E.
    destruct (str_nat_spec n E) as (_ & _ & H3 & _).
    destruct H3 as (c & r & Es & Hc); [lia|].
    destruct (str_nat_head n E) as (c' & r' & Es' & Hd).
    assert (c' = c) by congruence. subst c'.
    rewrite Es, (strip_signs_digit _ c r Hd), <- Es. cbv beta iota.
    rewrite parse_decimal_str_nat by lia.
    rewrite not_zero_char by exact Hc. reflexivity.
Qed.


End DigitFacts.

(** ** The extra columns of an atom line *)

Module AtomFacts.
Import Timestep Shape.


Lemma append_list (d : pydict) (k : string) (v : pyval) (l : list pyval) :
  Dict.get d k = Some (VList l) ->
  Dict.append d k v = Ret (Dict.set d k (VList (l ++ [v]))).
Proof.
  intros H. unfold Dict.append, Dict.item. rewrite H. reflexivity.
Qed.

Section Extras.

Variable xk : list string.
Hypothesis Hnodup : NoDup xk.




End Extras.


End AtomFacts.




(** ** Tokens and lines *)

Module TextFacts.
Import Str Shape DigitFacts.

Local Open Scope string_scope.

Lemma token_inv (s : string) :
  token s = true -> s <> "" /\ all_chars not_space s = true.
Proof.
  unfold token. intros H. apply andb_prop in H. destruct H as [H1 H2].
  split; [|exact H2]. intros ->. discriminate.
Qed.

Lemma token_intro (s : string) :
  s <> "" -> all_chars not_space s = true -> token s = true.
Proof.
  intros H1 H2. unfold token. apply andb_true_intro. split; [|exact H2].
  apply negb_true_iff. apply String.eqb_neq. exact H1.
Qed.

(** [split] takes a token up to the white space after it. *)
Lemma split_token (t : string) (c : ascii) (rest : string) :
  token t = true -> is_space c = true ->
  split (t ++ String c rest) = t :: split rest.
Proof.
  intros Ht Hc. apply token_inv in Ht. destruct Ht as [Hne Hall].
  induction t as [|a t IH]; [congruence|].
  cbn [all_chars] in Hall. apply andb_prop in Hall. destruct Hall as [Ha Hall].
  unfold not_space in Ha. apply negb_true_iff in Ha.
  cbn [append split]. rewrite Ha.
  destruct t as [|b t].
  - cbn [append]. rewrite Hc. cbn [split]. rewrite Hc. reflexivity.
  - cbn [append]. cbn [all_chars] in Hall. pose proof Hall as Hall'.
    apply andb_prop in Hall'. destruct Hall' as [Hb _].
    unfold not_space in Hb. apply negb_true_iff in Hb. rewrite Hb.
    cbn [append] in IH. rewrite IH; [reflexivity | discriminate | exact Hall].
Qed.

(** A line of tokens separated by single spaces splits into its tokens. *)
Lemma split_join (toks : list string) :
  Forall (fun t => token t = true) toks ->
  split (join " " toks ++ nl) = toks.
Proof.
  unfold join. induction 1 as [|t ts Ht Hts IH]; [reflexivity|].
  destruct ts as [|t2 ts].
  - cbn [concat]. unfold nl. rewrite split_token by (exact Ht || reflexivity).
    reflexivity.
  - change (concat " " (t :: t2 :: ts)) with (t ++ " " ++ concat " " (t2 :: ts)).
    rewrite append_assoc. cbn [append].
    rewrite split_token by (exact Ht || reflexivity).
    change (String " " (concat " " (t2 :: ts) ++ nl))
      with (" " ++ (concat " " (t2 :: ts) ++ nl)) in *.
    cbn [append]. rewrite IH. reflexivity.
Qed.

(** [lines] cuts after the first newline. *)
Lemma lines_line (b rest : string) :
  all_chars not_newline b = true ->
  File.lines (b ++ nl ++ rest) = (b ++ nl) :: File.lines rest.
Proof.
  induction b as [|c b IH]; intros H.
  - reflexivity.
  - cbn [all_chars] in H. apply andb_prop in H. destruct H as [Hc Hb].
    unfold not_newline in Hc. apply negb_true_iff in Hc.
    cbn [append File.lines]. rewrite Hc.
    cbn [append] in IH. rewrite (IH Hb). reflexivity.
Qed.

Lemma lines_text_of (bodies : list string) :
  Forall (fun b => all_chars not_newline b = true) bodies ->
  File.lines (text_of bodies) = map (fun b => b ++ nl) bodies.
Proof.
  induction 1 as [|b r Hb Hr IH]; [reflexivity|].
  cbn [text_of map]. rewrite lines_line by exact Hb. rewrite IH. reflexivity.
Qed.

(** A needle with a colon in it is not found in a text without colons. *)
Lemma prefix_colon (a b : string) :
  forall hay, all_chars not_colon hay = true ->
              prefix (a ++ String ":" b) hay = false.
Proof.
  induction a as [|x a IH]; intros hay H; destruct hay as [|h r];
    try reflexivity; cbn [append prefix];
    cbn [all_chars] in H; apply andb_prop in H; destruct H as [Hh Hr].
  - unfold not_colon in Hh. apply negb_true_iff in Hh.
    destruct (ascii_dec ":" h) as [<-|]; [discriminate | reflexivity].
  - destruct (ascii_dec x h); [apply IH; exact Hr | reflexivity].
Qed.

Lemma contains_colon (a b hay : string) :
  all_chars not_colon hay = true ->
  contains (a ++ String ":" b) hay = false.
Proof.
  induction hay as [|h r IH]; intros H.
  - cbn [contains]. rewrite prefix_colon by exact H. reflexivity.
  - cbn [contains]. rewrite prefix_colon by exact H.
    cbn [all_chars] in H. apply andb_prop in H. destruct H as [_ Hr].
    rewrite (IH Hr). reflexivity.
Qed.

(** A needle is not found in a text without its first character. *)
Lemma contains_first_char (c : ascii) (n hay : string) :
  all_chars (fun h => negb (Ascii.eqb h c)) hay = true ->
  contains (String c n) hay = false.
Proof.
  induction hay as [|h r IH]; intros H; [reflexivity|].
  cbn [all_chars] in H. apply andb_prop in H. destruct H as [Hh Hr].
  apply negb_true_iff in Hh.
  cbn [contains prefix].
  destruct (ascii_dec c h) as [<-|].
  - rewrite Ascii.eqb_refl in Hh. discriminate.
  - rewrite (IH Hr). reflexivity.
Qed.

End TextFacts.

(** ** The text of numbers *)

Module NumFacts.
Import Str Num Shape DigitFacts TextFacts.

Local Open Scope string_scope.

(** The characters of the numbers that [dump] writes. *)
Lemma numchar_props (c : ascii) :
  numchar c = true ->
  not_space c = true /\ not_colon c = true /\ not_newline c = true
  /\ negb (Ascii.eqb c "I") = true.
Proof.
  destruct c as [[] [] [] [] [] [] [] []]; intros H; try discriminate H;
    repeat split; reflexivity.
Qed.

Lemma digit_props (c : ascii) :
  is_digit c = true ->
  numchar c = true /\ lower c = c /\ Ascii.eqb c "i" = false
  /\ Ascii.eqb c "n" = false /\ Ascii.eqb c "_" = false
  /\ Ascii.eqb c "{" = false /\ Ascii.eqb c "}" = false
  /\ Ascii.eqb c ":" = false
  /\ Z.of_nat (Z.to_nat (digit_val c)) = digit_val c.
Proof.
  destruct c as [[] [] [] [] [] [] [] []]; intros H; try discriminate H;
    repeat split; reflexivity.
Qed.

Lemma digits_numchars (s : string) :
  all_chars is_digit s = true -> all_chars numchar s = true.
Proof.
  apply all_chars_impl. intros c H. apply (digit_props c H).
Qed.

(** [scan_digits] reads a run of digits to its end. *)
Lemma scan_run_end (ds : string) :
  all_chars is_digit ds = true ->
  forall acc n, exists v,
    scan_digits acc n ds = (v, (n + String.length ds)%nat, "").
Proof.
  induction ds as [|c ds IH]; intros H acc n.
  - exists acc. cbn. rewrite Nat.add_0_r. reflexivity.
  - cbn [all_chars] in H. apply andb_prop in H. destruct H as [Hc Hds].
    cbn [scan_digits String.length]. rewrite Hc.
    destruct (IH Hds (10 * acc + digit_val c)%Z (S n)) as (v & ->).
    exists v. f_equal. f_equal. lia.
Qed.

(** [scan_digits] stops at a character that is neither a digit nor an
    underscore. *)
Lemma scan_run_stop (ds : string) (c : ascii) (rest : string) :
  all_chars is_digit ds = true ->
  is_digit c = false -> Ascii.eqb c "_" = false ->
  forall acc n, exists v,
    scan_digits acc n (ds ++ String c rest)
      = (v, (n + String.length ds)%nat, String c rest).
Proof.
  intros H Hc Hu. induction ds as [|a ds IH]; intros acc n.
  - exists acc. cbn [append scan_digits String.length]. rewrite Hc, Hu.
    rewrite Nat.add_0_r. reflexivity.
  - cbn [all_chars] in H. apply andb_prop in H. destruct H as [Ha Hds].
    cbn [append scan_digits String.length]. rewrite Ha.
    destruct (IH Hds (10 * acc + digit_val a)%Z (S n)) as (v & ->).
    exists v. f_equal. f_equal. lia.
Qed.

Lemma all_chars_zeros (n : nat) : all_chars is_digit (zeros n) = true.
Proof.
  induction n as [|n IH]; [reflexivity|]. cbn. exact IH.
Qed.

Lemma length_zeros (n : nat) : String.length (zeros n) = n.
Proof.
  induction n as [|n IH]; [reflexivity|]. cbn. rewrite IH. reflexivity.
Qed.

Lemma all_chars_substring (p : ascii -> bool) (s : string) :
  all_chars p s = true ->
  forall a b, all_chars p (substring a b s) = true.
Proof.
  induction s as [|c s IH]; intros H a b.
  - destruct a, b; reflexivity.
  - cbn [all_chars] in H. apply andb_prop in H. destruct H as [Hc Hs].
    destruct a as [|a]; [destruct b as [|b]|]; cbn [substring all_chars].
    + reflexivity.
    + rewrite Hc. apply IH. exact Hs.
    + apply IH. exact Hs.
Qed.

Lemma length_substring (s : string) :
  forall a b, (a + b <= String.length s)%nat ->
              String.length (substring a b s) = b.
Proof.
  induction s as [|c s IH]; intros a b H; cbn [String.length] in H.
  - assert (a = O) by lia. assert (b = O) by lia. subst. reflexivity.
  - destruct a as [|a]; [destruct b as [|b]|]; cbn [substring String.length].
    + reflexivity.
    + rewrite IH by lia. reflexivity.
    + apply IH. lia.
Qed.

Lemma length_nonempty (s : string) : (0 < String.length s)%nat -> s <> "".
Proof.
  intros H ->. cbn in H. lia.
Qed.

(** A number with a point: digits, a point, digits. *)
Lemma point_digits_shape (d : nat) (n : Z) :
  (0 <= n)%Z -> decimal_text (point_digits (S d) n).
Proof.
  intros Hn. unfold point_digits.
  set (ds := zfill (S (S d)) (str_nat n)).
  destruct (str_nat_spec n Hn) as (_ & Hdig & _).
  assert (Hall : all_chars is_digit ds = true).
  { unfold ds, zfill. rewrite all_chars_app, all_chars_zeros. exact Hdig. }
  assert (Hlen : (S (S d) <= String.length ds)%nat).
  { unfold ds, zfill. rewrite length_append, length_zeros. lia. }
  exists (substring 0 (String.length ds - S d) ds),
         (substring (String.length ds - S d) (S d) ds).
  split; [reflexivity|].
  split; [apply all_chars_substring; exact Hall|].
  split; [apply length_nonempty; rewrite length_substring; lia|].
  split; [apply all_chars_substring; exact Hall|].
  apply length_nonempty. rewrite length_substring; lia.
Qed.

Lemma round_half_even_nonneg (num den : Z) :
  (0 <= num)%Z -> (0 < den)%Z -> (0 <= round_half_even num den)%Z.
Proof.
  intros Hn Hd. unfold round_half_even.
  assert (0 <= num / den)%Z by (apply Z.div_pos; lia).
  destruct (2 * (num mod den) <? den)%Z; [lia|].
  destruct (den <? 2 * (num mod den))%Z; [lia|].
  destruct (Z.even (num / den)); lia.
Qed.

Lemma frac_of_pos (m : positive) (e num den : Z) :
  frac_of m e = (num, den) -> (0 < num)%Z /\ (0 < den)%Z.
Proof.
  unfold frac_of. destruct (0 <=? e)%Z eqn:E; intros H;
    pose proof (f_equal fst H) as H1; pose proof (f_equal snd H) as H2;
    cbn [fst snd] in H1, H2; subst num den.
  - apply Z.leb_le in E. split; [|lia].
    apply Z.mul_pos_pos; [lia | apply Z.pow_pos_nonneg; lia].
  - apply Z.leb_gt in E. split; [lia | apply Z.pow_pos_nonneg; lia].
Qed.

(** The shapes of ["{:.<d>f}".format(x)]. *)
Lemma fmt_fixed_shape (d : nat) (x : float) :
  fmt_fixed (S d) x = "nan"
  \/ (exists sg, fmt_fixed (S d) x = sign_str sg ++ "inf")
  \/ (exists sg t, fmt_fixed (S d) x = sign_str sg ++ t /\ decimal_text t).
Proof.
  unfold fmt_fixed. destruct (Prim2SF x) as [sg|sg| |sg m e].
  - right. right. exists sg. eexists. split; [reflexivity|].
    apply point_digits_shape. lia.
  - right. left. exists sg. reflexivity.
  - left. reflexivity.
  - destruct (frac_of m e) as [num den] eqn:E.
    destruct (frac_of_pos m e num den E) as [Hn Hd].
    right. right. exists sg. eexists. split; [reflexivity|].
    apply point_digits_shape. apply round_half_even_nonneg; [|exact Hd].
    apply Z.mul_nonneg_nonneg; [lia | apply Z.pow_nonneg; lia].
Qed.

Lemma finite_cases (x : float) :
  is_finite x = true ->
  (exists sg, Prim2SF x = S754_zero sg)
  \/ (exists sg m e, Prim2SF x = S754_finite sg m e).
Proof.
  unfold is_finite, Prim2SF. intros H. apply negb_true_iff in H.
  apply orb_false_iff in H. destruct H as [-> ->].
  destruct (is_zero x); [left; eexists; reflexivity|].
  destruct (Z.frexp x) as [r ex].
  destruct (shr_fexp prec emax (Uint63Axioms.to_Z (normfr_mantissa r))
              (ex - prec) loc_Exact) as [shr e'].
  destruct (shr_m shr); [left | right | left]; repeat eexists.
Qed.

(** A number in scientific notation: a decimal, [e], a sign, digits. *)
Lemma exp_str_shape (x : Z) :
  exists esg ed,
    exp_str x = esg ++ ed /\ (esg = "-" \/ esg = "+")
    /\ all_chars is_digit ed = true /\ ed <> "".
Proof.
  unfold exp_str.
  destruct (str_nat_spec (Z.abs x) (Z.abs_nonneg x)) as (Hne & Hdig & _).
  exists (if (x <? 0)%Z then "-" else "+"), (zfill 2 (str_nat (Z.abs x))).
  split; [reflexivity|].
  split; [destruct (x <? 0)%Z; auto|].
  split.
  - unfold zfill. rewrite all_chars_app, all_chars_zeros. exact Hdig.
  - unfold zfill. intros H.
    assert (L : String.length (zeros (2 - String.length (str_nat (Z.abs x)))
                               ++ str_nat (Z.abs x)) = O) by (rewrite H; reflexivity).
    rewrite length_append in L.
    destruct (str_nat (Z.abs x)); [congruence | cbn in L; lia].
Qed.

(** The shape of ["{:.<d>e}".format(x)] for a finite [x]. *)
Lemma fmt_sci_shape (d : nat) (x : float) :
  is_finite x = true ->
  exists sg t, fmt_sci (S d) x = sign_str sg ++ t /\ sci_text t.
Proof.
  intros Hf. unfold fmt_sci.
  destruct (finite_cases x Hf) as [(sg & ->)|(sg & m & e & ->)].
  - exists sg. eexists. split; [reflexivity|].
    exists (point_digits (S d) 0), "+", "00".
    split; [reflexivity|]. split; [apply point_digits_shape; lia|].
    split; [auto|]. split; [reflexivity | discriminate].
  - destruct (frac_of m e) as [num den] eqn:E.
    destruct (frac_of_pos m e num den E) as [Hn Hd].
    set (x10 := dec_exponent num den).
    set (sh := (x10 - Z.of_nat (S d))%Z).
    set (n := if (0 <=? sh)%Z then round_half_even num (den * 10 ^ sh)
              else round_half_even (num * 10 ^ (- sh)) den).
    assert (Hnn : (0 <= n)%Z).
    { unfold n. destruct (0 <=? sh)%Z eqn:Es.
      - apply Z.leb_le in Es. apply round_half_even_nonneg; [lia|].
        apply Z.mul_pos_pos; [lia | apply Z.pow_pos_nonneg; lia].
      - apply round_half_even_nonneg; [|lia].
        apply Z.mul_nonneg_nonneg; [lia | apply Z.pow_nonneg; lia]. }
    destruct (10 ^ Z.of_nat (S (S d)) <=? n)%Z.
    + destruct (exp_str_shape (x10 + 1)) as (esg & ed & Ee & He & Hd1 & Hd2).
      exists sg. eexists. split; [reflexivity|].
      exists (point_digits (S d) (n / 10)), esg, ed.
      split; [rewrite Ee; reflexivity|].
      split; [apply point_digits_shape; apply Z.div_pos; lia|].
      auto.
    + destruct (exp_str_shape x10) as (esg & ed & Ee & He & Hd1 & Hd2).
      exists sg. eexists. split; [reflexivity|].
      exists (point_digits (S d) n), esg, ed.
      split; [rewrite Ee; reflexivity|].
      split; [apply point_digits_shape; exact Hnn|].
      auto.
Qed.

Lemma decimal_text_head (t : string) :
  decimal_text t -> exists c r, t = String c r /\ is_digit c = true.
Proof.
  intros (ip & fp & -> & Hip & Hne & _). destruct ip as [|c ip]; [congruence|].
  exists c. eexists. split; [reflexivity|].
  cbn in Hip. apply andb_prop in Hip. apply Hip.
Qed.

Lemma sci_text_head (t : string) :
  sci_text t -> exists c r, t = String c r /\ is_digit c = true.
Proof.
  intros (d & esg & ed & -> & Hd & _).
  destruct (decimal_text_head d Hd) as (c & r & -> & Hc).
  exists c. eexists. split; [reflexivity | exact Hc].
Qed.

Lemma parse_decimal_text (t : string) :
  decimal_text t -> exists m e, parse_decimal t = Some (m, e, true).
Proof.
  intros (ip & fp & -> & Hip & Hne & Hfp & _). unfold parse_decimal.
  cbn [append].
  destruct (scan_run_stop ip "." fp Hip eq_refl eq_refl 0%Z O) as (v & ->).
  destruct (scan_run_end fp Hfp v O) as (v' & ->).
  destruct ip as [|c ip]; [congruence|]. cbn [String.length Nat.add Nat.eqb andb].
  do 2 eexists. reflexivity.
Qed.

Lemma parse_decimal_sci (t : string) :
  sci_text t -> exists m e, parse_decimal t = Some (m, e, true).
Proof.
  intros (d & esg & ed & -> & (ip & fp & -> & Hip & Hne & Hfp & _) & He & Hed & Hne2).
  unfold parse_decimal. rewrite !append_assoc. cbn [append].
  destruct (scan_run_stop ip "." (fp ++ String "e" (esg ++ ed)) Hip
              eq_refl eq_refl 0%Z O) as (v & ->).
  destruct (scan_run_stop fp "e" (esg ++ ed) Hfp eq_refl eq_refl v O)
    as (v' & ->).
  destruct ip as [|c ip]; [congruence|].
  cbn [String.length Nat.add Nat.eqb andb Ascii.eqb Bool.eqb orb].
  destruct (scan_run_end ed Hed 0%Z O) as (ev & Hev).
  destruct ed as [|c2 ed]; [congruence|]. cbn [String.length Nat.add] in Hev.
  destruct He as [-> | ->]; cbn [append parse_sign]; rewrite Hev;
    do 2 eexists; reflexivity.
Qed.

Lemma not_special (c : ascii) (r : string) :
  is_digit c = true ->
  ((lowercase (String c r) =? "inf") || (lowercase (String c r) =? "infinity"))%bool
    = false
  /\ (lowercase (String c r) =? "nan") = false.
Proof.
  intros H. destruct (digit_props c H) as (_ & Hl & Hi & Hn & _).
  cbn [lowercase String.eqb]. rewrite Hl, Hi, Hn. split; reflexivity.
Qed.

(** [float] reads every text that the format [.{d}f] writes. *)
Lemma py_float_fmt_fixed (d : nat) (x : float) :
  exists y, py_float (fmt_fixed (S d) x) = Ret y.
Proof.
  destruct (fmt_fixed_shape d x) as [->|[(sg & ->)|(sg & t & -> & Ht)]].
  - eexists. vm_compute. reflexivity.
  - destruct sg; eexists; vm_compute; reflexivity.
  - destruct (decimal_text_head t Ht) as (c & r & E & Hc).
    destruct (parse_decimal_text t Ht) as (m & e & Hp).
    destruct (not_special c r Hc) as [N1 N2].
    unfold py_float.
    assert (Hs : parse_sign (sign_str sg ++ t) = (sg, t)).
    { destruct sg; cbn [sign_str append parse_sign]; [reflexivity|].
      rewrite E. apply parse_sign_digit. exact Hc. }
    rewrite Hs, E, N1, N2, <- E, Hp. eexists. reflexivity.
Qed.

(** [eval] reads every text that the format [.{d}e] writes for a finite
    number, as a float. *)
Lemma py_eval_fmt_sci (d : nat) (x : float) :
  is_finite x = true ->
  exists y, Expr.py_eval (fmt_sci (S d) x) = Ret (VFloat y).
Proof.
  intros Hf. destruct (fmt_sci_shape d x Hf) as (sg & t & -> & Ht).
  destruct (sci_text_head t Ht) as (c & r & E & Hc).
  destruct (parse_decimal_sci t Ht) as (m & e & Hp).
  unfold Expr.py_eval.
  assert (Hs : Expr.strip_signs false (sign_str sg ++ t) = (sg, t)).
  { destruct sg; cbn [sign_str append Expr.strip_signs negb]; rewrite E;
      apply strip_signs_digit; exact Hc. }
  rewrite Hs, Hp. eexists. reflexivity.
Qed.

Lemma reread_fixed_spec (d : nat) (x : float) :
  py_float (fmt_fixed (S d) x) = Ret (Record.reread_fixed (S d) x).
Proof.
  unfold Record.reread_fixed.
  destruct (py_float_fmt_fixed d x) as (y & ->). reflexivity.
Qed.

Lemma reread_sci_spec (x : float) :
  is_finite x = true ->
  Expr.py_eval (fmt_sci 5 x) = Ret (VFloat (Record.reread_sci x)).
Proof.
  intros Hf. unfold Record.reread_sci.
  destruct (py_eval_fmt_sci 4 x Hf) as (y & ->). reflexivity.
Qed.

(** The characters of the numbers written. *)
Lemma decimal_text_chars (t : string) :
  decimal_text t -> all_chars numchar t = true.
Proof.
  intros (ip & fp & -> & Hip & _ & Hfp & _).
  rewrite !all_chars_app, (digits_numchars ip Hip), (digits_numchars fp Hfp).
  reflexivity.
Qed.

Lemma sign_chars (sg : bool) (t : string) :
  all_chars numchar t = true -> all_chars numchar (sign_str sg ++ t) = true.
Proof.
  intros H. destruct sg; cbn; exact H.
Qed.

Lemma fmt_fixed_chars (d : nat) (x : float) :
  all_chars numchar (fmt_fixed (S d) x) = true /\ fmt_fixed (S d) x <> "".
Proof.
  destruct (fmt_fixed_shape d x) as [->|[(sg & ->)|(sg & t & -> & Ht)]].
  - split; [reflexivity | discriminate].
  - destruct sg; split; (reflexivity || discriminate).
  - split; [apply sign_chars, decimal_text_chars; exact Ht|].
    destruct (decimal_text_head t Ht) as (c & r & -> & _).
    destruct sg; discriminate.
Qed.

Lemma fmt_sci_chars (d : nat) (x : float) :
  is_finite x = true ->
  all_chars numchar (fmt_sci (S d) x) = true /\ fmt_sci (S d) x <> "".
Proof.
  intros Hf. destruct (fmt_sci_shape d x Hf) as (sg & t & -> & Ht).
  split.
  - apply sign_chars.
    destruct Ht as (dt & esg & ed & -> & Hd & He & Hed & _).
    rewrite !all_chars_app, (decimal_text_chars dt Hd), (digits_numchars ed Hed).
    destruct He as [-> | ->]; reflexivity.
  - destruct (sci_text_head t Ht) as (c & r & -> & _). destruct sg; discriminate.
Qed.

Lemma str_int_chars (n : Z) :
  all_chars numchar (str_int n) = true /\ str_int n <> "".
Proof.
  unfold str_int. destruct (n <? 0)%Z eqn:E.
  - apply Z.ltb_lt in E.
    destruct (str_nat_spec (- n) ltac:(lia)) as (_ & Hd & _).
    split; [|discriminate]. cbn. apply digits_numchars. exact Hd.
  - apply Z.ltb_ge in E. destruct (str_nat_spec n E) as (Hne & Hd & _).
    split; [apply digits_numchars; exact Hd | exact Hne].
Qed.

Lemma numchars_token (s : string) :
  all_chars numchar s = true -> s <> "" -> token s = true.
Proof.
  intros H Hne. apply token_intro; [exact Hne|].
  eapply all_chars_impl; [|exact H]. intros c Hc. apply (numchar_props c Hc).
Qed.

End NumFacts.

(** ** Format strings *)

Module FormatFacts.
Import Str Num Shape Field DigitFacts TextFacts NumFacts Fmt.

Local Open Scope string_scope.

(** A replacement field with an explicit index: [{idx:spec}]. *)
Lemma format_index (v : pyval) (t : string) :
  py_str v = Ret t -> format ("{}" ++ nl) [v] = Ret (t ++ nl).
Proof.
  intros H. unfold format. cbn [append format_aux Ascii.eqb Bool.eqb].
  unfold render_field. cbn [split_field nth_error bind parse_spec render].
  rewrite H. reflexivity.
Qed.










Lemma join_spaced (t : string) (ts : list string) :
  join " " (t :: ts) = t ++ spaced ts.
Proof.
  unfold join. revert t. induction ts as [|t2 ts IH]; intros t.
  - cbn. rewrite append_nil_r. reflexivity.
  - change (concat " " (t :: t2 :: ts)) with (t ++ " " ++ concat " " (t2 :: ts)).
    rewrite IH. reflexivity.
Qed.

End FormatFacts.

(** ** Writing a record *)

Module DumpFacts.
Import Str Num Shape Field Record DigitFacts TextFacts NumFacts FormatFacts
  Timestep.

Lemma get_app (l1 l2 : pydict) (k : string) :
  Dict.get (l1 ++ l2) k =
    match Dict.get l1 k with Some v => Some v | None => Dict.get l2 k end.
Proof.
  induction l1 as [|[k' v'] l1 IH]; cbn; [reflexivity|].
  destruct (k' =? k)%string; [reflexivity | exact IH].
Qed.

Lemma get_columns_none (atoms : list atom) (name : string)
    (kinds : list (string * dtype)) :
  forall j, ~ In name (map fst kinds) ->
            Dict.get (column_attrs j kinds atoms) name = None.
Proof.
  induction kinds as [|[n k] kinds IH]; intros j H; cbn; [reflexivity|].
  destruct (String.eqb_spec n name) as [->|Hne].
  - exfalso. apply H. left. reflexivity.
  - apply IH. intros Hin. apply H. right. exact Hin.
Qed.

Lemma get_columns (atoms : list atom) (name : string) (k : dtype)
    (kinds : list (string * dtype)) :
  forall j p,
    NoDup (map fst kinds) -> nth_error kinds p = Some (name, k) ->
    Dict.get (column_attrs j kinds atoms) name
      = Some (VArray (column k (j + p) atoms)).
Proof.
  induction kinds as [|[n0 k0] kinds IH]; intros j p Hnd Hp.
  - destruct p; discriminate.
  - cbn [map fst] in Hnd. inversion Hnd as [|? ? Hnot Hnd']; subst.
    destruct p as [|p]; cbn [nth_error] in Hp.
    + injection Hp as -> ->. cbn. rewrite String.eqb_refl, Nat.add_0_r.
      reflexivity.
    + cbn [column_attrs Dict.get].
      destruct (String.eqb_spec n0 name) as [->|Hne].
      * exfalso. apply Hnot. apply nth_error_In in Hp.
        apply (in_map fst) in Hp. exact Hp.
      * rewrite (IH (S j) p Hnd' Hp). rewrite Nat.add_succ_r. reflexivity.
Qed.


Lemma nth_error_middle {A : Type} (l1 l2 : list A) (x : A) :
  nth_error (l1 ++ x :: l2) (List.length l1) = Some x.
Proof.
  induction l1 as [|a l1 IH]; [reflexivity | exact IH].
Qed.




Section OneRecord.

Variables (filepath : string) (D : data).
Hypothesis Hreg : regular D.

Let R : object := record_of filepath D (names D).

Lemma reserved_not_name (key : string) :
  In key reserved -> ~ In key (names D).
Proof.
  intros Hk Hin. destruct Hreg as (_ & _ & Hgood & _).
  rewrite Forall_forall in Hgood. destruct (Hgood key Hin) as (_ & _ & H).
  apply H. exact Hk.
Qed.

(** An attribute that is not a column is looked up as if there were no
    columns. *)
Lemma get_skip_columns (key : string) (xnames : list string) :
  ~ In key (names D) ->
  Dict.get (record_of filepath D xnames) key =
    Dict.get (record_of filepath (mkData (d_index D) (d_periodic D) (d_box D)
                                    [] (d_atoms D)) xnames) key.
Proof.
  intros H. unfold record_of. cbn [d_kinds d_atoms column_attrs].
  rewrite !get_app, get_columns_none by exact H. reflexivity.
Qed.

Lemma get_column (p : nat) (name : string) (k : dtype) (xnames : list string) :
  nth_error (d_kinds D) p = Some (name, k) ->
  Dict.get (record_of filepath D xnames) name
    = Some (VArray (column k p (d_atoms D))).
Proof.
  intros Hp. destruct Hreg as (_ & Hnd & Hgood & _).
  assert (Hin : In name (names D)).
  { apply nth_error_In in Hp. apply (in_map fst) in Hp. exact Hp. }
  rewrite Forall_forall in Hgood. destruct (Hgood name Hin) as (_ & _ & Hres).
  unfold record_of. rewrite get_app.
  assert (F : Dict.get
                [("filepath", VStr filepath); ("index", VInt (d_index D));
                 ("types", VArray (IntVec (map a_type (d_atoms D))));
                 ("ids", VArray (IntVec (map a_id (d_atoms D))));
                 ("xyz", VArray (FloatMat 3
                           (map (fun a => [a_x a; a_y a; a_z a]) (d_atoms D))));
                 ("extras", VList (map VStr ("ids" :: xnames)))] name = None).
  { cbn [Dict.get].
    repeat match goal with
           | |- context [(?key =? name)%string] =>
               destruct (String.eqb_spec key name) as [<-|_];
               [exfalso; apply Hres; cbn; tauto|]
           end.
    reflexivity. }
  rewrite F, get_app, (get_columns (d_atoms D) name k (d_kinds D) 0 p Hnd Hp).
  reflexivity.
Qed.






End OneRecord.

End DumpFacts.

Module WriteFacts.
Import Str Num Fmt Shape Field Record DigitFacts TextFacts NumFacts
  FormatFacts Timestep DumpFacts.






Section OneRecord.

Variables (filepath : string) (D : data).
Hypothesis Hreg : regular D.

Let R : object := record_of filepath D (names D).






End OneRecord.

End WriteFacts.

(** ** Reading the text of a record *)

Module ParseFacts.
Import Str Num Shape Field Record DigitFacts TextFacts NumFacts FormatFacts
  Timestep DumpFacts WriteFacts.

Lemma space_is_newline (c : ascii) : not_space c = true -> not_newline c = true.
Proof.
  unfold not_space, not_newline.
  destruct (Ascii.eqb_spec c (ascii_of_nat 10)) as [->|_]; [|reflexivity].
  intros H. exact H.
Qed.

Lemma token_no_newline (t : string) :
  token t = true -> all_chars not_newline t = true.
Proof.
  intros H. destruct (token_inv t H) as (_ & Hs).
  exact (all_chars_impl _ _ t space_is_newline Hs).
Qed.

Lemma all_chars_spaced (p : ascii -> bool) (ts : list string) :
  p " "%char = true -> Forall (fun t => all_chars p t = true) ts ->
  all_chars p (spaced ts) = true.
Proof.
  intros Hp. induction 1 as [|t ts Ht _ IH]; [reflexivity|].
  cbn [spaced]. rewrite !all_chars_app, Ht, IH. cbn [all_chars].
  rewrite Hp. reflexivity.
Qed.

Lemma all_chars_join (p : ascii -> bool) (ts : list string) :
  p " "%char = true -> Forall (fun t => all_chars p t = true) ts ->
  all_chars p (join " " ts) = true.
Proof.
  intros Hp H. destruct H as [|t ts Ht Hts]; [reflexivity|].
  rewrite join_spaced, all_chars_app, Ht, (all_chars_spaced p ts Hp Hts).
  reflexivity.
Qed.

Lemma numchar_token (s : string) :
  all_chars numchar s = true /\ s <> "" -> token s = true.
Proof.
  intros (H & Hne). apply numchars_token; assumption.
Qed.

Lemma numchar_class (p : ascii -> bool) (s : string) :
  (forall c, numchar c = true -> p c = true) ->
  all_chars numchar s = true /\ s <> "" -> all_chars p s = true.
Proof.
  intros Hp (H & _). exact (all_chars_impl _ _ s Hp H).
Qed.

Lemma cell_text_chars (k : string * dtype) (c : cell) :
  cell_ok k c -> all_chars numchar (cell_text c) = true /\ cell_text c <> "".
Proof.
  unfold cell_ok. destruct (snd k), c; try contradiction; intros H; cbn.
  - apply str_int_chars.
  - apply (fmt_sci_chars 4 x H).
Qed.

(** The tokens of an atom line are made of the characters of numbers. *)
Lemma atom_tokens_chars (kinds : list (string * dtype)) (a : atom) :
  Forall2 cell_ok kinds (a_cells a) ->
  Forall (fun t => all_chars numchar t = true /\ t <> "") (atom_tokens a).
Proof.
  intros Hc. unfold atom_tokens. apply Forall_app. split.
  - repeat constructor;
      first [apply str_int_chars | apply (fmt_fixed_chars 4)].
  - induction Hc as [|k c kinds cells Hk _ IH]; cbn [map]; constructor.
    + exact (cell_text_chars k c Hk).
    + exact IH.
Qed.

Lemma split_atom_line (kinds : list (string * dtype)) (a : atom) :
  Forall2 cell_ok kinds (a_cells a) ->
  split (join " " (atom_tokens a) ++ nl) = atom_tokens a.
Proof.
  intros Hc. apply split_join.
  eapply Forall_impl; [|exact (atom_tokens_chars kinds a Hc)].
  intros t. apply numchar_token.
Qed.

Lemma no_I_in_atom_line (kinds : list (string * dtype)) (a : atom) :
  Forall2 cell_ok kinds (a_cells a) ->
  contains "ITEM" (join " " (atom_tokens a) ++ nl) = false.
Proof.
  intros Hc. apply (contains_first_char "I" "TEM").
  rewrite all_chars_app. apply andb_true_intro. split; [|reflexivity].
  apply all_chars_join; [reflexivity|].
  eapply Forall_impl; [|exact (atom_tokens_chars kinds a Hc)].
  intros t. apply numchar_class. intros c Hn.
  destruct (numchar_props c Hn) as (_ & _ & _ & H). exact H.
Qed.

Lemma line_not_empty (b : string) : ((b ++ nl) =? "")%string = false.
Proof.
  destruct b; reflexivity.
Qed.

Lemma flag_line_chars (bs : list bool) :
  all_chars not_newline (join " " (map flag_text bs)) = true.
Proof.
  apply all_chars_join; [reflexivity|].
  induction bs as [|b bs IH]; cbn [map]; constructor;
    [destruct b; reflexivity | exact IH].
Qed.

Section OneRecord.

Variable D : data.
Hypothesis Hreg : regular D.

Lemma names_tokens : Forall (fun t => token t = true) (names D).
Proof.
  destruct Hreg as (_ & _ & Hgood & _).
  eapply Forall_impl; [|exact Hgood]. intros n (H & _). exact H.
Qed.

Lemma names_no_colon :
  Forall (fun t => all_chars not_colon t = true) (names D).
Proof.
  destruct Hreg as (_ & _ & Hgood & _).
  eapply Forall_impl; [|exact Hgood]. intros n (_ & H & _). exact H.
Qed.

Lemma atoms_cells : Forall (fun a => Forall2 cell_ok (d_kinds D) (a_cells a)) (d_atoms D).
Proof.
  destruct Hreg as (_ & _ & _ & Hok).
  eapply Forall_impl; [|exact Hok]. intros a (_ & _ & H). exact H.
Qed.

(** The lines of the text of [D]. *)
Lemma lines_text :
  File.lines (Record.text D) = map (fun b => (b ++ nl)%string) (bodies D).
Proof.
  unfold Record.text. apply lines_text_of. unfold bodies.
  assert (Hn : forall n, all_chars not_newline (str_int n) = true).
  { intros n. apply (numchar_class not_newline); [|apply str_int_chars].
    intros c Hc. destruct (numchar_props c Hc) as (_ & _ & H & _). exact H. }
  assert (Hf : forall x, all_chars not_newline (fmt_fixed 4 x) = true).
  { intros x. apply (numchar_class not_newline); [|apply (fmt_fixed_chars 3)].
    intros c Hc. destruct (numchar_props c Hc) as (_ & _ & H & _). exact H. }
  apply Forall_app. split.
  { repeat constructor; try apply Hn.
    rewrite all_chars_app, flag_line_chars. reflexivity. }
  apply Forall_app. split.
  { unfold box_rows. destruct (d_box D) as [[[a1 a2] [b1 b2]] [c1 c2]].
    cbn [map fst snd]. repeat constructor; unfold box_body;
      (apply all_chars_join; [reflexivity | repeat constructor; apply Hf]). }
  apply Forall_app. split.
  { repeat constructor. rewrite all_chars_app. apply andb_true_intro.
    split; [reflexivity|]. apply all_chars_join; [reflexivity|].
    constructor; [reflexivity|].
    eapply Forall_impl; [|exact names_tokens]. exact token_no_newline. }
  rewrite Forall_map. eapply Forall_impl; [|exact atoms_cells].
  intros a Hc. apply all_chars_join; [reflexivity|].
  eapply Forall_impl; [|exact (atom_tokens_chars (d_kinds D) a Hc)].
  intros t. apply numchar_class. intros c Hn'.
  destruct (numchar_props c Hn') as (_ & _ & H & _). exact H.
Qed.

End OneRecord.

End ParseFacts.

(** ** The titles and the box of a written record *)

Module HeaderFacts.
Import Str Num Shape Field Record DigitFacts TextFacts NumFacts FormatFacts
  Timestep DumpFacts WriteFacts ParseFacts.

Lemma read_loop_step (sh : bool) (sf : option (list Z)) (st st' : state)
    (b : string) (rest : list string) :
  read_line sh sf st (b ++ nl)%string = Ret (Continue st') ->
  read_loop sh sf st ((b ++ nl)%string :: rest) = read_loop sh sf st' rest.
Proof.
  intros H. cbn [read_loop]. rewrite line_not_empty, H. reflexivity.
Qed.

Lemma split_one (t : string) : token t = true -> split (t ++ nl) = [t].
Proof.
  intros H. apply (split_join [t]). constructor; [exact H | constructor].
Qed.

Lemma contains_skip (c : ascii) (n pre hay : string) :
  all_chars (fun h => negb (Ascii.eqb h c)) pre = true ->
  contains (String c n) (pre ++ hay) = contains (String c n) hay.
Proof.
  induction pre as [|h r IH]; intros H; [reflexivity|].
  cbn [all_chars] in H. apply andb_prop in H. destruct H as [Hh Hr].
  apply negb_true_iff in Hh.
  cbn [append contains prefix].
  destruct (ascii_dec c h) as [<-|].
  - rewrite Ascii.eqb_refl in Hh. discriminate.
  - rewrite (IH Hr). reflexivity.
Qed.

(** The title of the atoms has none of the three titles before it. *)
Lemma atoms_title_other (needle tail : string) :
  all_chars not_colon tail = true ->
  In needle ["ITEM: TIMESTEP"; "ITEM: NUMBER OF ATOMS"; "ITEM: BOX BOUNDS"]%string ->
  contains needle ("ITEM: ATOMS id type x y z " ++ tail) = false.
Proof.
  intros Ht Hn.
  change ("ITEM: ATOMS id type x y z " ++ tail)%string
    with (String "I" ("TEM: ATOMS id type x y z " ++ tail)).
  destruct Hn as [<-|[<-|[<-|[]]]].
  - change (contains "ITEM: TIMESTEP"
              (String "I" ("TEM: ATOMS id type x y z " ++ tail)))
      with (false || contains "ITEM: TIMESTEP" ("TEM: ATOMS id type x y z " ++ tail)).
    rewrite contains_skip by reflexivity.
    exact (contains_colon "ITEM" " TIMESTEP" tail Ht).
  - change (contains "ITEM: NUMBER OF ATOMS"
              (String "I" ("TEM: ATOMS id type x y z " ++ tail)))
      with (false || contains "ITEM: NUMBER OF ATOMS"
                       ("TEM: ATOMS id type x y z " ++ tail)).
    rewrite contains_skip by reflexivity.
    exact (contains_colon "ITEM" " NUMBER OF ATOMS" tail Ht).
  - change (contains "ITEM: BOX BOUNDS"
              (String "I" ("TEM: ATOMS id type x y z " ++ tail)))
      with (false || contains "ITEM: BOX BOUNDS"
                       ("TEM: ATOMS id type x y z " ++ tail)).
    rewrite contains_skip by reflexivity.
    exact (contains_colon "ITEM" " BOX BOUNDS" tail Ht).
Qed.

Lemma set_absent (d : pydict) (k : string) (v : pyval) :
  Dict.get d k = None -> Dict.set d k v = d ++ [(k, v)].
Proof.
  induction d as [|[k' v'] d IH]; cbn [Dict.get Dict.set app]; [reflexivity|].
  destruct (k' =? k)%string; [discriminate|]. intros H. rewrite (IH H).
  reflexivity.
Qed.

Lemma set_present (front rest : pydict) (k : string) (v0 v : pyval) :
  Dict.get front k = None ->
  Dict.set (front ++ (k, v0) :: rest) k v = front ++ (k, v) :: rest.
Proof.
  induction front as [|[k' v'] d IH]; cbn [Dict.get Dict.set app].
  - rewrite String.eqb_refl. reflexivity.
  - destruct (k' =? k)%string; [discriminate|]. intros H. rewrite (IH H).
    reflexivity.
Qed.

Lemma atom_key_eqb (a b : string) :
  (("atom:" ++ a) =? ("atom:" ++ b))%string = (a =? b)%string.
Proof.
  reflexivity.
Qed.

Lemma atom_key_inj (a b : string) :
  ("atom:" ++ a)%string = ("atom:" ++ b)%string -> a = b.
Proof.
  intros H. injection H as H. exact H.
Qed.

(** Lines 357-365 for headings that are new keys. *)
Lemma atom_keys_new (l : list string) :
  forall d xk,
    NoDup l ->
    (forall n, In n l -> Dict.get d ("atom:" ++ n) = None) ->
    atom_keys l d xk
    = (d ++ map (fun n => (("atom:" ++ n)%string, VList [])) l,
       xk ++ map (fun n => ("atom:" ++ n)%string) l).
Proof.
  induction l as [|n l IH]; intros d xk Hnd Hd.
  - cbn. rewrite !app_nil_r. reflexivity.
  - inversion Hnd as [|? ? Hnot Hnd']; subst.
    cbn [atom_keys map].
    rewrite set_absent by (apply Hd; left; reflexivity).
    rewrite IH; [rewrite <- !app_assoc; reflexivity | exact Hnd' |].
    intros m Hm. rewrite get_app, (Hd m (or_intror Hm)).
    cbn [Dict.get]. rewrite atom_key_eqb.
    destruct (String.eqb_spec n m) as [->|_]; [contradiction | reflexivity].
Qed.

Lemma cols_empty (kinds : list (string * dtype)) :
  forall j,
    map Raw.vl (Raw.cols j kinds [])
    = map (fun n => (("atom:" ++ n)%string, VList [])) (map fst kinds).
Proof.
  induction kinds as [|[n k] kinds IH]; intros j; [reflexivity|].
  cbn [Raw.cols map fst]. rewrite IH. reflexivity.
Qed.

Section OneRecord.

Variables (idx : Z) (p q r : bool) (a1 a2 b1 b2 c1 c2 : float).
Variables (kinds : list (string * dtype)) (atoms : list atom).

Let D : data :=
  mkData idx (p, q, r) ((a1, a2), (b1, b2), (c1, c2)) kinds atoms.

Hypothesis Hreg : regular D.

Variable ix : pyval.
Hypothesis Hix : ix = VNone \/ ix = VInt idx.

Lemma title_step :
  read_line false None (init_state ix) ("ITEM: TIMESTEP" ++ nl)
  = Ret (Continue (mkState (Some [[Timestep.CInt]]) (Some "time") [] None
                     false false ix)).
Proof.
  reflexivity.
Qed.

Lemma time_step :
  read_line false None
    (mkState (Some [[Timestep.CInt]]) (Some "time") [] None false false ix)
    (str_int idx ++ nl)
  = Ret (Continue (mkState (Some []) (Some "time") [("time", VInt idx)] None
                     false false (VInt idx))).
Proof.
  unfold read_line, read_value. cbn [itemstack current result].
  rewrite split_one by (apply numchar_token, str_int_chars).
  cbn [combine mapM fst snd apply_caster]. rewrite py_int_str_int.
  cbn [bind]. unfold time_check. cbn [index].
  destruct Hix as [->| ->].
  - reflexivity.
  - cbn [is_none Py.eq bind]. rewrite Z.eqb_refl. reflexivity.
Qed.

Lemma natoms_title_step :
  read_line false None
    (mkState (Some []) (Some "time") [("time", VInt idx)] None
       false false (VInt idx))
    ("ITEM: NUMBER OF ATOMS" ++ nl)
  = Ret (Continue (mkState (Some [[Timestep.CInt]]) (Some "natoms")
                     [("time", VInt idx)] None false false (VInt idx))).
Proof.
  reflexivity.
Qed.

Lemma natoms_step (n : Z) :
  read_line false None
    (mkState (Some [[Timestep.CInt]]) (Some "natoms")
       [("time", VInt idx)] None false false (VInt idx))
    (str_int n ++ nl)
  = Ret (Continue (mkState (Some []) (Some "natoms")
                     [("time", VInt idx); ("natoms", VInt n)] None
                     false false (VInt idx))).
Proof.
  unfold read_line, read_value. cbn [itemstack current result].
  rewrite split_one by (apply numchar_token, str_int_chars).
  cbn [combine mapM fst snd apply_caster]. rewrite py_int_str_int.
  reflexivity.
Qed.

Lemma box_title_step (n : Z) :
  read_line false None
    (mkState (Some []) (Some "natoms")
       [("time", VInt idx); ("natoms", VInt n)] None false false (VInt idx))
    (("ITEM: BOX BOUNDS " ++ join " " (map flag_text (flags D))) ++ nl)
  = Ret (Continue (mkState (Some Raw.box_casters) (Some "box")
                     [("time", VInt idx); ("natoms", VInt n);
                      ("periodic",
                       VList (map (fun b => VStr (flag_text b)) (flags D)))]
                     None false false (VInt idx))).
Proof.
  unfold D, flags. cbn [d_periodic].
  destruct p, q, r; reflexivity.
Qed.

(** A line of the box, read by two casts to [float]. *)
Lemma box_row_step (rest : list (list caster)) (d : pydict) (x y : float) :
  read_line false None
    (mkState (Some ([Timestep.CFloat; Timestep.CFloat] :: rest)) (Some "box")
       d None false false (VInt idx))
    (box_body [x; y] ++ nl)
  = (d' <- store rest "box"
             (VList [VFloat (reread_fixed 4 x); VFloat (reread_fixed 4 y)]) d ;;
     Ret (Continue (mkState (Some rest) (Some "box") d' None false false
                      (VInt idx)))).
Proof.
  unfold read_line, read_value. cbn [itemstack current result].
  unfold box_body. cbn [map].
  rewrite split_join
    by (repeat constructor; apply numchar_token, (fmt_fixed_chars 3)).
  cbn [combine mapM fst snd apply_caster].
  rewrite !(reread_fixed_spec 3). reflexivity.
Qed.


Lemma atoms_title_self (tail : string) :
  contains "ITEM: ATOMS" ("ITEM: ATOMS id type x y z " ++ tail) = true.
Proof.
  reflexivity.
Qed.

Lemma atoms_title_tokens :
  split (("ITEM: ATOMS id type x y z " ++ join " " ("ids" :: names D)) ++ nl)
  = ["ITEM:"; "ATOMS"; "id"; "type"; "x"; "y"; "z"; "ids"]%string ++ names D.
Proof.
  assert (E : ("ITEM: ATOMS id type x y z " ++ join " " ("ids" :: names D))%string
              = join " " (["ITEM:"; "ATOMS"; "id"; "type"; "x"; "y"; "z"; "ids"]%string
                          ++ names D)).
  { cbn [app]. rewrite !join_spaced. reflexivity. }
  rewrite E. apply split_join. apply Forall_app. split.
  - repeat constructor.
  - exact (names_tokens D Hreg).
Qed.

Lemma ids_names_nodup : NoDup ("ids"%string :: names D).
Proof.
  destruct Hreg as (_ & Hnd & _). constructor; [|exact Hnd].
  apply (reserved_not_name D Hreg). cbn. tauto.
Qed.

Lemma atoms_title_step :
  read_line false None
    (mkState (Some []) (Some "box")
       (Raw.header (reread D))
       None false false (VInt idx))
    (("ITEM: ATOMS id type x y z " ++ join " " ("ids" :: names D)) ++ nl)
  = Ret (Continue (Raw.reading (reread D) [])).
Proof.
  unfold read_line. cbn [itemstack]. unfold read_header.
  rewrite atoms_title_tokens.
  rewrite append_assoc.
  assert (Ht : all_chars not_colon (join " " ("ids" :: names D) ++ nl) = true).
  { rewrite all_chars_app. apply andb_true_intro. split; [|reflexivity].
    apply all_chars_join; [reflexivity|]. constructor; [reflexivity|].
    exact (names_no_colon D Hreg). }
  rewrite !(atoms_title_other _ _ Ht) by (cbn; tauto).
  rewrite atoms_title_self.
  cbn [laststep timeskip negb result xkeys index app List.length skipn].
  match goal with
  | |- context [(7 <? ?n)%nat] => change (7 <? n)%nat with true
  end.
  cbv iota.
  rewrite atom_keys_new.
  - unfold Raw.reading, Raw.raw, Raw.xkeys, Raw.ids_col, Raw.base.
    cbn [map]. rewrite cols_empty. reflexivity.
  - exact ids_names_nodup.
  - intros n _. reflexivity.
Qed.


End OneRecord.

End HeaderFacts.

(** ** The atom lines of a written record *)

Module AtomsRun.
Import Str Num Shape Field Record DigitFacts TextFacts NumFacts FormatFacts
  Timestep DumpFacts WriteFacts ParseFacts HeaderFacts.

Lemma append_type (t n p b : pyval) (ty ids xyz : list pyval) (X : pydict)
    (v : pyval) :
  Dict.append ([("time", t); ("natoms", n); ("periodic", p); ("box", b);
                ("type", VList ty); ("id", VList ids); ("xyz", VList xyz)] ++ X)
    "type" v
  = Ret ([("time", t); ("natoms", n); ("periodic", p); ("box", b);
          ("type", VList (ty ++ [v])); ("id", VList ids); ("xyz", VList xyz)] ++ X).
Proof.
  reflexivity.
Qed.

Lemma append_id (t n p b : pyval) (ty ids xyz : list pyval) (X : pydict)
    (v : pyval) :
  Dict.append ([("time", t); ("natoms", n); ("periodic", p); ("box", b);
                ("type", VList ty); ("id", VList ids); ("xyz", VList xyz)] ++ X)
    "id" v
  = Ret ([("time", t); ("natoms", n); ("periodic", p); ("box", b);
          ("type", VList ty); ("id", VList (ids ++ [v])); ("xyz", VList xyz)] ++ X).
Proof.
  reflexivity.
Qed.

Lemma append_xyz (t n p b : pyval) (ty ids xyz : list pyval) (X : pydict)
    (v : pyval) :
  Dict.append ([("time", t); ("natoms", n); ("periodic", p); ("box", b);
                ("type", VList ty); ("id", VList ids); ("xyz", VList xyz)] ++ X)
    "xyz" v
  = Ret ([("time", t); ("natoms", n); ("periodic", p); ("box", b);
          ("type", VList ty); ("id", VList ids); ("xyz", VList (xyz ++ [v]))] ++ X).
Proof.
  reflexivity.
Qed.

(** Lines 325-326 on columns that follow each other in [result]: each
    column gets the value of its token. *)
Lemma read_extras_cols (kc : list (string * list pyval)) :
  forall toks vals,
    Forall2 evaluates toks vals ->
    List.length kc = List.length vals ->
    forall (front : pydict) (xk1 : list string),
      NoDup (map fst kc) ->
      Forall (fun c => Dict.get front (fst c) = None) kc ->
      read_extras (xk1 ++ map fst kc) (List.length xk1) toks
        (front ++ map Raw.vl kc)
      = Ret (front ++ map Raw.vl (map Raw.grow (combine kc vals))).
Proof.
  induction kc as [|[k col] kc IH]; intros toks vals Hev Hlen front xk1 Hnd Hf.
  - destruct vals; [|discriminate]. inversion Hev; subst. reflexivity.
  - destruct Hev as [|t v toks vals Ht Hev]; [discriminate|].
    cbn [List.length] in Hlen. injection Hlen as Hlen.
    cbn [map fst] in Hnd. inversion Hnd as [|? ? Hnot Hnd']; subst.
    inversion Hf as [|? ? Hk Hf']; subst. cbn [fst] in Hk.
    cbn [map fst read_extras]. rewrite nth_error_middle.
    change (Raw.vl (k, col)) with (k, VList col).
    assert (G : Dict.get (front ++ (k, VList col) :: map Raw.vl kc) k
                = Some (VList col)).
    { rewrite get_app, Hk. cbn [Dict.get]. rewrite String.eqb_refl.
      reflexivity. }
    rewrite (AtomFacts.append_list _ _ VNone _ G). cbn [bind].
    unfold evaluates in Ht. rewrite Ht. cbn [bind].
    rewrite (AtomFacts.append_list _ _ v _ G). cbn [bind].
    rewrite (set_present front (map Raw.vl kc) k _ _ Hk).
    specialize (IH toks vals Hev Hlen (front ++ [(k, VList (col ++ [v]))])
                  (xk1 ++ [k]) Hnd').
    rewrite <- !app_assoc, length_app in IH. cbn [app List.length] in IH.
    replace (List.length xk1 + 1)%nat with (S (List.length xk1)) in IH by lia.
    rewrite IH.
    + cbn [combine map Raw.grow Raw.vl fst snd]. reflexivity.
    + rewrite Forall_forall. intros c Hc. rewrite get_app.
      rewrite Forall_forall in Hf'. rewrite (Hf' c Hc). cbn [Dict.get].
      destruct (String.eqb_spec k (fst c)) as [->|_]; [|reflexivity].
      exfalso. apply Hnot. apply in_map. exact Hc.
Qed.

Lemma cols_keys (kinds : list (string * dtype)) (done : list atom) :
  forall j,
    map fst (Raw.cols j kinds done)
    = map (fun n => ("atom:" ++ n)%string) (map fst kinds).
Proof.
  induction kinds as [|[n k] kinds IH]; intros j; [reflexivity|].
  cbn [Raw.cols map fst]. rewrite IH. reflexivity.
Qed.

Lemma cols_length (kinds : list (string * dtype)) (done : list atom) :
  forall j, List.length (Raw.cols j kinds done) = List.length kinds.
Proof.
  induction kinds as [|[n k] kinds IH]; intros j; [reflexivity|].
  cbn [Raw.cols List.length]. rewrite IH. reflexivity.
Qed.

(** The columns after the values of one more atom. *)
Lemma cols_grow (a : atom) (done : list atom) (kinds : list (string * dtype)) :
  forall c2 c1,
    a_cells a = c1 ++ c2 -> List.length kinds = List.length c2 ->
    map Raw.grow (combine (Raw.cols (List.length c1) kinds done)
                    (map cell_val c2))
    = Raw.cols (List.length c1) kinds (done ++ [a]).
Proof.
  induction kinds as [|[n k] kinds IH]; intros c2 c1 Hc Hlen; [reflexivity|].
  destruct c2 as [|c c2]; [discriminate|].
  cbn [List.length] in Hlen. injection Hlen as Hlen.
  cbn [Raw.cols map combine]. unfold Raw.grow at 1. cbn [fst snd].
  rewrite map_app. cbn [map].
  change (Raw.cell_at (List.length c1) a)
    with (cell_val (nth (List.length c1) (a_cells a) (Record.CInt 0))).
  rewrite Hc, nth_middle.
  specialize (IH c2 (c1 ++ [c])). rewrite length_app in IH.
  cbn [List.length] in IH.
  replace (List.length c1 + 1)%nat with (S (List.length c1)) in IH by lia.
  rewrite IH; [reflexivity | rewrite <- app_assoc; exact Hc | exact Hlen].
Qed.

Lemma cells_evaluate (kinds : list (string * dtype)) (cells : list cell) :
  Forall2 cell_ok kinds cells ->
  Forall2 evaluates (map cell_text cells) (map cell_val (map reread_cell cells)).
Proof.
  induction 1 as [|k c kinds cells Hk _ IH]; cbn [map]; constructor;
    [|exact IH].
  unfold cell_ok in Hk. unfold evaluates.
  destruct (snd k), c; try contradiction; cbn.
  - apply py_eval_str_int.
  - apply reread_sci_spec. exact Hk.
Qed.

Lemma nodup_map_inj {A B : Type} (f : A -> B) (l : list A) :
  (forall x y, f x = f y -> x = y) -> NoDup l -> NoDup (map f l).
Proof.
  intros Hf. induction 1 as [|x l Hx _ IH]; cbn [map]; constructor;
    [|exact IH].
  intros Hin. apply in_map_iff in Hin. destruct Hin as (y & E & Hy).
  apply Hf in E. subst y. exact (Hx Hy).
Qed.

Lemma xkeys_nodup (D : data) :
  NoDup ("ids"%string :: names D) -> NoDup (Raw.xkeys D).
Proof.
  intros H. unfold Raw.xkeys.
  apply nodup_map_inj; [|exact H].
  intros x y. apply atom_key_inj.
Qed.

(** Lines 317-327 on the line that [dump] writes for [a]. *)
Lemma atom_step (D : data) (done : list atom) (a : atom) :
  NoDup ("ids"%string :: names D) ->
  Forall2 cell_ok (d_kinds D) (a_cells a) ->
  read_line false None (Raw.reading D done) (join " " (atom_tokens a) ++ nl)
  = Ret (Continue (Raw.reading D (done ++ [reread_atom a]))).
Proof.
  intros Hnd Hc. unfold read_line, Raw.reading.
  cbn [itemstack current]. rewrite (no_I_in_atom_line (d_kinds D) a Hc).
  unfold read_atom. cbn [result xkeys itemstack current timeskip laststep index].
  rewrite (split_atom_line (d_kinds D) a Hc).
  unfold atom_tokens. cbn [app firstn skipn mapM List.length].
  rewrite !py_int_str_int, !(reread_fixed_spec 4). cbn [bind unpack2 unpack3].
  unfold Raw.raw, Raw.base.
  rewrite append_type. cbn [bind]. rewrite append_id. cbn [bind].
  rewrite append_xyz. cbn [bind].
  match goal with
  | |- context [(5 <? ?n)%nat] => change (5 <? n)%nat with true
  end.
  cbv iota.
  match goal with
  | |- context [read_extras _ 0 _ (?f ++ _)] => set (front := f)
  end.
  assert (Hev : Forall2 evaluates
                  (str_int (a_id a) :: map cell_text (a_cells a))
                  (VInt (a_id a) :: map cell_val (map reread_cell (a_cells a)))).
  { constructor; [apply py_eval_str_int|].
    exact (cells_evaluate (d_kinds D) (a_cells a) Hc). }
  assert (Hlen : List.length (Raw.ids_col done :: Raw.cols 0 (d_kinds D) done)
                 = List.length (VInt (a_id a)
                                :: map cell_val (map reread_cell (a_cells a)))).
  { cbn [List.length]. rewrite cols_length, !length_map.
    rewrite (Forall2_length Hc). reflexivity. }
  assert (Hkeys : map fst (Raw.ids_col done :: Raw.cols 0 (d_kinds D) done)
                  = Raw.xkeys D).
  { cbn [map]. rewrite cols_keys. reflexivity. }
  assert (Hf : Forall (fun c => Dict.get front (fst c) = None)
                 (Raw.ids_col done :: Raw.cols 0 (d_kinds D) done)).
  { rewrite Forall_forall. intros c Hin.
    apply (in_map fst) in Hin. rewrite Hkeys in Hin.
    unfold Raw.xkeys in Hin. apply in_map_iff in Hin.
    destruct Hin as (n & <- & _). reflexivity. }
  pose proof (read_extras_cols _ _ _ Hev Hlen front []) as E.
  rewrite Hkeys in E. specialize (E (xkeys_nodup D Hnd) Hf).
  cbn [app List.length] in E.
  change (("atom:" ++ "ids")%string
          :: map (fun n => ("atom:" ++ n)%string) (names D))
    with (Raw.xkeys D).
  change (Raw.vl (Raw.ids_col done) :: map Raw.vl (Raw.cols 0 (d_kinds D) done))
    with (map Raw.vl (Raw.ids_col done :: Raw.cols 0 (d_kinds D) done)).
  rewrite E. cbn [bind]. unfold front.
  cbn [combine map Raw.grow fst snd Raw.ids_col].
  pose proof (cols_grow (reread_atom a) done (d_kinds D)
                (map reread_cell (a_cells a)) [] eq_refl) as G.
  cbn [List.length] in G. rewrite length_map in G.
  rewrite (G (Forall2_length Hc)).
  unfold Raw.reading, Raw.raw, Raw.base, Raw.ids_col.
  cbn [map]. unfold Raw.grow, Raw.vl at 1 3. cbn [fst snd].
  rewrite !map_app. reflexivity.
Qed.


End AtomsRun.

(** ** The instance built from what was read *)

Module BuildFacts.
Import Str Num Shape Field Record DigitFacts TextFacts NumFacts FormatFacts
  Timestep DumpFacts WriteFacts ParseFacts HeaderFacts AtomsRun.





















Section OneRecord.

Variables (filepath : string) (idx : Z) (p q r : bool).
Variables (a1 a2 b1 b2 c1 c2 : float).
Variables (kinds : list (string * dtype)) (atoms : list atom).

Let D : data :=
  mkData idx (p, q, r) ((a1, a2), (b1, b2), (c1, c2)) kinds atoms.

Hypothesis Hreg : regular D.






Variable index : option Z.
Hypothesis Hindex : index = None \/ index = Some idx.



End OneRecord.

End BuildFacts.

(** ** The round trip *)

Module RoundTrip.
Import Str Num Shape Field Record DigitFacts TextFacts NumFacts FormatFacts
  Timestep DumpFacts WriteFacts ParseFacts HeaderFacts AtomsRun BuildFacts.







End RoundTrip.





(** * Further properties *)

(** ** Records that are passed over *)

Module SkipFacts.
Import Timestep Shape ReadFacts.

(** With [timeskip] set, lines are dropped up to the next TIMESTEP
    title. *)
Lemma read_loop_skipping (sh : bool) (sf : option (list Z)) (st : state)
    (body rest : list string) :
  itemstack st = Some [] -> timeskip st = true ->
  forallb skipped body = true ->
  read_loop sh sf st (body ++ rest) = read_loop sh sf st rest.
Proof.
  intros Hs Ht. induction body as [|l body IH]; intros Hb; [reflexivity|].
  cbn [forallb] in Hb. apply andb_prop in Hb. destruct Hb as [Hl Hb].
  unfold skipped in Hl. apply andb_prop in Hl. destruct Hl as [Hne Hnt].
  apply negb_true_iff in Hne, Hnt.
  cbn [app read_loop]. rewrite Hne. unfold read_line. rewrite Hs.
  unfold read_header. rewrite Hnt, Ht. cbn [negb bind]. exact (IH Hb).
Qed.

Lemma title_line_not_empty (title : string) :
  Str.contains "ITEM: TIMESTEP" title = true -> (title =? "")%string = false.
Proof.
  intros H. apply eqb_nonempty. eapply contains_nonempty; [|exact H].
  discriminate.
Qed.

Lemma int_line_not_empty (vline : string) (v : Z) :
  int_line vline v -> (vline =? "")%string = false.
Proof.
  intros (tok & more & Hs & _). apply eqb_nonempty.
  eapply split_nonempty; exact Hs.
Qed.

(** A TIMESTEP title, read where a title is looked for and [laststep] is
    not set. *)
Lemma read_title (sh : bool) (sf : option (list Z)) (st : state)
    (title : string) :
  itemstack st = Some [] -> laststep st = false ->
  Str.contains "ITEM: TIMESTEP" title = true ->
  read_line sh sf st title
  = Ret (Continue (mkState (Some [[CInt]]) (Some "time") (result st)
                     (xkeys st) false false (index st))).
Proof.
  intros Hs Hl Ht. unfold read_line. rewrite Hs. unfold read_header.
  rewrite Ht, Hl, Hs. reflexivity.
Qed.

(** The value of a TIMESTEP, read when [result] has no ["time"] yet. *)
Lemma read_first_value (sh : bool) (sf : option (list Z)) (ix : pyval)
    (vline : string) (v : Z) (st' : state) :
  int_line vline v ->
  time_check sh sf
    (mkState (Some []) (Some "time") [] None false false ix) (VInt v)
  = Ret (Continue st') ->
  read_line sh sf
    (mkState (Some [[CInt]]) (Some "time") [] None false false ix) vline
  = Ret (Continue (mkState (itemstack st') (current st') [("time", VInt v)]
                     (xkeys st') (timeskip st') (laststep st') (index st'))).
Proof.
  intros Hv Hc. unfold read_line, read_value. cbn [itemstack current result
    xkeys timeskip laststep index].
  rewrite (values_of_int_line vline v Hv). cbn [bind]. rewrite Hc.
  cbn [bind]. pose proof (BoxFacts.time_check_frame _ _ _ _ _ Hc) as (Hr & Hcur & _).
  cbn [result current] in Hr, Hcur. rewrite Hcur, Hr. reflexivity.
Qed.

(** Lines 303-308 on the value of a second TIMESTEP: [result["time"]] is
    the [int] of the first, and [append] is called on it. *)
Lemma read_second_value (sh : bool) (sf : option (list Z)) (st st' : state)
    (vline : string) (v n : Z) :
  itemstack st = Some [[CInt]] -> current st = Some "time" ->
  Dict.get (result st) "time" = Some (VInt n) ->
  int_line vline v ->
  time_check sh sf
    (mkState (Some []) (current st) (result st) (xkeys st) (timeskip st)
       (laststep st) (index st)) (VInt v)
  = Ret (Continue st') ->
  read_line sh sf st vline = Raise AttributeError.
Proof.
  intros Hs Hcur Ht Hv Hc. unfold read_line. rewrite Hs. unfold read_value.
  rewrite (values_of_int_line vline v Hv). cbn [bind]. rewrite Hcur.
  rewrite Hcur in Hc. rewrite Hc. cbn [bind].
  pose proof (BoxFacts.time_check_frame _ _ _ _ _ Hc) as (Hr & Hc' & _).
  cbn [result current] in Hr, Hc'. rewrite Hc', Hr.
  unfold store, Dict.mem, Dict.append, Dict.item. rewrite Ht. reflexivity.
Qed.

Lemma time_check_stack (sh : bool) (sf : option (list Z)) (st : state)
    (values : pyval) (c : control) :
  time_check sh sf st values = Ret c ->
  forall st', c = Continue st' -> itemstack st' = itemstack st.
Proof.
  unfold time_check. intros H.
  repeat bind_step H; injection H as <-; intros st' Hcont;
    first [discriminate Hcont | injection Hcont as <-; reflexivity].
Qed.

(** A first record that is passed over, then the value of a second
    TIMESTEP: the call raises. *)
Lemma second_record_raises (sh : bool) (sf : option (list Z)) (ix : pyval)
    (pre body rest : list string) (title1 vline1 title2 vline2 : string)
    (v1 v2 : Z) (st1 st2 : state) :
  forallb plain pre = true ->
  Str.contains "ITEM: TIMESTEP" title1 = true -> int_line vline1 v1 ->
  forallb skipped body = true ->
  Str.contains "ITEM: TIMESTEP" title2 = true -> int_line vline2 v2 ->
  time_check sh sf
    (mkState (Some []) (Some "time") [] None false false ix) (VInt v1)
  = Ret (Continue st1) ->
  timeskip st1 = true -> laststep st1 = false ->
  time_check sh sf
    (mkState (Some []) (Some "time") [("time", VInt v1)] (xkeys st1) false
       false (index st1)) (VInt v2)
  = Ret (Continue st2) ->
  read_loop sh sf (init_state ix)
    (pre ++ title1 :: vline1 :: body ++ title2 :: vline2 :: rest)
  = Raise AttributeError.
Proof.
  intros Hpre Ht1 Hv1 Hbody Ht2 Hv2 Hc1 Hskip Hlast Hc2.
  rewrite read_loop_plain by (reflexivity || exact Hpre).
  cbn [read_loop]. rewrite (title_line_not_empty title1 Ht1).
  rewrite (read_line_title sh sf ix title1 Ht1). cbn [bind].
  rewrite (int_line_not_empty vline1 v1 Hv1).
  rewrite (read_first_value sh sf ix vline1 v1 st1 Hv1 Hc1). cbn [bind].
  pose proof (BoxFacts.time_check_frame _ _ _ _ _ Hc1) as (_ & _ & Hx).
  assert (Hi : itemstack st1 = Some []).
  { exact (time_check_stack _ _ _ _ _ Hc1 st1 eq_refl). }
  rewrite read_loop_skipping by (assumption || reflexivity).
  cbn [read_loop]. rewrite (title_line_not_empty title2 Ht2).
  rewrite read_title by assumption. cbn [bind result xkeys index].
  rewrite (int_line_not_empty vline2 v2 Hv2).
  rewrite (read_second_value sh sf _ st2 vline2 v2 v1); try reflexivity;
    assumption.
Qed.

End SkipFacts.

(** [Timestep(filepath, index)] reads no record but the first of what it
    reads. When the first TIMESTEP value is smaller than [index], the
    record is passed over, and the value of the next TIMESTEP cannot be
    stored: [result["time"]] is the [int] of the first value and has no
    [append]. On a file of its own the call raises [AttributeError] when
    the second value is not beyond [index]; on a shared open file it
    raises whatever the second value is. *)
Theorem seek_second_record_raises (file : list string) (filepath : string)
    (openf : option cursor) (target v1 v2 : Z)
    (pre body rest : list string) (title1 vline1 title2 vline2 : string) :
  match openf with Some f => f | None => file end
    = pre ++ title1 :: vline1 :: body ++ title2 :: vline2 :: rest ->
  forallb Shape.plain pre = true ->
  Str.contains "ITEM: TIMESTEP" title1 = true -> Shape.int_line vline1 v1 ->
  forallb Shape.skipped body = true ->
  Str.contains "ITEM: TIMESTEP" title2 = true -> Shape.int_line vline2 v2 ->
  v1 < target -> (openf = None -> v2 <= target) ->
  Timestep.__init__ file filepath (Some target) openf None
  = Raise AttributeError.
Proof.
  intros Hf Hpre Ht1 Hv1 Hbody Ht2 Hv2 Hlt Hle.
  assert (H1 : forall sh,
             Timestep.time_check sh None
               (Timestep.mkState (Some []) (Some "time") [] None false false
                  (VInt target)) (VInt v1)
             = Ret (Timestep.Continue
                      (Timestep.mkState (Some []) (Some "time") [] None true
                         false (VInt target)))).
  { intros sh. unfold Timestep.time_check.
    cbn [Timestep.is_none Timestep.index Py.eq Py.gt bind].
    replace (v1 =? target) with false by lia.
    replace (target <? v1) with false by lia. reflexivity. }
  assert (H2 : forall sh, (sh = false -> v2 <= target) ->
             exists st2,
               Timestep.time_check sh None
                 (Timestep.mkState (Some []) (Some "time") [("time", VInt v1)]
                    None false false (VInt target)) (VInt v2)
               = Ret (Timestep.Continue st2)).
  { intros sh Hsh. unfold Timestep.time_check.
    cbn [Timestep.is_none Timestep.index Py.eq Py.gt bind].
    destruct (v2 =? target) eqn:E; [eexists; reflexivity|].
    destruct (target <? v2) eqn:G; [|eexists; reflexivity].
    destruct sh; [eexists; reflexivity|].
    specialize (Hsh eq_refl). lia. }
  unfold Timestep.__init__, Timestep._read.
  destruct openf as [f|]; cbn [bind] in *; subst.
  - destruct (H2 true) as (st2 & Hc2); [discriminate|].
    rewrite (SkipFacts.second_record_raises true None (VInt target) pre body
               rest title1 vline1 title2 vline2 v1 v2 _ st2 Hpre Ht1 Hv1 Hbody
               Ht2 Hv2 (H1 true) eq_refl eq_refl Hc2).
    reflexivity.
  - destruct (H2 false) as (st2 & Hc2); [intros _; exact (Hle eq_refl)|].
    rewrite (SkipFacts.second_record_raises false None (VInt target) pre body
               rest title1 vline1 title2 vline2 v1 v2 _ st2 Hpre Ht1 Hv1 Hbody
               Ht2 Hv2 (H1 false) eq_refl eq_refl Hc2).
    reflexivity.
Qed.

Lemma seek_second_record_witness :
  Timestep.__init__ Sample.two_steps "two.dump" (Some 8) None None
  = Raise AttributeError.
Proof.
  apply (seek_second_record_raises Sample.two_steps "two.dump" None 8 7 8 []
           (firstn 8 (skipn 2 Sample.two_steps)) (skipn 12 Sample.two_steps)
           (Sample.line "ITEM: TIMESTEP") (Sample.line "7")
           (Sample.line "ITEM: TIMESTEP") (Sample.line "8")).
  - reflexivity.
  - reflexivity.
  - reflexivity.
  - exists "7"%string, []. split; reflexivity.
  - vm_compute. reflexivity.
  - reflexivity.
  - exists "8"%string, []. split; reflexivity.
  - lia.
  - intros _. lia.
Defined.

(** A step filter that leaves out the first record of a file with a second
    record makes [Dump(filepath, stepfilter)] raise [AttributeError],
    whether the second TIMESTEP value is in the filter or not: the first
    record is passed over in the call that reads it, and the value of the
    second TIMESTEP cannot be stored. *)
Theorem filter_second_record_raises (filepath : string) (sf : list Z)
    (v1 v2 : Z) (pre body rest : list string)
    (title1 vline1 title2 vline2 : string) :
  forallb Shape.plain pre = true ->
  Str.contains "ITEM: TIMESTEP" title1 = true -> Shape.int_line vline1 v1 ->
  forallb Shape.skipped body = true ->
  Str.contains "ITEM: TIMESTEP" title2 = true -> Shape.int_line vline2 v2 ->
  existsb (Z.eqb v1) sf = false ->
  Dump.__init__ (pre ++ title1 :: vline1 :: body ++ title2 :: vline2 :: rest)
    filepath (Some sf)
  = Raise AttributeError.
Proof.
  intros Hpre Ht1 Hv1 Hbody Ht2 Hv2 Hout.
  assert (H1 : Timestep.time_check true (Some sf)
                 (Timestep.mkState (Some []) (Some "time") [] None false false
                    VNone) (VInt v1)
               = Ret (Timestep.Continue
                        (Timestep.mkState (Some []) (Some "time") [] None true
                           false VNone))).
  { unfold Timestep.time_check, Timestep.not_in_filter. rewrite Hout.
    reflexivity. }
  assert (H2 : exists st2,
             Timestep.time_check true (Some sf)
               (Timestep.mkState (Some []) (Some "time") [("time", VInt v1)]
                  None false false VNone) (VInt v2)
             = Ret (Timestep.Continue st2)).
  { unfold Timestep.time_check, Timestep.not_in_filter.
    destruct (existsb (Z.eqb v2) sf); eexists; reflexivity. }
  destruct H2 as (st2 & Hc2).
  unfold Dump.__init__. cbn [Dump.read_steps].
  unfold Timestep.__init__, Timestep._read.
  rewrite (SkipFacts.second_record_raises true (Some sf) VNone pre body
             rest title1 vline1 title2 vline2 v1 v2 _ st2 Hpre Ht1 Hv1 Hbody
             Ht2 Hv2 H1 eq_refl eq_refl Hc2).
  reflexivity.
Qed.

Lemma filter_second_record_witness :
  Dump.__init__ Sample.two_steps "two.dump" (Some [8]) = Raise AttributeError.
Proof.
  apply (filter_second_record_raises "two.dump" [8] 7 8 []
           (firstn 8 (skipn 2 Sample.two_steps)) (skipn 12 Sample.two_steps)
           (Sample.line "ITEM: TIMESTEP") (Sample.line "7")
           (Sample.line "ITEM: TIMESTEP") (Sample.line "8")).
  - reflexivity.
  - reflexivity.
  - exists "7"%string, []. split; reflexivity.
  - vm_compute. reflexivity.
  - reflexivity.
  - exists "8"%string, []. split; reflexivity.
  - reflexivity.
Defined.

(** ** Files in which nothing is read *)

Module EmptyFacts.
Import Timestep Shape ReadFacts.

(** The only record of what is read is passed over. *)
Lemma only_record_skipped (sh : bool) (sf : option (list Z)) (ix : pyval)
    (pre body : list string) (title vline : string) (v : Z) (st1 : state) :
  forallb plain pre = true ->
  Str.contains "ITEM: TIMESTEP" title = true -> int_line vline v ->
  forallb skipped body = true ->
  time_check sh sf
    (mkState (Some []) (Some "time") [] None false false ix) (VInt v)
  = Ret (Continue st1) ->
  timeskip st1 = true ->
  read_loop sh sf (init_state ix) (pre ++ title :: vline :: body)
  = Ret ([("time", VInt v)], index st1, []).
Proof.
  intros Hpre Ht Hv Hbody Hc Hskip.
  rewrite read_loop_plain by (reflexivity || exact Hpre).
  cbn [read_loop]. rewrite (SkipFacts.title_line_not_empty title Ht).
  rewrite (read_line_title sh sf ix title Ht). cbn [bind].
  rewrite (SkipFacts.int_line_not_empty vline v Hv).
  rewrite (SkipFacts.read_first_value sh sf ix vline v st1 Hv Hc). cbn [bind].
  rewrite <- (app_nil_r body).
  rewrite SkipFacts.read_loop_skipping; try assumption; [reflexivity|].
  exact (SkipFacts.time_check_stack _ _ _ _ _ Hc st1 eq_refl).
Qed.

(** The constructor on a [raw] with fewer than six keys. *)
Lemma init_of_short_read (file : list string) (filepath : string)
    (index : option Z) (openf : option cursor) (sf : option (list Z))
    (raw : pydict) (i : pyval) (c : option cursor) :
  _read file (match index with Some k => VInt k | None => VNone end) openf sf
  = Ret (raw, i, c) ->
  (List.length raw < 6)%nat ->
  __init__ file filepath index openf sf = Ret (empty filepath i, c, []).
Proof.
  intros Hr Hl. unfold __init__. rewrite Hr. cbn [bind].
  apply Nat.ltb_lt in Hl. rewrite Hl. reflexivity.
Qed.

(** [Dump] stops at the first time step that comes back empty. *)
Lemma dump_of_empty_first (file : list string) (filepath : string)
    (sf : option (list Z)) (i : pyval) (c : option cursor) :
  Timestep.__init__ file filepath None (Some file) sf
  = Ret (empty filepath i, c, []) ->
  Dump.__init__ file filepath sf = Ret (mkDump filepath [], []).
Proof.
  intros H. unfold Dump.__init__. cbn [Dump.read_steps].
  change (@Some (list string) file) with (@Some cursor file) in H. rewrite H.
  reflexivity.
Qed.

End EmptyFacts.

(** A file in which no line has a section title gives the empty time step,
    whatever the index and the step filter are, and a [Dump] without
    steps; nothing is raised. *)
Theorem untitled_file_is_empty (file : list string) (filepath : string)
    (index : option Z) (sf : option (list Z)) :
  forallb Shape.plain file = true ->
  Timestep.__init__ file filepath index None sf
  = Ret (Timestep.empty filepath
           (match index with Some k => VInt k | None => VNone end), None, [])
  /\ Timestep.__len__
       (Timestep.empty filepath
          (match index with Some k => VInt k | None => VNone end)) = Ret O
  /\ Dump.__init__ file filepath sf = Ret (mkDump filepath [], [])
  /\ Dump.__len__ (mkDump filepath []) = O.
Proof.
  intros Hp.
  assert (H : forall sh ix,
             Timestep.read_loop sh sf (Timestep.init_state ix) file
             = Ret ([], ix, [])).
  { intros sh ix. rewrite <- (app_nil_r file).
    rewrite ReadFacts.read_loop_plain by (reflexivity || exact Hp).
    reflexivity. }
  split; [|split; [reflexivity|split; [|reflexivity]]].
  - apply (EmptyFacts.init_of_short_read file filepath index None sf []).
    + unfold Timestep._read. rewrite H. reflexivity.
    + cbn. lia.
  - apply (EmptyFacts.dump_of_empty_first file filepath sf VNone (Some [])).
    apply (EmptyFacts.init_of_short_read file filepath None (Some file) sf []).
    + unfold Timestep._read. rewrite H. reflexivity.
    + cbn. lia.
Qed.

Lemma untitled_file_witness :
  Timestep.__init__ [Sample.line "LAMMPS data file"; Sample.line ""] "x.dump"
    (Some 3) None None
  = Ret (Timestep.empty "x.dump" (VInt 3), None, [])
  /\ Timestep.__len__ (Timestep.empty "x.dump" (VInt 3)) = Ret O
  /\ Dump.__init__ [Sample.line "LAMMPS data file"; Sample.line ""] "x.dump"
       None
     = Ret (mkDump "x.dump" [], [])
  /\ Dump.__len__ (mkDump "x.dump" []) = O.
Proof.
  apply (untitled_file_is_empty
           [Sample.line "LAMMPS data file"; Sample.line ""] "x.dump" (Some 3)
           None).
  reflexivity.
Defined.

(** A step filter that leaves out the only record of a file gives a [Dump]
    without steps: the lines of the record are passed over. *)
Theorem filter_leaves_out_only_record (filepath : string) (sf : list Z)
    (v : Z) (pre body : list string) (title vline : string) :
  forallb Shape.plain pre = true ->
  Str.contains "ITEM: TIMESTEP" title = true -> Shape.int_line vline v ->
  forallb Shape.skipped body = true ->
  existsb (Z.eqb v) sf = false ->
  Dump.__init__ (pre ++ title :: vline :: body) filepath (Some sf)
  = Ret (mkDump filepath [], []).
Proof.
  intros Hpre Ht Hv Hbody Hout.
  apply (EmptyFacts.dump_of_empty_first _ filepath (Some sf) VNone (Some [])).
  apply (EmptyFacts.init_of_short_read _ filepath None _ (Some sf)
           [("time", VInt v)]); [|cbn; lia].
  unfold Timestep._read.
  rewrite (EmptyFacts.only_record_skipped true (Some sf) VNone pre body title
             vline v
             (Timestep.mkState (Some []) (Some "time") [] None true false
                VNone) Hpre Ht Hv Hbody).
  - reflexivity.
  - unfold Timestep.time_check, Timestep.not_in_filter. rewrite Hout.
    reflexivity.
  - reflexivity.
Qed.

Lemma filter_leaves_out_only_record_witness :
  Dump.__init__ Sample.step_0 "a.dump" (Some [1; 2])
  = Ret (mkDump "a.dump" [], []).
Proof.
  apply (filter_leaves_out_only_record "a.dump" [1; 2] 0 []
           (skipn 2 Sample.step_0) (Sample.line "ITEM: TIMESTEP")
           (Sample.line "0")).
  - reflexivity.
  - reflexivity.
  - exists "0"%string, []. split; reflexivity.
  - vm_compute. reflexivity.
  - reflexivity.
Defined.

(** [Timestep(filepath, index)] on a file whose only record has a TIMESTEP
    value smaller than [index] gives the empty time step with that index:
    the record is passed over to the end of what is read, on a file of the
    call's own and on a shared open file, which is left at its end. *)
Theorem seek_beyond_only_record (file : list string) (filepath : string)
    (openf : option cursor) (target v : Z) (pre body : list string)
    (title vline : string) :
  match openf with Some f => f | None => file end
    = pre ++ title :: vline :: body ->
  forallb Shape.plain pre = true ->
  Str.contains "ITEM: TIMESTEP" title = true -> Shape.int_line vline v ->
  forallb Shape.skipped body = true ->
  v < target ->
  Timestep.__init__ file filepath (Some target) openf None
  = Ret (Timestep.empty filepath (VInt target),
         match openf with Some _ => Some [] | None => None end, []).
Proof.
  intros Hf Hpre Ht Hv Hbody Hlt.
  assert (H : forall sh,
             Timestep.read_loop sh None (Timestep.init_state (VInt target))
               (pre ++ title :: vline :: body)
             = Ret ([("time", VInt v)], VInt target, [])).
  { intros sh.
    rewrite (EmptyFacts.only_record_skipped sh None (VInt target) pre body
               title vline v
               (Timestep.mkState (Some []) (Some "time") [] None true false
                  (VInt target)) Hpre Ht Hv Hbody).
    - reflexivity.
    - unfold Timestep.time_check.
      cbn [Timestep.is_none Timestep.index Py.eq Py.gt bind].
      replace (v =? target) with false by lia.
      replace (target <? v) with false by lia. reflexivity.
    - reflexivity. }
  apply (EmptyFacts.init_of_short_read file filepath (Some target) openf None
           [("time", VInt v)]); [|cbn; lia].
  unfold Timestep._read. destruct openf as [f|]; subst; rewrite H;
    reflexivity.
Qed.

Lemma seek_beyond_only_record_witness :
  Timestep.__init__ Sample.step_0 "a.dump" (Some 4) None None
  = Ret (Timestep.empty "a.dump" (VInt 4), None, []).
Proof.
  apply (seek_beyond_only_record Sample.step_0 "a.dump" None 4 0 []
           (skipn 2 Sample.step_0) (Sample.line "ITEM: TIMESTEP")
           (Sample.line "0")).
  - reflexivity.
  - reflexivity.
  - reflexivity.
  - exists "0"%string, []. split; reflexivity.
  - vm_compute. reflexivity.
  - lia.
Defined.

(** ** Writing *)

Module WriteModes.
Import Timestep.

(** [dump] in mode ["a"] writes after the old content what it writes in
    mode ["w"]. *)
Lemma dump_after (extent : pyval -> nat -> res pyval) (self : t)
    (old : string) (rebox : bool) :
  dump extent self old "a" rebox
  = (text <- dump extent self "" "w" rebox ;; Ret (old ++ text)%string).
Proof.
  unfold dump. destruct (Dict.mem self "dump"); [reflexivity|].
  change (("a" =? "a")%string) with true.
  change (("w" =? "a")%string) with false.
  change (("w" =? "w")%string) with true.
  cbv iota. cbn [bind].
  repeat match goal with
         | |- context [bind ?m _] =>
             destruct m; cbn [bind]; try reflexivity
         end.
Qed.

End WriteModes.

(** [Timestep.dump] with the mode ["a"] leaves the old content of the file
    and writes after it exactly what it writes to a new file with the
    mode ["w"]; when it raises with one mode, it raises the same with the
    other. *)
Theorem dump_appends_to_old_content (extent : pyval -> nat -> res pyval)
    (self : Timestep.t) (old : string) (rebox : bool) :
  Timestep.dump extent self old "a" rebox
  = (text <- Timestep.dump extent self "" "w" rebox ;;
     Ret (old ++ text)%string).
Proof.
  exact (WriteModes.dump_after extent self old rebox).
Qed.

(** The empty time step, which the constructor returns when it reads no
    record, cannot be written: [dump] raises [TypeError] where it goes
    through [self.periodic], which is [None], whatever the index, the
    mode and [rebox] are. *)
Theorem dump_of_empty_raises (extent : pyval -> nat -> res pyval)
    (filepath : string) (index : option Z) (old : string) (rebox : bool) :
  Timestep.dump extent
    (Timestep.empty filepath
       (match index with Some k => VInt k | None => VNone end))
    old "a" rebox = Raise TypeError
  /\ Timestep.dump extent
       (Timestep.empty filepath
          (match index with Some k => VInt k | None => VNone end))
       old "w" rebox = Raise TypeError.
Proof.
  destruct index; split; reflexivity.
Qed.


(** ** Comparing time steps *)

(** [==] between two time steps whose [xyz] have different numbers of
    rows, neither of them one, does not answer [False]: [np.allclose]
    cannot broadcast the two arrays and raises [ValueError]. *)
Theorem eq_of_different_lengths_raises (self other : Timestep.t)
    (rows1 rows2 : list (list float)) :
  Timestep.getattr self "xyz" = Ret (VArray (FloatMat 3 rows1)) ->
  Timestep.getattr other "xyz" = Ret (VArray (FloatMat 3 rows2)) ->
  List.length rows1 <> List.length rows2 ->
  List.length rows1 <> 1%nat -> List.length rows2 <> 1%nat ->
  Timestep.__eq__ self (ITimestep other) = Raise ValueError.
Proof.
  intros H1 H2 Hne Hn1 Hn2.
  unfold Timestep.__eq__, Timestep.and_then, Timestep.close_attr.
  rewrite H1, H2. cbn [bind]. unfold Np.allclose.
  cbn [Np.asarray bind Np.as_rows]. unfold Np.bcast_dim at 1.
  apply Nat.eqb_neq in Hne, Hn1, Hn2. rewrite Hne, Hn1, Hn2. reflexivity.
Qed.

Lemma eq_of_different_lengths_witness :
  Timestep.__eq__
    [("xyz", VArray (FloatMat 3 [[0; 0; 0]; [1; 1; 1]]%float))]
    (ITimestep
       [("xyz", VArray (FloatMat 3 [[0; 0; 0]; [1; 1; 1]; [2; 2; 2]]%float))])
  = Raise ValueError.
Proof.
  apply (eq_of_different_lengths_raises
           [("xyz", VArray (FloatMat 3 [[0; 0; 0]; [1; 1; 1]]%float))]
           [("xyz", VArray (FloatMat 3 [[0; 0; 0]; [1; 1; 1]; [2; 2; 2]]%float))]
           [[0; 0; 0]; [1; 1; 1]]%float
           [[0; 0; 0]; [1; 1; 1]; [2; 2; 2]]%float).
  - reflexivity.
  - reflexivity.
  - cbn. lia.
  - cbn. lia.
  - cbn. lia.
Defined.

(** ** Selecting the atoms of the boundary *)

(** [gbids] with a method other than ["median"] and ["cna"] returns [None]
    and calls no selection routine. *)
Theorem gbids_of_unknown_method
    (sel_median sel_cna_max : pyval -> pyval -> pyval -> pydict -> res pyval)
    (self : Timestep.t) (method pattr : string) (kwargs : pydict) :
  method <> "median"%string -> method <> "cna"%string ->
  Timestep.gbids sel_median sel_cna_max self method pattr kwargs
  = ([], Ret VNone).
Proof.
  intros H1 H2. unfold Timestep.gbids.
  apply String.eqb_neq in H1, H2. rewrite H1, H2. reflexivity.
Qed.

Lemma gbids_of_unknown_method_witness :
  Timestep.gbids (fun _ _ _ _ => Unmodelled) (fun _ _ _ _ => Unmodelled)
    (Sample.parsed Sample.step_0 "a.dump") "mean" "c_csd" []
  = ([], Ret VNone).
Proof.
  apply (gbids_of_unknown_method (fun _ _ _ _ => Unmodelled)
           (fun _ _ _ _ => Unmodelled) (Sample.parsed Sample.step_0 "a.dump")
           "mean" "c_csd" []); discriminate.
Defined.



(** ** The steps of a dump *)

Module KeyFacts.
Import Dump Keys.

Lemma key_eqb_eq (a b : pyval) : key_eqb a b = true -> a = b.
Proof.
  destruct a, b; cbn; try discriminate; [reflexivity|].
  intros H. apply Z.eqb_eq in H. subst. reflexivity.
Qed.

Lemma key_eqb_refl (a : pyval) : hashable a = Ret tt -> key_eqb a a = true.
Proof.
  destruct a; cbn; try discriminate; [reflexivity|].
  intros _. apply Z.eqb_refl.
Qed.

Lemma key_eqb_sym (a b : pyval) : key_eqb a b = key_eqb b a.
Proof.
  destruct a, b; cbn; try reflexivity. apply Z.eqb_sym.
Qed.

Lemma insert_own (d : list (pyval * object)) (k : pyval) (v : object) :
  Forall own_index d -> own_index (k, v) -> Forall own_index (insert d k v).
Proof.
  intros Hd Hk. induction Hd as [|[k' v'] d Hh Hd IH]; cbn [insert].
  - constructor; [exact Hk | constructor].
  - destruct (key_eqb k' k) eqn:E.
    + apply key_eqb_eq in E. subst k'. constructor; [exact Hk | assumption].
    + constructor; [exact Hh | exact IH].
Qed.

Lemma lookup_insert_other (d : list (pyval * object)) (k k' : pyval)
    (v : object) :
  key_eqb k k' = false -> lookup (insert d k v) k' = lookup d k'.
Proof.
  intros Hk. induction d as [|[k0 v0] d IH]; cbn [insert lookup].
  - rewrite Hk. reflexivity.
  - destruct (key_eqb k0 k) eqn:E; cbn [lookup].
    + apply key_eqb_eq in E. subst k0. rewrite Hk. reflexivity.
    + rewrite IH. reflexivity.
Qed.

Lemma insert_distinct (d : list (pyval * object)) (k : pyval) (v : object) :
  distinct d -> distinct (insert d k v).
Proof.
  induction d as [|[k0 v0] d IH]; cbn [insert distinct]; intros H.
  - split; [reflexivity | exact I].
  - destruct H as [H0 Hd]. destruct (key_eqb k0 k) eqn:E; cbn [distinct].
    + split; assumption.
    + split; [|exact (IH Hd)].
      rewrite lookup_insert_other; [exact H0|].
      rewrite key_eqb_sym. exact E.
Qed.

(** A step of a dictionary without repeated keys is found under its
    key. *)
Lemma lookup_in (d : list (pyval * object)) (k : pyval) (ts : object) :
  distinct d -> Forall own_index d -> In (k, ts) d -> lookup d k = Some ts.
Proof.
  induction d as [|[k0 v0] d IH]; intros Hd Ho Hin; [contradiction|].
  cbn [distinct] in Hd. destruct Hd as [H0 Hd].
  inversion Ho as [|? ? Hh Ho']; subst. cbn [lookup].
  destruct Hin as [E|Hin].
  - injection E as -> ->. destruct Hh as (_ & Hh & _). cbn [fst] in Hh.
    rewrite (key_eqb_refl k Hh). reflexivity.
  - destruct (key_eqb k0 k) eqn:E.
    + apply key_eqb_eq in E. subst k0.
      rewrite (IH Hd Ho' Hin) in H0. discriminate.
    + exact (IH Hd Ho' Hin).
Qed.

(** Lines 24-27 keep every step under its own index. *)
Lemma read_steps_keys (file : list string) (filepath : string)
    (sf : option (list Z)) (fuel : nat) :
  forall d f r ws,
    read_steps fuel file filepath sf d f = Ret (r, ws) ->
    Forall own_index d -> distinct d ->
    Forall own_index r /\ distinct r.
Proof.
  induction fuel as [|fuel IH]; intros d f r ws H Ho Hd; [discriminate|].
  cbn [read_steps] in H.
  destruct (Timestep.__init__ file filepath None (Some f) sf)
    as [[[ts f'] w]| |] eqn:Ei; cbn [bind] in H; try discriminate.
  destruct (Timestep.__len__ ts) as [n| |] eqn:El; cbn [bind] in H;
    try discriminate.
  destruct n as [|n]; cbn [Nat.ltb Nat.leb] in H.
  - injection H as <- <-. split; assumption.
  - destruct (Timestep.getattr ts "index") as [idx| |] eqn:Ex;
      cbn [bind] in H; try discriminate.
    unfold setitem in H.
    destruct (hashable idx) as [[]| |] eqn:Eh; cbn [bind] in H;
      try discriminate.
    destruct (read_steps fuel file filepath sf (insert d idx ts)
                (match f' with Some c => c | None => [] end))
      as [[r' ws']| |] eqn:Er; cbn [bind] in H; try discriminate.
    injection H as <- <-.
    apply (IH _ _ _ _ Er).
    + apply insert_own; [exact Ho|].
      split; [exact Ex|]. split; [exact Eh|]. exists n. exact El.
    + apply insert_distinct. exact Hd.
Qed.

End KeyFacts.

(** Every step of a [Dump] that the constructor returns is stored under
    the index of its time step: it is found under that key by [d[k]], the
    key is [in] the dump, and the time step has at least one atom. *)
Theorem dump_steps_under_own_index (file : list string) (filepath : string)
    (sf : option (list Z)) (d : Dump.t) (ws : list (list pyval))
    (k : pyval) (ts : object) :
  Dump.__init__ file filepath sf = Ret (d, ws) ->
  In (k, ts) (steps d) ->
  Dump.__getitem__ d k = Ret ts
  /\ Dump.__contains__ d k = Ret true
  /\ Timestep.getattr ts "index" = Ret k
  /\ exists n, Timestep.__len__ ts = Ret (S n).
Proof.
  intros Hi Hin. unfold Dump.__init__ in Hi.
  destruct (Dump.read_steps (S (List.length file)) file filepath sf [] file)
    as [[r ws']| |] eqn:Er; cbn [bind] in Hi; try discriminate.
  injection Hi as <- <-. cbn [steps] in Hin.
  destruct (KeyFacts.read_steps_keys _ _ _ _ _ _ _ _ Er (Forall_nil _) I)
    as [Ho Hd].
  pose proof (KeyFacts.lookup_in r k ts Hd Ho Hin) as Hl.
  rewrite Forall_forall in Ho. destruct (Ho _ Hin) as (Hx & Hh & Hn).
  cbn [fst snd] in Hx, Hh, Hn.
  unfold Dump.__getitem__, Dump.__contains__. cbn [steps].
  rewrite Hh, Hl. cbn [bind]. repeat split; assumption.
Qed.

Lemma dump_steps_under_own_index_witness :
  Dump.__getitem__
    (mkDump "two.dump"
       [(VInt 7, Sample.parsed Sample.two_steps "two.dump");
        (VInt 8, Sample.parsed (skipn 10 Sample.two_steps) "two.dump")])
    (VInt 8)
  = Ret (Sample.parsed (skipn 10 Sample.two_steps) "two.dump")
  /\ Dump.__contains__
       (mkDump "two.dump"
          [(VInt 7, Sample.parsed Sample.two_steps "two.dump");
           (VInt 8, Sample.parsed (skipn 10 Sample.two_steps) "two.dump")])
       (VInt 8)
     = Ret true
  /\ Timestep.getattr (Sample.parsed (skipn 10 Sample.two_steps) "two.dump")
       "index" = Ret (VInt 8)
  /\ exists n,
      Timestep.__len__ (Sample.parsed (skipn 10 Sample.two_steps) "two.dump")
      = Ret (S n).
Proof.
  apply (dump_steps_under_own_index Sample.two_steps "two.dump" None
           (mkDump "two.dump"
              [(VInt 7, Sample.parsed Sample.two_steps "two.dump");
               (VInt 8, Sample.parsed (skipn 10 Sample.two_steps) "two.dump")])
           []).
  - vm_compute. reflexivity.
  - right. left. reflexivity.
Defined.

(** ** Reading the records of a dump one after the other *)

Module SharedRun.
Import Str Num Shape Field Record DigitFacts TextFacts NumFacts FormatFacts
  Timestep DumpFacts WriteFacts ParseFacts HeaderFacts AtomsRun BuildFacts.

(** A TIMESTEP value that goes on on a file of the call's own goes on the
    same way on a shared one. *)
Lemma time_check_any_shared (sh : bool) (sf : option (list Z)) (st s : state)
    (v : pyval) :
  time_check false sf st v = Ret (Continue s) ->
  time_check sh sf st v = Ret (Continue s).
Proof.
  destruct sh; [|intros H; exact H]. unfold time_check.
  destruct (match sf with Some l => not_in_filter v l | None => false end);
    [intros H; exact H|].
  destruct (is_none (index st)); [intros H; exact H|].
  destruct (Py.eq v (index st)) as [e| |]; cbn [bind];
    try (intros H; exact H).
  destruct e; [intros H; exact H|].
  destruct (Py.gt v (index st)) as [g| |]; cbn [bind];
    try (intros H; exact H).
  destruct g; [discriminate | intros H; exact H].
Qed.

(** A line after which the loop goes on does the same on a shared
    file. *)
Lemma read_line_any_shared (sh : bool) (sf : option (list Z)) (st s : state)
    (line : string) :
  read_line false sf st line = Ret (Continue s) ->
  read_line sh sf st line = Ret (Continue s).
Proof.
  unfold read_line. destruct (itemstack st) as [[|cast rest]|].
  - intros H; exact H.
  - unfold read_value.
    destruct (mapM (fun tr => apply_caster (fst tr) (snd tr))
                (combine cast (split line))) as [vs| |]; cbn [bind];
      try (intros H; exact H).
    destruct (match current st with Some "time"%string => true | _ => false end);
      [|intros H; exact H].
    match goal with
    | |- context [time_check false sf ?st0 ?v] =>
        destruct (time_check false sf st0 v) as [c| |] eqn:E; cbn [bind];
        try discriminate;
        destruct c as [s0| |]; try discriminate;
        rewrite (time_check_any_shared sh sf st0 s0 v E); cbn [bind];
        intros H; exact H
    end.
  - destruct (match current st with Some "atoms"%string => true | _ => false end);
      [|intros H; exact H].
    destruct (contains "ITEM" line); [discriminate | intros H; exact H].
Qed.

Lemma read_loop_go (sh : bool) (st st' : state) (b : string)
    (rest : list string) :
  read_line false None st (b ++ nl)%string = Ret (Continue st') ->
  read_loop sh None st ((b ++ nl)%string :: rest) = read_loop sh None st' rest.
Proof.
  intros H. apply read_loop_step. apply read_line_any_shared. exact H.
Qed.


Section OneRecord.

Variables (idx : Z) (p q r : bool) (a1 a2 b1 b2 c1 c2 : float).
Variables (kinds : list (string * dtype)) (atoms : list atom).

Let D : data :=
  mkData idx (p, q, r) ((a1, a2), (b1, b2), (c1, c2)) kinds atoms.

Hypothesis Hreg : regular D.

Variable ix : pyval.
Hypothesis Hix : ix = VNone \/ ix = VInt idx.

Variable sh : bool.


End OneRecord.



End SharedRun.



(** ** The round trip of a dump *)

Module DumpTrip.
Import Str Shape Record Timestep DigitFacts TextFacts ParseFacts.












End DumpTrip.

Module InsertFacts.
Import Dump.




End InsertFacts.



(** ** The loop of [Dump] ends *)

Module Progress.
Import Timestep.

(** [_read] leaves the file where it was or further. *)
Lemma read_loop_shorter (sh : bool) (sf : option (list Z)) (f : cursor) :
  forall st d i c,
    read_loop sh sf st f = Ret (d, i, c) ->
    (List.length c <= List.length f)%nat.
Proof.
  induction f as [|line rest IH]; intros st d i c H; cbn [read_loop] in H.
  - injection H as _ _ <-. cbn. lia.
  - destruct (line =? "")%string.
    + injection H as _ _ <-. cbn. lia.
    + destruct (read_line sh sf st line) as [[st'|st' rewind|d0]| |];
        cbn [bind] in H; try discriminate.
      * apply IH in H. cbn [List.length]. lia.
      * injection H as _ _ <-. destruct rewind; cbn [List.length]; lia.
      * injection H as _ _ <-. cbn [List.length]. lia.
Qed.

(** The first line that a call reads is not where the call breaks off. *)
Lemma first_line_goes_on (sh : bool) (sf : option (list Z)) (ix : pyval)
    (line : string) (st' : state) (rewind : bool) :
  read_line sh sf (init_state ix) line <> Ret (Break st' rewind).
Proof.
  unfold read_line, init_state. cbn [itemstack]. unfold read_header.
  cbn [laststep timeskip negb itemstack result xkeys index current].
  destruct (Str.contains "ITEM: TIMESTEP" line); [discriminate|].
  destruct (Str.contains "ITEM: NUMBER OF ATOMS" line); [discriminate|].
  destruct (Str.contains "ITEM: BOX BOUNDS" line); [discriminate|].
  destruct (Str.contains "ITEM: ATOMS" line); [|discriminate].
  destruct (7 <? List.length (Str.split line))%nat; [|discriminate].
  destruct (atom_keys (skipn 7 (Str.split line))
              (Dict.set (Dict.set (Dict.set [] "type" (VList [])) "id"
                           (VList [])) "xyz" (VList [])) []).
  discriminate.
Qed.

(** A call that returns a [raw] with something in it has read a line. *)
Lemma read_loop_progress (sh : bool) (sf : option (list Z)) (ix : pyval)
    (f c : cursor) (d : pydict) (i : pyval) :
  read_loop sh sf (init_state ix) f = Ret (d, i, c) ->
  d <> [] ->
  (List.length c < List.length f)%nat.
Proof.
  intros H Hd. destruct f as [|line rest]; cbn [read_loop] in H.
  - injection H as <- _ _. congruence.
  - destruct (line =? "")%string.
    + injection H as <- _ _. cbn [init_state result] in Hd. congruence.
    + destruct (read_line sh sf (init_state ix) line)
        as [[st'|st' rewind|d0]| |] eqn:E; cbn [bind] in H; try discriminate.
      * apply read_loop_shorter in H. cbn [List.length]. lia.
      * exfalso. exact (first_line_goes_on _ _ _ _ _ _ E).
      * injection H as _ _ <-. cbn [List.length]. lia.
Qed.

(** A time step with atoms has read at least one line. *)
Lemma init_progress (file : list string) (filepath : string)
    (index : option Z) (f : cursor) (sf : option (list Z)) (ts : t)
    (c : option cursor) (w : list (list pyval)) (n : nat) :
  __init__ file filepath index (Some f) sf = Ret (ts, c, w) ->
  __len__ ts = Ret (S n) ->
  exists f', c = Some f' /\ (List.length f' < List.length f)%nat.
Proof.
  intros H Hn. unfold __init__, _read in H.
  destruct (read_loop true sf
              (init_state
                 (match index with Some k => VInt k | None => VNone end)) f)
    as [[[raw i] f']| |] eqn:Er; cbn [bind] in H; try discriminate.
  cbv zeta in H.
  destruct (List.length raw <? 6)%nat eqn:El.
  - injection H as <- _ _. discriminate Hn.
  - exists f'. split.
    + repeat match type of H with
             | context [bind ?m _] =>
                 destruct m; cbn [bind] in H; try discriminate H
             end.
      all: match type of H with
           | context [if ?b then _ else _] => destruct b
           end.
      all: try discriminate H.
      all: injection H as _ <- _; reflexivity.
    + apply (read_loop_progress _ _ _ _ _ _ _ Er).
      intros ->. discriminate El.
Qed.


End Progress.

(** A time step with atoms has read at least one line: when
    [Timestep(filepath, index, openf)] on a shared open file returns a time
    step that is not empty, the file is left strictly further than the
    call found it. So the loop of [Dump] ends: it makes no more calls than
    the file has lines, plus one. *)
Theorem nonempty_step_consumes_a_line (file : list string) (filepath : string)
    (index : option Z) (f : cursor) (sf : option (list Z)) (ts : Timestep.t)
    (c : option cursor) (w : list (list pyval)) (n : nat) :
  Timestep.__init__ file filepath index (Some f) sf = Ret (ts, c, w) ->
  Timestep.__len__ ts = Ret (S n) ->
  exists f', c = Some f' /\ (List.length f' < List.length f)%nat.
Proof.
  exact (Progress.init_progress file filepath index f sf ts c w n).
Qed.


Lemma nonempty_step_consumes_witness :
  exists f',
    Some (skipn 10 Sample.two_steps) = Some f'
    /\ (List.length f' < List.length Sample.two_steps)%nat.
Proof.
  apply (nonempty_step_consumes_a_line [] "two.dump" None Sample.two_steps
           None (Sample.parsed Sample.two_steps "two.dump")
           (Some (skipn 10 Sample.two_steps)) [] 0).
  - vm_compute. reflexivity.
  - vm_compute. reflexivity.
Defined.


(** ** A blank line among the atoms *)

Module UptoAtoms.
Import Str Num Shape Field Record DigitFacts TextFacts NumFacts FormatFacts
  Timestep DumpFacts WriteFacts ParseFacts HeaderFacts AtomsRun BuildFacts
  SharedRun.

Lemma atoms_upto (sh : bool) (D : data) (todo : list atom)
    (rest : list string) :
  NoDup ("ids"%string :: names D) ->
  Forall (fun a => Forall2 cell_ok (d_kinds D) (a_cells a)) todo ->
  forall done,
    read_loop sh None (Raw.reading D done)
      (map (fun b => (b ++ nl)%string)
         (map (fun a => join " " (atom_tokens a)) todo) ++ rest)
    = read_loop sh None (Raw.reading D (done ++ map reread_atom todo)) rest.
Proof.
  intros Hnd Hok. induction Hok as [|a todo Ha _ IH]; intros done.
  - cbn [map app]. rewrite app_nil_r. reflexivity.
  - cbn [map app].
    rewrite (read_loop_go sh _ _ _ _ (atom_step D done a Hnd Ha)).
    rewrite IH, <- app_assoc. reflexivity.
Qed.

(** The text of [D]: the parser is left among the atoms, with every atom
    of [D] read. *)
Lemma read_upto (sh : bool) (ix : pyval) (D : data) (rest : list string) :
  regular D ->
  ix = VNone \/ ix = VInt (d_index D) ->
  read_loop sh None (init_state ix) (File.lines (Record.text D) ++ rest)
  = read_loop sh None (Raw.reading (reread D) (d_atoms (reread D))) rest.
Proof.
  intros Hreg Hix. rewrite (lines_text D Hreg).
  destruct D as [idx [[p q] r] [[[a1 a2] [b1 b2]] [c1 c2]] kinds atoms].
  cbn [d_index] in Hix.
  unfold bodies. rewrite !map_app. cbn [map app].
  rewrite <- !app_assoc. cbn [app].
  rewrite (read_loop_go sh _ _ _ _ (title_step ix)).
  rewrite (read_loop_go sh _ _ _ _ (time_step idx ix Hix)).
  rewrite (read_loop_go sh _ _ _ _ (natoms_title_step idx)).
  rewrite (read_loop_go sh _ _ _ _ (natoms_step idx _)).
  rewrite (read_loop_go sh _ _ _ _
             (box_title_step idx p q r a1 a2 b1 b2 c1 c2 kinds atoms Hreg _)).
  unfold box_rows, Raw.box_casters. cbn [d_box map fst snd app].
  erewrite read_loop_go; [| rewrite box_row_step; reflexivity].
  erewrite read_loop_go; [| rewrite box_row_step; reflexivity].
  erewrite read_loop_go; [| rewrite box_row_step; reflexivity].
  pose proof (atoms_title_step idx p q r a1 a2 b1 b2 c1 c2 kinds atoms Hreg
                ix Hix) as Ha.
  cbn [d_atoms]. rewrite <- (length_map reread_atom atoms).
  erewrite read_loop_go; [| exact Ha].
  rewrite (atoms_upto sh _ atoms rest).
  - reflexivity.
  - exact (ids_names_nodup idx p q r a1 a2 b1 b2 c1 c2 kinds atoms Hreg ix
             Hix).
  - exact (atoms_cells _ Hreg).
Qed.

(** Lines 318-319 on a line without a token. *)
Lemma blank_atom_line (sh : bool) (D : data) (done : list atom)
    (blank : string) (rest : list string) :
  blank <> ""%string -> split blank = [] -> contains "ITEM" blank = false ->
  read_loop sh None (Raw.reading D done) (blank :: rest) = Raise ValueError.
Proof.
  intros Hne Hs Hi. cbn [read_loop]. rewrite (eqb_nonempty blank Hne).
  unfold read_line, Raw.reading. cbn [itemstack current]. rewrite Hi.
  unfold read_atom. rewrite Hs. reflexivity.
Qed.

End UptoAtoms.

(** A blank line after the atoms of a record makes the constructor raise
    [ValueError]: the line is read as an atom line, and its ids cannot be
    unpacked. So the text that [dump] writes for a regular record, with a
    line of white space after it, is not read back, on a file of the
    call's own and on a shared one. *)
Theorem blank_line_after_atoms_raises (file : list string)
    (filepath : string) (openf : option cursor) (index : option Z)
    (D : Record.data) (blank : string) (rest : list string) :
  Record.regular D ->
  index = None \/ index = Some (Record.d_index D) ->
  blank <> ""%string -> Str.split blank = [] ->
  Str.contains "ITEM" blank = false ->
  match openf with Some f => f | None => file end
    = File.lines (Record.text D) ++ blank :: rest ->
  Timestep.__init__ file filepath index openf None = Raise ValueError.
Proof.
  intros Hreg Hindex Hne Hs Hi Hf.
  assert (Hix : match index with Some k => VInt k | None => VNone end = VNone
                \/ match index with Some k => VInt k | None => VNone end
                   = VInt (Record.d_index D)).
  { destruct Hindex as [->| ->]; [left | right]; reflexivity. }
  unfold Timestep.__init__, Timestep._read.
  destruct openf as [f|]; subst;
    rewrite (UptoAtoms.read_upto _ _ D _ Hreg Hix);
    rewrite (UptoAtoms.blank_atom_line _ _ _ blank rest Hne Hs Hi);
    reflexivity.
Qed.

Lemma blank_line_after_atoms_witness :
  Timestep.__init__
    (File.lines (Record.text Sample.data_0) ++ [Sample.line ""]) "a.dump"
    None None None
  = Raise ValueError.
Proof.
  apply (blank_line_after_atoms_raises
           (File.lines (Record.text Sample.data_0) ++ [Sample.line ""])
           "a.dump" None None Sample.data_0 (Sample.line "") []).
  - split; [discriminate|]. split; [|split].
    + repeat constructor. intros H. exact H.
    + constructor; [|constructor].
      split; [reflexivity|]. split; [reflexivity|].
      intros H. cbn in H.
      repeat (destruct H as [H|H]; [discriminate H|]). exact H.
    + constructor; [|constructor].
      split; [reflexivity|]. split; [reflexivity|].
      constructor; [reflexivity | constructor].
  - left. reflexivity.
  - discriminate.
  - reflexivity.
  - reflexivity.
  - reflexivity.
Defined.

(** ** Looking a time step up in a dump *)

Module LookupFacts.
Import Dump.



End LookupFacts.



(** ** The atoms that [gb] hands on *)

Module GbFacts.
Import Num Record Timestep DumpFacts HeaderFacts.

(** [a[ids]] entry by entry: every index of [sel] is within the bounds,
    counted from the end when it is negative. *)
Lemma mapM_pick {A B : Type} (f : A -> B) (atoms : list A) (m : nat)
    (sel : list Z) (chosen : list A) :
  Forall2
    (fun i a =>
       - Z.of_nat m <= i < Z.of_nat m
       /\ nth_error atoms (Z.to_nat (if i <? 0 then i + Z.of_nat m else i))
          = Some a) sel chosen ->
  mapM (fun i =>
          if ((- Z.of_nat m <=? i) && (i <? Z.of_nat m))%bool then
            match nth_error (map f atoms)
                    (Z.to_nat (if i <? 0 then i + Z.of_nat m else i)) with
            | Some x => Ret x
            | None => Raise IndexError
            end
          else Raise IndexError) sel
  = Ret (map f chosen).
Proof.
  induction 1 as [|i a sel chosen [Hb Hn] _ IH]; [reflexivity|].
  cbn [mapM map].
  replace ((- Z.of_nat m <=? i) && (i <? Z.of_nat m))%bool with true
    by (symmetry; apply andb_true_iff; split;
        [apply Z.leb_le | apply Z.ltb_lt]; lia).
  rewrite nth_error_map, Hn. cbn [option_map bind]. rewrite IH. reflexivity.
Qed.

Section Chosen.

Variables (atoms chosen : list atom) (sel : list Z).
Hypothesis Hsel :
  Forall2
    (fun i a =>
       - Z.of_nat (List.length atoms) <= i < Z.of_nat (List.length atoms)
       /\ nth_error atoms
            (Z.to_nat (if i <? 0 then i + Z.of_nat (List.length atoms) else i))
          = Some a) sel chosen.

Lemma take_ints (f : atom -> Z) :
  take (VArray (IntVec (map f atoms))) (VArray (IntVec sel))
  = Ret (VArray (IntVec (map f chosen))).
Proof.
  unfold take. cbn [Np.len]. rewrite length_map.
  rewrite (mapM_pick f atoms _ sel chosen Hsel). reflexivity.
Qed.

Lemma take_floats (f : atom -> float) :
  take (VArray (FloatVec (map f atoms))) (VArray (IntVec sel))
  = Ret (VArray (FloatVec (map f chosen))).
Proof.
  unfold take. cbn [Np.len]. rewrite length_map.
  rewrite (mapM_pick f atoms _ sel chosen Hsel). reflexivity.
Qed.

Lemma take_rows (c : nat) (f : atom -> list float) :
  take (VArray (FloatMat c (map f atoms))) (VArray (IntVec sel))
  = Ret (VArray (FloatMat c (map f chosen))).
Proof.
  unfold take. cbn [Np.len]. rewrite length_map.
  rewrite (mapM_pick f atoms _ sel chosen Hsel). reflexivity.
Qed.

Lemma take_column (k : dtype) (j : nat) :
  take (VArray (column k j atoms)) (VArray (IntVec sel))
  = Ret (VArray (column k j chosen)).
Proof.
  destruct k; [apply take_ints | apply take_floats].
Qed.

End Chosen.

Lemma get_snoc_other (x : pydict) (n name : string) (v : pyval) :
  Dict.get x name = None -> n <> name ->
  Dict.get (x ++ [(n, v)]) name = None.
Proof.
  intros Hx Hn. rewrite get_app, Hx. cbn [Dict.get].
  apply String.eqb_neq in Hn. rewrite Hn. reflexivity.
Qed.

Section OneRecord.

Variables (filepath : string) (D : data) (xnames : list string).
Variables (chosen : list atom) (sel : list Z).
Hypothesis Hreg : regular D.
Hypothesis Hsel :
  Forall2
    (fun i a =>
       - Z.of_nat (List.length (d_atoms D)) <= i
         < Z.of_nat (List.length (d_atoms D))
       /\ nth_error (d_atoms D)
            (Z.to_nat (if i <? 0
                       then i + Z.of_nat (List.length (d_atoms D)) else i))
          = Some a) sel chosen.

(** Lines 155-156 on the names of the columns, from the column [j] on. *)
Lemma gb_extras_columns (kinds : list (string * dtype)) :
  forall (j : nat) (x : pydict),
    (forall p name k,
        nth_error kinds p = Some (name, k) ->
        nth_error (d_kinds D) (j + p) = Some (name, k)) ->
    NoDup (map fst kinds) ->
    (forall name, In name (map fst kinds) -> Dict.get x name = None) ->
    gb_extras (record_of filepath D xnames) (VArray (IntVec sel))
      (map VStr (map fst kinds)) x
    = Ret (x ++ column_attrs j kinds chosen).
Proof.
  induction kinds as [|[n k] kinds IH]; intros j x Hat Hnd Hx.
  - cbn. rewrite app_nil_r. reflexivity.
  - cbn [map fst gb_extras as_str bind column_attrs].
    pose proof (Hat 0%nat n k eq_refl) as H0. rewrite Nat.add_0_r in H0.
    unfold getattr at 1.
    rewrite (get_column filepath D Hreg j n k xnames H0). cbn [bind].
    rewrite (take_column (d_atoms D) chosen sel Hsel k j). cbn [bind].
    rewrite (set_absent x n _ (Hx n (or_introl eq_refl))).
    cbn [map fst] in Hnd. inversion Hnd as [|? ? Hnot Hnd']; subst.
    rewrite (IH (S j)).
    + rewrite <- app_assoc. reflexivity.
    + intros p name k' Hp. rewrite Nat.add_succ_l, <- Nat.add_succ_r.
      exact (Hat (S p) name k' Hp).
    + exact Hnd'.
    + intros name Hin. apply get_snoc_other.
      * apply Hx. right. exact Hin.
      * intros ->. exact (Hnot Hin).
Qed.

Lemma ids_not_name : ~ In "ids"%string (names D).
Proof.
  apply (reserved_not_name D Hreg). cbn. tauto.
Qed.

Lemma get_ids :
  getattr (record_of filepath D xnames) "ids"
  = Ret (VArray (IntVec (map a_id (d_atoms D)))).
Proof. reflexivity. Qed.

(** Lines 155-156 on the extras of a record as it is built, and as it is
    read back from a dump, where ["ids"] comes twice. *)
Lemma gb_extras_all :
  xnames = names D \/ xnames = ("ids"%string :: names D) ->
  gb_extras (record_of filepath D xnames) (VArray (IntVec sel))
    (map VStr ("ids"%string :: xnames)) []
  = Ret (("ids"%string, VArray (IntVec (map a_id chosen)))
         :: column_attrs 0 (d_kinds D) chosen).
Proof.
  assert (Hcols :
    forall x,
      (forall name, In name (names D) -> Dict.get x name = None) ->
      gb_extras (record_of filepath D xnames) (VArray (IntVec sel))
        (map VStr (names D)) x
      = Ret (x ++ column_attrs 0 (d_kinds D) chosen)).
  { intros x Hx. unfold names. apply gb_extras_columns.
    - intros p name k Hp. exact Hp.
    - destruct Hreg as (_ & Hnd & _). exact Hnd.
    - exact Hx. }
  assert (Hfresh :
    forall name, In name (names D) ->
      Dict.get [("ids"%string, VArray (IntVec (map a_id chosen)))] name = None).
  { intros name Hin. cbn [Dict.get].
    destruct (String.eqb_spec "ids" name) as [<-|_]; [|reflexivity].
    exfalso. exact (ids_not_name Hin). }
  intros [Hx|Hx]; rewrite Hx at 2.
  - cbn [map gb_extras as_str bind]. rewrite get_ids. cbn [bind].
    rewrite (take_ints (d_atoms D) chosen sel Hsel a_id).
    cbn [bind Dict.set]. rewrite (Hcols _ Hfresh). reflexivity.
  - cbn [map gb_extras as_str bind]. rewrite get_ids. cbn [bind].
    rewrite (take_ints (d_atoms D) chosen sel Hsel a_id).
    cbn [bind Dict.set]. rewrite String.eqb_refl.
    rewrite (Hcols _ Hfresh). reflexivity.
Qed.

End OneRecord.

End GbFacts.

(** [gb] on a regular record, built or read back from a dump, that has no
    column named ["gbids"]: the selection routine of the method is called
    once, with the positions, the values of [pattr] and the types of all
    atoms, and when it returns indices within the bounds (negative ones
    counting from the end) [GrainBoundary] is called once, with the
    positions and the types of the chosen atoms in the order of the
    indices, the whole box, [Z] and, with [extras] true, one entry for
    ["ids"] and one for every column, each holding the entries of the
    chosen atoms; with [extras] false it gets [None]. What [GrainBoundary]
    returns or raises is what [gb] returns or raises. *)
Theorem gb_passes_chosen_atoms
    (sel_median sel_cna_max : pyval -> pyval -> pyval -> pydict -> res pyval)
    (GrainBoundary :
       pyval -> pyval -> pyval -> pyval -> option pydict -> pydict -> res pyval)
    (filepath : string) (D : Record.data) (xnames : list string) (species : pyval)
    (method pattr : string) (extras : bool) (soapargs kwargs : pydict)
    (vals : pyval) (sel : list Z) (chosen : list Record.atom) :
  let R := Record.record_of filepath D xnames in
  let xyz :=
    VArray (FloatMat 3 (map (fun a => [Record.a_x a; Record.a_y a;
                                        Record.a_z a]) (Record.d_atoms D))) in
  let types := VArray (IntVec (map Record.a_type (Record.d_atoms D))) in
  let sxyz :=
    VArray (FloatMat 3 (map (fun a => [Record.a_x a; Record.a_y a;
                                        Record.a_z a]) chosen)) in
  let stypes := VArray (IntVec (map Record.a_type chosen)) in
  let box := VArray (FloatMat 2 (Record.box_rows D)) in
  let x :=
    if extras then
      Some (("ids"%string, VArray (IntVec (map Record.a_id chosen)))
            :: Record.column_attrs 0 (Record.d_kinds D) chosen)
    else None in
  Record.regular D ->
  ~ In "gbids"%string (Record.names D) ->
  xnames = Record.names D \/ xnames = ("ids"%string :: Record.names D) ->
  species <> VNone ->
  Timestep.getattr R pattr = Ret vals ->
  (method = "median"%string
   /\ sel_median xyz vals types kwargs = Ret (VArray (IntVec sel)))
  \/ (method = "cna"%string
      /\ sel_cna_max xyz vals types kwargs = Ret (VArray (IntVec sel))) ->
  Forall2
    (fun i a =>
       - Z.of_nat (List.length (Record.d_atoms D)) <= i
         < Z.of_nat (List.length (Record.d_atoms D))
       /\ nth_error (Record.d_atoms D)
            (Z.to_nat
               (if i <? 0
                then i + Z.of_nat (List.length (Record.d_atoms D)) else i))
          = Some a) sel chosen ->
  Timestep.gb sel_median sel_cna_max GrainBoundary R species method pattr extras
    soapargs kwargs
  = ([Timestep.CallSelection method xyz vals types kwargs;
      Timestep.CallGrainBoundary sxyz stypes box species x soapargs],
     GrainBoundary sxyz stypes box species x soapargs).
Proof.
  intros R xyz types sxyz stypes box x Hreg Hgb Hx HZ Hp Hm Hsel.
  assert (Gx : Timestep.getattr R "xyz" = Ret xyz) by reflexivity.
  assert (Gt : Timestep.getattr R "types" = Ret types) by reflexivity.
  assert (Ge : Timestep.getattr R "extras"
               = Ret (VList (map VStr ("ids"%string :: xnames))))
    by reflexivity.
  assert (Gb : Timestep.getattr R "box" = Ret box).
  { unfold Timestep.getattr, R.
    rewrite (DumpFacts.get_skip_columns filepath D "box" xnames).
    - reflexivity.
    - apply (DumpFacts.reserved_not_name D Hreg). cbn. tauto. }
  assert (Gm : Dict.mem R "gbids" = false).
  { unfold Dict.mem, R.
    rewrite (DumpFacts.get_skip_columns filepath D "gbids" xnames Hgb).
    reflexivity. }
  assert (Gi : Timestep.gbids sel_median sel_cna_max R method pattr kwargs
               = ([Timestep.CallSelection method xyz vals types kwargs],
                  Ret (VArray (IntVec sel)))).
  { unfold Timestep.gbids. rewrite Gx, Hp, Gt. cbn [bind].
    destruct Hm as [[-> Hs]|[-> Hs]]; cbn [String.eqb Ascii.eqb Bool.eqb];
      rewrite Hs; reflexivity. }
  assert (Gz : Timestep.is_none species = false).
  { destruct species; try reflexivity. contradiction HZ. reflexivity. }
  assert (Tx : Timestep.take xyz (VArray (IntVec sel)) = Ret sxyz)
    by exact (GbFacts.take_rows _ chosen sel Hsel 3 _).
  assert (Tt : Timestep.take types (VArray (IntVec sel)) = Ret stypes)
    by exact (GbFacts.take_ints _ chosen sel Hsel Record.a_type).
  unfold Timestep.gb. rewrite Gz, Gm, Gi. cbv iota.
  destruct extras.
  - rewrite Ge. cbn [bind Py.iter].
    unfold R at 1.
    rewrite (GbFacts.gb_extras_all filepath D xnames chosen sel Hreg Hsel Hx).
    cbn [bind]. rewrite Gx. cbn [bind]. rewrite Tx. cbn [bind].
    rewrite Gt. cbn [bind]. rewrite Tt. cbn [bind]. rewrite Gb. cbn [bind].
    reflexivity.
  - cbn [bind]. rewrite Gx. cbn [bind]. rewrite Tx. cbn [bind].
    rewrite Gt. cbn [bind]. rewrite Tt. cbn [bind]. rewrite Gb. cbn [bind].
    reflexivity.
Qed.

Lemma gb_passes_chosen_atoms_witness :
  Timestep.gb (fun _ _ _ _ => Ret (VArray (IntVec [-1])))
    (fun _ _ _ _ => Unmodelled) (fun _ _ _ _ _ _ => Ret VNone)
    (Record.record_of "a.dump" Sample.data_0 ["c_csd"%string]) (VInt 13)
    "median" "c_csd" true [] []
  = ([Timestep.CallSelection "median"
        (VArray (FloatMat 3 [[1.5; 2.5; 3.5]]%float))
        (VArray (FloatVec [0.25%float])) (VArray (IntVec [4])) [];
      Timestep.CallGrainBoundary (VArray (FloatMat 3 [[1.5; 2.5; 3.5]]%float))
        (VArray (IntVec [4]))
        (VArray (FloatMat 2 [[0; 10]; [0; 10]; [-5; 5.5]]%float)) (VInt 13)
        (Some [("ids"%string, VArray (IntVec [1]));
               ("c_csd"%string, VArray (FloatVec [0.25%float]))]) []],
     Ret VNone).
Proof.
  apply (gb_passes_chosen_atoms (fun _ _ _ _ => Ret (VArray (IntVec [-1])))
           (fun _ _ _ _ => Unmodelled) (fun _ _ _ _ _ _ => Ret VNone)
           "a.dump" Sample.data_0 ["c_csd"%string] (VInt 13) "median" "c_csd"
           true [] [] (VArray (FloatVec [0.25%float])) [-1]
           (Record.d_atoms Sample.data_0)).
  - split; [discriminate|]. split; [|split].
    + repeat constructor. intros H. exact H.
    + constructor; [|constructor].
      split; [reflexivity|]. split; [reflexivity|].
      intros H. cbn in H.
      repeat (destruct H as [H|H]; [discriminate H|]). exact H.
    + constructor; [|constructor].
      split; [reflexivity|]. split; [reflexivity|].
      constructor; [reflexivity | constructor].
  - intros H. cbn in H. destruct H as [H|H]; [discriminate H | exact H].
  - left. reflexivity.
  - discriminate.
  - reflexivity.
  - left. split; reflexivity.
  - constructor; [|constructor]. split; [cbn; lia | reflexivity].
Defined.
